(** * FouserBot: reply grammar, plan versioning and session handling

    A shallow embedding of [Fouserbot.py].  Python text is a sequence of
    Unicode code points; the Supabase tables, the Telegram transport, the
    per-user [user_data] dictionaries, the logger and the heap of [dict]
    objects are the components of an explicit world that the methods of
    [FouserBot] transform.

    What can fail is in the world too.  A request to the store raises
    when the fault schedule says so.  [json.loads] returns a value,
    raises [JSONDecodeError], or raises another exception ([ValueError]
    for an [int] with too many digits, [RecursionError]), under the two
    settings of the interpreter it depends on.  Telegram refuses a text
    for what the text holds (empty, too long, or refused by the world's
    oracle) and a call of [reply_text] with such a text raises; a failure
    of the network between the bot and Telegram is not modelled. *)

From Stdlib Require Import NArith ZArith List Ascii String Lia Bool.
From stdpp Require Import base option list gmap.

Set Warnings "-register-all".
Open Scope N_scope.

(** ** Python [str] *)

Module PyStr.

(** A [str] is its list of code points. *)
Definition str := list N.

(** An ASCII literal of the source, as a [str]. *)
Definition lit (s : string) : str := map N_of_ascii (list_ascii_of_string s).

(** The same, for a literal that holds double quotes: each apostrophe of
    [s] stands for one. *)
Definition litq (s : string) : str :=
  map (fun c => if c =? 39 then 34 else c) (lit s).

Arguments lit : simpl never.
Arguments litq : simpl never.

(** [str.isspace] on one character, which is also what [\s] matches in a
    [str] pattern: U+0009..U+000D, U+001C..U+0020, U+0085, U+00A0, U+1680,
    U+2000..U+200A, U+2028, U+2029, U+202F, U+205F and U+3000. *)
Definition isspace (c : N) : bool :=
  ((9 <=? c) && (c <=? 13)) || ((28 <=? c) && (c <=? 32))
  || (c =? 133) || (c =? 160) || (c =? 5760)
  || ((8192 <=? c) && (c <=? 8202))
  || (c =? 8232) || (c =? 8233) || (c =? 8239) || (c =? 8287) || (c =? 12288).

(** Equality of two texts, as a boolean. *)
Fixpoint str_eqb (a b : str) : bool :=
  match a, b with
  | [], [] => true
  | x :: a', y :: b' => (x =? y) && str_eqb a' b'
  | _, _ => false
  end.

(** [t.startswith(p)]. *)
Fixpoint startswith (p t : str) : bool :=
  match p with
  | [] => true
  | x :: p' =>
      match t with
      | [] => false
      | y :: t' => (x =? y) && startswith p' t'
      end
  end.

(** [p in t]: [p] occurs in [t] as a substring. *)
Fixpoint contains (p t : str) : bool :=
  startswith p t ||
  match t with
  | [] => false
  | _ :: t' => contains p t'
  end.

(** [t.find(p)]: where [p] first occurs in [t]; [None] stands for -1. *)
Fixpoint find (p t : str) : option nat :=
  if startswith p t then Some 0%nat
  else match t with
       | [] => None
       | _ :: t' => option_map S (find p t')
       end.

(** The scan of [str.replace] for a non-empty [old]: occurrences are
    found left to right and do not overlap; [skip] counts the characters
    of the occurrence being dropped. *)
Fixpoint replace_from (old new : str) (skip : nat) (t : str) : str :=
  match t with
  | [] => []
  | c :: t' =>
      match skip with
      | S k => replace_from old new k t'
      | O =>
          if startswith old t
          then new ++ replace_from old new (length old - 1) t'
          else c :: replace_from old new 0 t'
      end
  end.

(** [t.replace(old, new)].  With an empty [old] Python puts [new] before
    every character and at the end. *)
Definition replace (old new t : str) : str :=
  match old with
  | [] => new ++ flat_map (fun c => c :: new) t
  | _ :: _ => replace_from old new 0 t
  end.

(** [t.lstrip()], [t.rstrip()] and [t.strip()]. *)
Fixpoint lstrip (t : str) : str :=
  match t with
  | [] => []
  | c :: t' => if isspace c then lstrip t' else t
  end.

Fixpoint rstrip (t : str) : str :=
  match t with
  | [] => []
  | c :: t' =>
      match rstrip t' with
      | [] => if isspace c then [] else [c]
      | r => c :: r
      end
  end.

Definition strip (t : str) : str := rstrip (lstrip t).

(** [t[i:j]] for [0 <= i <= j]. *)
Definition slice (i j : nat) (t : str) : str := take (j - i) (drop i t).

End PyStr.

Export PyStr.

(** ** The fragment of [re] the bot uses *)

Module Re.

(** One-character matchers.  [LitI] is a literal compiled with
    [re.IGNORECASE]; [Dot] is [.] compiled with [re.DOTALL]. *)
Inductive atom :=
| Lit (c : N)
| LitI (c : N)
| Space
| Dot.

(** The simple lower-case mapping, exact on every character whose
    lower-case form is ASCII: A..Z, U+0130 and U+212A.  A comparison with
    an ASCII pattern character observes nothing else. *)
Definition tolower (c : N) : N :=
  if (65 <=? c) && (c <=? 90) then c + 32
  else if c =? 304 then 105
  else if c =? 8490 then 107
  else c.

(** The extra equivalences of case-insensitive matching that lower-casing
    misses, for the ASCII letters: U+017F (long s) with [s] and U+0131
    (dotless i) with [i]. *)
Definition ignorecase_fix (p c : N) : bool :=
  ((p =? 115) && (tolower c =? 383)) || ((p =? 105) && (tolower c =? 305)).

Definition atom_ok (a : atom) (c : N) : bool :=
  match a with
  | Lit p => p =? c
  | LitI p => (tolower c =? tolower p) || ignorecase_fix (tolower p) c
  | Space => isspace c
  | Dot => true
  end.

(** A pattern is a sequence of items: one character, a greedy star, a
    lazy star, and the two ends of capture group 1. *)
Inductive item :=
| One (a : atom)
| Greedy (a : atom)
| Lazy (a : atom)
| GroupOpen
| GroupClose.

Definition regex := list item.

(** A match: where it ends and the span of group 1, as positions in the
    searched text. *)
Record rmatch := { m_end : nat; g1_start : nat; g1_end : nat }.

(** Backtracking match of [r] against the text [t] that starts at
    position [pos].  A greedy star tries the longest repetition first, a
    lazy one the shortest. *)
Fixpoint match_here (r : regex) (t : str) (pos : nat) {struct r} : option rmatch :=
  match r with
  | [] => Some {| m_end := pos; g1_start := 0; g1_end := 0 |}
  | One a :: r' =>
      match t with
      | c :: t' => if atom_ok a c then match_here r' t' (S pos) else None
      | [] => None
      end
  | GroupOpen :: r' =>
      match match_here r' t pos with
      | Some m => Some {| m_end := m_end m; g1_start := pos; g1_end := g1_end m |}
      | None => None
      end
  | GroupClose :: r' =>
      match match_here r' t pos with
      | Some m => Some {| m_end := m_end m; g1_start := g1_start m; g1_end := pos |}
      | None => None
      end
  | Greedy a :: r' =>
      (fix star (t : str) (pos : nat) {struct t} : option rmatch :=
         match t with
         | c :: t' =>
             if atom_ok a c
             then match star t' (S pos) with
                  | Some m => Some m
                  | None => match_here r' t pos
                  end
             else match_here r' t pos
         | [] => match_here r' t pos
         end) t pos
  | Lazy a :: r' =>
      (fix star (t : str) (pos : nat) {struct t} : option rmatch :=
         match match_here r' t pos with
         | Some m => Some m
         | None =>
             match t with
             | c :: t' => if atom_ok a c then star t' (S pos) else None
             | [] => None
             end
         end) t pos
  end.

(** [re.search]: the match at the leftmost position that has one,
    returned with that position. *)
Fixpoint search_from (r : regex) (t : str) (pos : nat) : option (nat * rmatch) :=
  match match_here r t pos with
  | Some m => Some (pos, m)
  | None =>
      match t with
      | [] => None
      | _ :: t' => search_from r t' (S pos)
      end
  end.

Definition search (r : regex) (t : str) : option (nat * rmatch) := search_from r t 0.

(** [m.group(0)] and [m.group(1)] of a match found in [t]. *)
Definition group0 (t : str) (m : nat * rmatch) : str := slice (fst m) (m_end (snd m)) t.
Definition group1 (t : str) (m : nat * rmatch) : str :=
  slice (g1_start (snd m)) (g1_end (snd m)) t.

Definition literal (s : str) : regex := map (fun c => One (Lit c)) s.
Definition literal_i (s : str) : regex := map (fun c => One (LitI c)) s.

End Re.

(** The two patterns of the source and its two markers. *)
Definition END_OF_PLAN : str := lit "[END_OF_PLAN]".
Definition USER_DATA_JSON : str := lit "[USER_DATA_JSON]".

(** The line feed. *)
Definition lit_nl : str := [10].

(** [r'\[USER_DATA_JSON\]\s*(\{.*?\})'] with [re.DOTALL]. *)
Definition profile_re : Re.regex :=
  Eval cbv in
  (Re.literal USER_DATA_JSON ++
   [Re.Greedy Re.Space; Re.GroupOpen; Re.One (Re.Lit 123); Re.Lazy Re.Dot;
    Re.One (Re.Lit 125); Re.GroupClose])%list.

(** [r'consult a doctor.*'] with [re.IGNORECASE | re.DOTALL]. *)
Definition disclaimer_re : Re.regex :=
  Eval cbv in (Re.literal_i (lit "consult a doctor") ++ [Re.Greedy Re.Dot])%list.

(** ** JSON values and [json.loads] *)

Module Json.

(** What [json.loads] builds.  An [int] is a [JInt]; a [float] is kept as
    the text it was read from (with [NaN], [Infinity] and [-Infinity]),
    so equal [JFloat]s are equal Python floats.  A [dict] keeps its
    insertion order. *)
Inductive json :=
| JNull
| JBool (b : bool)
| JInt (z : Z)
| JFloat (lexeme : str)
| JStr (s : str)
| JArr (l : list json)
| JObj (d : list (str * json)).

(** A Python [dict] with [str] keys. *)
Definition pydict := list (str * json).

(** [d[k] = v]: an existing key keeps its place and takes the new value, a
    new key goes to the end. *)
Fixpoint dict_set (k : str) (v : json) (d : pydict) : pydict :=
  match d with
  | [] => [(k, v)]
  | (k', v') :: d' =>
      if str_eqb k' k then (k', v) :: d' else (k', v') :: dict_set k v d'
  end.

(** [d.get(k)]. *)
Fixpoint dict_get (k : str) (d : pydict) : option json :=
  match d with
  | [] => None
  | (k', v') :: d' => if str_eqb k' k then Some v' else dict_get k d'
  end.

(** The truth value of a [dict]: false exactly when it is empty. *)
Definition dict_truthy (d : pydict) : bool :=
  match d with [] => false | _ :: _ => true end.

(** JSON whitespace: space, tab, line feed, carriage return. *)
Definition is_ws (c : N) : bool := (c =? 32) || (c =? 9) || (c =? 10) || (c =? 13).

Fixpoint skip_ws (s : str) : str :=
  match s with
  | [] => []
  | c :: s' => if is_ws c then skip_ws s' else s
  end.

Definition is_digit (c : N) : bool := (48 <=? c) && (c <=? 57).

(** The longest run of ASCII digits at the head of [s], and what follows. *)
Fixpoint span_digits (s : str) : str * str :=
  match s with
  | [] => ([], [])
  | c :: s' =>
      if is_digit c
      then let '(ds, r) := span_digits s' in (c :: ds, r)
      else ([], s)
  end.

Definition digits_value (ds : str) : Z :=
  fold_left (fun acc c => (10 * acc + Z.of_N (c - 48))%Z) ds 0%Z.

Definition hex_value (c : N) : option N :=
  if is_digit c then Some (c - 48)
  else if (97 <=? c) && (c <=? 102) then Some (c - 87)
  else if (65 <=? c) && (c <=? 70) then Some (c - 55)
  else None.

Definition hex4 (a b c d : N) : option N :=
  match hex_value a, hex_value b, hex_value c, hex_value d with
  | Some x, Some y, Some z, Some w => Some (((x * 16 + y) * 16 + z) * 16 + w)
  | _, _, _, _ => None
  end.

(** The character a one-letter escape stands for. *)
Definition backslash (e : N) : option N :=
  if e =? 34 then Some 34
  else if e =? 92 then Some 92
  else if e =? 47 then Some 47
  else if e =? 98 then Some 8
  else if e =? 102 then Some 12
  else if e =? 110 then Some 10
  else if e =? 114 then Some 13
  else if e =? 116 then Some 9
  else None.

Definition is_high_surrogate (u : N) : bool := (55296 <=? u) && (u <=? 56319).
Definition is_low_surrogate (u : N) : bool := (56320 <=? u) && (u <=? 57343).

Definition cons_char (c : N) (r : option (str * str)) : option (str * str) :=
  match r with
  | Some (cs, rest) => Some (c :: cs, rest)
  | None => None
  end.

(** [scanstring] in strict mode, from just after the opening quote: the
    decoded text and what follows the closing quote.  A raw control
    character, an unknown escape or a missing closing quote is an error.
    A high surrogate escape directly followed by a low surrogate escape
    is one character. *)
Fixpoint scan_string (s : str) : option (str * str) :=
  match s with
  | [] => None
  | c :: s' =>
      if c =? 34 then Some ([], s')
      else if c <? 32 then None
      else if c =? 92 then
        match s' with
        | [] => None
        | e :: s'' =>
            if e =? 117 then
              match s'' with
              | h1 :: h2 :: h3 :: h4 :: s3 =>
                  match hex4 h1 h2 h3 h4 with
                  | None => None
                  | Some u =>
                      match s3 with
                      | b :: v :: l1 :: l2 :: l3 :: l4 :: s4 =>
                          match hex4 l1 l2 l3 l4 with
                          | Some u2 =>
                              if is_high_surrogate u && (b =? 92) && (v =? 117)
                                 && is_low_surrogate u2
                              then cons_char
                                     (65536 + ((u - 55296) * 1024 + (u2 - 56320)))
                                     (scan_string s4)
                              else cons_char u (scan_string s3)
                          | None => cons_char u (scan_string s3)
                          end
                      | _ => cons_char u (scan_string s3)
                      end
                  end
              | _ => None
              end
            else
              match backslash e with
              | Some x => cons_char x (scan_string s'')
              | None => None
              end
        end
      else cons_char c (scan_string s')
  end.

(** The two settings of the interpreter that [json.loads] depends on:
    [sys.get_int_max_str_digits()], where 0 stands for no limit, and how
    many arrays and objects, one inside the other, the decoder can enter
    before the recursion limit stops it. *)
Record interpreter := { int_max_str_digits : nat; recursion_room : nat }.

(** What a scan gives: a value and the text after it, [JSONDecodeError]
    ([Malformed]), or another exception ([Raises]): the [ValueError] of
    [int] for too many digits, or [RecursionError]. *)
Inductive scanned :=
| Scanned (v : json) (rest : str)
| Malformed
| Raises.

(** [int] refuses a digit string longer than the limit; the sign does not
    count. *)
Definition int_refused (py : interpreter) (digits : str) : bool :=
  negb (int_max_str_digits py =? 0)%nat && (int_max_str_digits py <? length digits)%nat.

(** The number at the head of [s]: an optional minus sign, then 0 or a
    digit string that does not start with 0, then an optional fraction (a
    dot and digits), then an optional exponent (e or E, an optional sign,
    digits).  It is an [int] when there is neither fraction nor exponent,
    a [float] otherwise; the whole number is read before it is
    converted. *)
Definition scan_number (py : interpreter) (s : str) : scanned :=
  let '(sign, s1) :=
    match s with
    | c :: s' => if c =? 45 then ([45], s') else ([], s)
    | [] => ([], s)
    end in
  match s1 with
  | [] => Malformed
  | d :: s2 =>
      let int_part :=
        if d =? 48 then Some ([d], s2)
        else if is_digit d
             then let '(ds, r) := span_digits s2 in Some (d :: ds, r)
             else None in
      match int_part with
      | None => Malformed
      | Some (ip, r1) =>
          let '(frac, r2) :=
            match r1 with
            | p :: r1' =>
                if p =? 46
                then match span_digits r1' with
                     | ([], _) => ([], r1)
                     | (fs, r) => (p :: fs, r)
                     end
                else ([], r1)
            | [] => ([], r1)
            end in
          let '(expo, r3) :=
            match r2 with
            | e :: r2' =>
                if (e =? 101) || (e =? 69)
                then
                  let '(sg, r2'') :=
                    match r2' with
                    | g :: t => if (g =? 43) || (g =? 45) then ([g], t) else ([], r2')
                    | [] => ([], r2')
                    end in
                  match span_digits r2'' with
                  | ([], _) => ([], r2)
                  | (es, r) => (e :: sg ++ es, r)
                  end
                else ([], r2)
            | [] => ([], r2)
            end in
          match frac, expo with
          | [], [] =>
              if int_refused py ip then Raises
              else Scanned (JInt (match sign with
                                  | [] => digits_value ip
                                  | _ :: _ => - digits_value ip
                                  end)) r3
          | _, _ => Scanned (JFloat (sign ++ ip ++ frac ++ expo)) r3
          end
      end
  end.

(** A literal at the head of [s], dropped. *)
Definition eat (word : string) (s : str) : option str :=
  if startswith (lit word) s then Some (drop (length (lit word)) s) else None.

Definition eaten (word : string) (v : json) (s : str) : scanned :=
  match eat word s with Some r => Scanned v r | None => Malformed end.

(** [scan_once] and the loops over the members of an array and of an
    object.  [depth] counts the arrays and objects that are open: the
    decoder enters one more only while that is less than the room it has.
    [fuel] bounds the depth of the calls: a value inside an array or an
    object costs two and has at least one character before it, so twice
    the length of the text is enough. *)
Fixpoint scan_value (py : interpreter) (depth fuel : nat) (s : str) {struct fuel}
  : scanned :=
  match fuel with
  | O => Malformed
  | S n =>
      match s with
      | [] => Malformed
      | c :: s' =>
          if c =? 34 then
            match scan_string s' with
            | Some (x, r) => Scanned (JStr x) r
            | None => Malformed
            end
          else if c =? 123 then
            if (recursion_room py <=? depth)%nat then Raises
            else
              match skip_ws s' with
              | [] => Malformed
              | c1 :: r1 =>
                  if c1 =? 125 then Scanned (JObj []) r1
                  else scan_pairs py (S depth) n [] (c1 :: r1)
              end
          else if c =? 91 then
            if (recursion_room py <=? depth)%nat then Raises
            else
              match skip_ws s' with
              | [] => Malformed
              | c1 :: r1 =>
                  if c1 =? 93 then Scanned (JArr []) r1
                  else scan_items py (S depth) n [] (c1 :: r1)
              end
          else if c =? 110 then eaten "null" JNull s
          else if c =? 116 then eaten "true" (JBool true) s
          else if c =? 102 then eaten "false" (JBool false) s
          else if c =? 78 then eaten "NaN" (JFloat (lit "NaN")) s
          else if c =? 73 then eaten "Infinity" (JFloat (lit "Infinity")) s
          else if c =? 45 then
            match eat "-Infinity" s with
            | Some r => Scanned (JFloat (lit "-Infinity")) r
            | None => scan_number py s
            end
          else scan_number py s
      end
  end
with scan_items (py : interpreter) (depth fuel : nat) (acc : list json) (s : str)
    {struct fuel} : scanned :=
  match fuel with
  | O => Malformed
  | S n =>
      match scan_value py depth n s with
      | Scanned v r =>
          match skip_ws r with
          | [] => Malformed
          | c :: r1 =>
              if c =? 93 then Scanned (JArr (acc ++ [v])) r1
              else if c =? 44 then scan_items py depth n (acc ++ [v]) (skip_ws r1)
              else Malformed
          end
      | Malformed => Malformed
      | Raises => Raises
      end
  end
with scan_pairs (py : interpreter) (depth fuel : nat) (acc : pydict) (s : str)
    {struct fuel} : scanned :=
  match fuel with
  | O => Malformed
  | S n =>
      match s with
      | [] => Malformed
      | q :: s' =>
          if q =? 34 then
            match scan_string s' with
            | None => Malformed
            | Some (k, r) =>
                match skip_ws r with
                | [] => Malformed
                | c :: r1 =>
                    if c =? 58 then
                      match scan_value py depth n (skip_ws r1) with
                      | Scanned v r2 =>
                          match skip_ws r2 with
                          | [] => Malformed
                          | c2 :: r3 =>
                              if c2 =? 125 then Scanned (JObj (dict_set k v acc)) r3
                              else if c2 =? 44
                                   then scan_pairs py depth n (dict_set k v acc)
                                                   (skip_ws r3)
                                   else Malformed
                          end
                      | Malformed => Malformed
                      | Raises => Raises
                      end
                    else Malformed
                end
            end
          else Malformed
      end
  end.

(** What [json.loads] does: it returns a value, raises
    [JSONDecodeError], or raises something else. *)
Inductive loaded :=
| Loaded (v : json)
| JSONDecodeError
| OtherError.

(** [json.loads(s)]: one value, with whitespace allowed around it and
    nothing else. *)
Definition loads (py : interpreter) (s : str) : loaded :=
  match s with
  | 65279 :: _ => JSONDecodeError
  | _ =>
      match scan_value py 0 (S (2 * length s)) (skip_ws s) with
      | Scanned v r => match skip_ws r with [] => Loaded v | _ :: _ => JSONDecodeError end
      | Malformed => JSONDecodeError
      | Raises => OtherError
      end
  end.

End Json.

Export Json.

(** ** The Supabase tables *)

Module Store.

(** A point in time, for the [start_date] and [end_date] columns;
    [isoformat] keeps the order of the instants it prints. *)
Definition timestamp := Z.

(** A row of [plan_history]; [end_date] is [None] for SQL NULL. *)
Record plan_row := {
  user_id : Z;
  plan_text : str;
  profile_json : pydict;
  start_date : timestamp;
  end_date : option timestamp
}.

(** A row of [conversation_history]. *)
Record turn := { turn_user : Z; sender : str; message_text : str }.

(** The three tables.  A row of [users] is the dictionary of its columns,
    with primary key [user_id]. *)
Record tables := {
  users : list pydict;
  plan_history : list plan_row;
  conversation_history : list turn
}.

(** The requests the bot builds and executes. *)
Inductive request :=
| UsersSelect (uid : Z)
| UsersUpsert (row : pydict)
| PlanSelectActive (uid : Z)
| PlanClose (uid : Z) (now : timestamp)
| PlanInsert (row : plan_row)
| TurnInsert (t : turn).

(** [.eq('user_id', uid)] on a row of [users]. *)
Definition has_user_id (uid : Z) (row : pydict) : bool :=
  match dict_get (lit "user_id") row with
  | Some (JInt z) => (z =? uid)%Z
  | _ => false
  end.

(** [.eq('user_id', uid).is_('end_date', None)] on a row of
    [plan_history]: the active plans of [uid]. *)
Definition is_active (uid : Z) (r : plan_row) : bool :=
  (user_id r =? uid)%Z && match end_date r with None => true | Some _ => false end.

(** [.order('start_date', desc=True)]: a stable insertion sort, latest
    start first. *)
Fixpoint insert_desc (r : plan_row) (l : list plan_row) : list plan_row :=
  match l with
  | [] => [r]
  | x :: l' =>
      if (start_date x <? start_date r)%Z then r :: l else x :: insert_desc r l'
  end.

Fixpoint order_desc (l : list plan_row) : list plan_row :=
  match l with
  | [] => []
  | r :: l' => insert_desc r (order_desc l')
  end.

(** [table('users').select('all columns').eq('user_id', uid)]. *)
Definition users_select (uid : Z) (tb : tables) : list pydict :=
  List.filter (has_user_id uid) (users tb).

(** The columns of [new] written over [old]. *)
Definition merge_row (old new : pydict) : pydict :=
  fold_left (fun acc kv => dict_set (fst kv) (snd kv) acc) new old.

Fixpoint upsert_rows (key : json) (row : pydict) (rows : list pydict) : list pydict :=
  match rows with
  | [] => [row]
  | x :: rows' =>
      match dict_get (lit "user_id") x, key with
      | Some (JInt a), JInt b =>
          if (a =? b)%Z then merge_row x row :: rows'
          else x :: upsert_rows key row rows'
      | _, _ => x :: upsert_rows key row rows'
      end
  end.

(** [table('users').upsert(row)]: the row with the same [user_id] takes
    the columns of [row], or [row] is added.  A row without a primary key
    is refused. *)
Definition users_upsert (row : pydict) (tb : tables) : option tables :=
  match dict_get (lit "user_id") row with
  | Some key =>
      Some {| users := upsert_rows key row (users tb);
              plan_history := plan_history tb;
              conversation_history := conversation_history tb |}
  | None => None
  end.

(** The [plan_text] of the active plan of [uid] that started last
    ([.order('start_date', desc=True).limit(1)]). *)
Definition plan_select_active (uid : Z) (tb : tables) : list str :=
  map plan_text (take 1 (order_desc (List.filter (is_active uid) (plan_history tb)))).

Definition close_row (uid : Z) (now : timestamp) (r : plan_row) : plan_row :=
  if is_active uid r
  then {| user_id := user_id r; plan_text := plan_text r;
          profile_json := profile_json r; start_date := start_date r;
          end_date := Some now |}
  else r.

(** [.update({'end_date': now}).eq('user_id', uid).is_('end_date', None)]. *)
Definition plan_close (uid : Z) (now : timestamp) (tb : tables) : tables :=
  {| users := users tb;
     plan_history := map (close_row uid now) (plan_history tb);
     conversation_history := conversation_history tb |}.

Definition plan_insert (row : plan_row) (tb : tables) : tables :=
  {| users := users tb;
     plan_history := plan_history tb ++ [row];
     conversation_history := conversation_history tb |}.

Definition turn_insert (t : turn) (tb : tables) : tables :=
  {| users := users tb;
     plan_history := plan_history tb;
     conversation_history := conversation_history tb ++ [t] |}.

(** How many plans of [uid] have a null end time. *)
Definition count_active (uid : Z) (tb : tables) : nat :=
  length (List.filter (is_active uid) (plan_history tb)).

End Store.

Export Store.

(** ** The world the bot runs in *)

Module World.

(** What [send_message_async] is given: the note built for a returning
    user (profile, last plan, name, first message), the note for a new
    user, or the user's message as it is. *)
Inductive prompt :=
| ReturningUser (profile : pydict) (last_plan : str) (name : json) (user_message : str)
| NewUser (user_message : str)
| Forward (user_message : str).

(** A chat session of the model: the prompts it answered, with the
    answers. *)
Definition chat_session := list (prompt * str).

(** What the bot sends over Telegram. *)
Inductive sent :=
| Typing (chat : Z)
| Reply (chat : Z) (text : str).

(** The calls to the logger, one constructor per call site. *)
Inductive log_entry :=
| LoadNoClient
| LoadNoProfile (uid : Z)
| LoadError (uid : Z)
| ParseJsonFailed
| PlanTextEmpty
| ConversationNoClient
| ConversationFailed (uid : Z)
| SaveNoClient
| SaveEmptyProfile (uid : Z)
| SaveStart (uid : Z)
| SaveOk (uid : Z)
| SaveFailed (uid : Z)
| ChatMessage (uid : Z) (text : str)
| ChatNewSession (uid : Z)
| ChatReturning
| ChatNew
| ChatEndOfPlan
| ChatNoJson
| ChatError.

(** - [heap]: the [dict] objects, addressed by their position;
    - [db]: the tables;
    - [faults]: whether each of the coming requests to the store raises
      ([true]) or is served; past its end every request is served;
    - [requests]: the requests executed so far, served or not;
    - [logs], [outbox]: what was logged and what was sent;
    - [user_data]: for a user id, the [chat_session] entry of that user's
      [context.user_data], the only key the bot stores there;
    - [python]: the settings of the interpreter [json.loads] depends on;
    - [telegram_refuses]: the texts Telegram refuses although they are
      neither empty nor too long (see [telegram_accepts]). *)
Record world := {
  heap : list pydict;
  db : tables;
  faults : list bool;
  requests : list request;
  logs : list log_entry;
  user_data : gmap Z chat_session;
  outbox : list sent;
  python : interpreter;
  telegram_refuses : str -> bool
}.

Definition set_heap (h : list pydict) (w : world) : world :=
  {| heap := h; db := db w; faults := faults w; requests := requests w;
     logs := logs w; user_data := user_data w; outbox := outbox w;
     python := python w; telegram_refuses := telegram_refuses w |}.

Definition set_db (d : tables) (w : world) : world :=
  {| heap := heap w; db := d; faults := faults w; requests := requests w;
     logs := logs w; user_data := user_data w; outbox := outbox w;
     python := python w; telegram_refuses := telegram_refuses w |}.

Definition set_faults (f : list bool) (w : world) : world :=
  {| heap := heap w; db := db w; faults := f; requests := requests w;
     logs := logs w; user_data := user_data w; outbox := outbox w;
     python := python w; telegram_refuses := telegram_refuses w |}.

Definition set_requests (r : list request) (w : world) : world :=
  {| heap := heap w; db := db w; faults := faults w; requests := r;
     logs := logs w; user_data := user_data w; outbox := outbox w;
     python := python w; telegram_refuses := telegram_refuses w |}.

Definition set_logs (l : list log_entry) (w : world) : world :=
  {| heap := heap w; db := db w; faults := faults w; requests := requests w;
     logs := l; user_data := user_data w; outbox := outbox w;
     python := python w; telegram_refuses := telegram_refuses w |}.

Definition set_user_data (u : gmap Z chat_session) (w : world) : world :=
  {| heap := heap w; db := db w; faults := faults w; requests := requests w;
     logs := logs w; user_data := u; outbox := outbox w;
     python := python w; telegram_refuses := telegram_refuses w |}.

Definition set_outbox (o : list sent) (w : world) : world :=
  {| heap := heap w; db := db w; faults := faults w; requests := requests w;
     logs := logs w; user_data := user_data w; outbox := o;
     python := python w; telegram_refuses := telegram_refuses w |}.

(** A computation returns a value or raises, and leaves a world either
    way. *)
Inductive outcome (A : Type) :=
| Val (a : A)
| Raised.

Arguments Val {A} a.
Arguments Raised {A}.

Definition M (A : Type) : Type := world -> outcome A * world.

Definition ret {A} (a : A) : M A := fun w => (Val a, w).

Definition bind {A B} (m : M A) (k : A -> M B) : M B :=
  fun w =>
    match m w with
    | (Val a, w') => k a w'
    | (Raised, w') => (Raised, w')
    end.

(** [try: body except Exception: handler]. *)
Definition try_except {A} (body handler : M A) : M A :=
  fun w =>
    match body w with
    | (Val a, w') => (Val a, w')
    | (Raised, w') => handler w'
    end.

Definition raise {A} : M A := fun w => (Raised, w).

Definition log (e : log_entry) : M unit :=
  fun w => (Val tt, set_logs (logs w ++ [e]) w).

Definition log_all (es : list log_entry) : M unit :=
  fun w => (Val tt, set_logs (logs w ++ es) w).

Definition send (s : sent) : M unit :=
  fun w => (Val tt, set_outbox (outbox w ++ [s]) w).

(** A text of printable ASCII characters, at most 4096 of them, that is
    not made of spaces only. *)
Definition plain_text (t : str) : bool :=
  forallb (fun c => (32 <=? c) && (c <=? 126)) t
  && existsb (fun c => negb (c =? 32)) t
  && (length t <=? 4096)%nat.

(** Whether Telegram takes a text that is sent without a parse mode.  It
    takes a plain text; it refuses an empty text and a text of more than
    4096 characters; about any other text the world says. *)
Definition telegram_accepts (refuses : str -> bool) (t : str) : bool :=
  plain_text t
  || (match t with [] => false | _ :: _ => true end
      && (length t <=? 4096)%nat && negb (refuses t)).

(** [sys.get_int_max_str_digits()] and the room left under the recursion
    limit, read where [json.loads] is called. *)
Definition get_python : M interpreter := fun w => (Val (python w), w).

(** [.execute()] of a request: it is recorded and takes the next fault;
    it raises when the fault says so or when the store refuses it, and
    otherwise acts on the tables and returns its rows. *)
Definition execute {R} (rq : request) (act : tables -> option (tables * R)) : M R :=
  fun w =>
    let w1 := set_faults (tail (faults w)) (set_requests (requests w ++ [rq]) w) in
    if hd false (faults w) then (Raised, w1)
    else match act (db w) with
         | Some (tb, r) => (Val r, set_db tb w1)
         | None => (Raised, w1)
         end.

(** A new [dict] object holding [d]. *)
Definition alloc (d : pydict) : M nat :=
  fun w => (Val (length (heap w)), set_heap (heap w ++ [d]) w).

(** The contents of the object at [l]. *)
Definition deref (l : nat) : M pydict :=
  fun w =>
    match heap w !! l with
    | Some d => (Val d, w)
    | None => (Raised, w)
    end.

(** [obj[k] = v] on the object at [l]. *)
Definition setitem (l : nat) (k : str) (v : json) : M unit :=
  fun w =>
    match heap w !! l with
    | Some d => (Val tt, set_heap (<[l := dict_set k v d]> (heap w)) w)
    | None => (Raised, w)
    end.

End World.

Export World.

Notation "'let*' x ':=' m 'in' k" := (bind m (fun x => k))
  (at level 10, x name, m at level 100, k at level 200).
Notation "m ';;;' k" := (bind m (fun _ => k))
  (at level 100, k at level 200, right associativity).

(** ** The bot *)

(** [self]: whether the Gemini model and the Supabase client were set up
    by [__init__] (each is [None] otherwise). *)
Record FouserBot := { model : bool; supabase : bool }.

(** An incoming message: its chat, its sender and its text. *)
Record update := { chat_id : Z; from_user : Z; text : str }.

(** [update.message.reply_text(t)]: the text is delivered, or the call
    raises because Telegram refuses the text. *)
Definition reply_text (u : update) (t : str) : M unit :=
  fun w =>
    if telegram_accepts (telegram_refuses w) t
    then send (Reply (chat_id u) t) w
    else (Raised, w).

Section Methods.

Variable self : FouserBot.

(** [_load_profile]: the stored profile of [uid] with the text of the
    active plan, or [None] for a new user and on any failure. *)
Definition _load_profile (uid : Z) : M (option (pydict * str)) :=
  if negb (supabase self) then
    log LoadNoClient;;; ret None
  else
    try_except
      (let* profile_response :=
         execute (UsersSelect uid) (fun tb => Some (tb, users_select uid tb)) in
       match profile_response with
       | [] => log (LoadNoProfile uid);;; ret None
       | profile :: _ =>
           let* plan_response :=
             execute (PlanSelectActive uid)
                     (fun tb => Some (tb, plan_select_active uid tb)) in
           let last_plan :=
             match plan_response with
             | [] => lit "No previous plan found."
             | p :: _ => p
             end in
           ret (Some (profile, last_plan))
       end)
      (log (LoadError uid);;; ret None).

(** [_extract_profile_json]: the value returned, or [Raised], and what it
    logs.  Only [json.JSONDecodeError] is caught; any other exception of
    [json.loads] leaves the method.  The captured group starts with a
    brace, so what [json.loads] returns is a [dict]. *)
Definition _extract_profile_json (py : interpreter) (text : str)
    : outcome (option pydict) * list log_entry :=
  match Re.search profile_re text with
  | Some m =>
      match loads py (Re.group1 text m) with
      | Loaded (JObj d) => (Val (Some d), [])
      | Loaded _ => (Val None, [])
      | JSONDecodeError => (Val None, [ParseJsonFailed])
      | OtherError => (Raised, [])
      end
  | None => (Val None, [])
  end.

(** [_extract_plan_text]: the value returned, and what it logs. *)
Definition _extract_plan_text (text : str) : str * list log_entry :=
  let plan_text := text in
  let plan_text := strip (replace END_OF_PLAN [] plan_text) in
  let plan_text :=
    match Re.search profile_re plan_text with
    | Some json_match => strip (replace (Re.group0 plan_text json_match) [] plan_text)
    | None => plan_text
    end in
  let plan_text :=
    match Re.search disclaimer_re plan_text with
    | Some disclaimer_match =>
        strip (replace (Re.group0 plan_text disclaimer_match) [] plan_text)
    | None => plan_text
    end in
  match plan_text with
  | [] => (lit "No plan was generated.", [PlanTextEmpty])
  | _ :: _ => (strip plan_text, [])
  end.

(** [_log_conversation]: one row of [conversation_history]; a failure is
    logged and goes no further. *)
Definition _log_conversation (uid : Z) (sender : str) (message : str) : M unit :=
  if negb (supabase self) then log ConversationNoClient
  else
    try_except
      (execute (TurnInsert {| turn_user := uid; sender := sender; message_text := message |})
               (fun tb => Some (turn_insert
                                  {| turn_user := uid; sender := sender;
                                     message_text := message |} tb, tt)))
      (log (ConversationFailed uid)).

(** [save_new_plan_and_profile].  [profile] is the [dict] object the
    caller passes and [now] what [datetime.datetime.now()] returns. *)
Definition save_new_plan_and_profile
    (uid : Z) (profile : nat) (plan : str) (now : timestamp) : M unit :=
  if negb (supabase self) then log SaveNoClient
  else
    let* given := deref profile in
    if negb (dict_truthy given) then log (SaveEmptyProfile uid)
    else
      log (SaveStart uid);;;
      let now_iso := now in
      let* profile_data_to_save := alloc given in
      setitem profile_data_to_save (lit "user_id") (JInt uid);;;
      try_except
        (let* row := deref profile_data_to_save in
         execute (UsersUpsert row)
                 (fun tb => match users_upsert row tb with
                            | Some tb' => Some (tb', tt)
                            | None => None
                            end);;;
         execute (PlanClose uid now_iso) (fun tb => Some (plan_close uid now_iso tb, tt));;;
         let* snapshot := deref profile in
         let new_row :=
           {| user_id := uid; plan_text := plan; profile_json := snapshot;
              start_date := now_iso; end_date := None |} in
         execute (PlanInsert new_row) (fun tb => Some (plan_insert new_row tb, tt));;;
         log (SaveOk uid))
        (log (SaveFailed uid)).

(** [context.user_data.get("chat_session")] and
    [context.user_data["chat_session"] = s] for the user [uid]. *)
Definition get_chat_session (uid : Z) : M (option chat_session) :=
  fun w => (Val (user_data w !! uid), w).

Definition put_chat_session (uid : Z) (s : chat_session) : M unit :=
  fun w => (Val tt, set_user_data (<[uid := s]> (user_data w)) w).

(** [chat_session.send_message_async(p)] on the session of [uid], then
    [response.text].  [resp] is what the model answers, [None] when the
    call raises; an answer is added to the session's history. *)
Definition send_message (uid : Z) (p : prompt) (resp : option str) : M str :=
  fun w =>
    match resp with
    | None => (Raised, w)
    | Some r =>
        (Val r,
         set_user_data
           (<[uid := default [] (user_data w !! uid) ++ [(p, r)]]> (user_data w)) w)
    end.

(** Lines 297 to 335 of [main_chat_handler]: the session of the user,
    started and primed from the stored profile on a first message, and
    the model's answer to this message. *)
Definition obtain_reply (u : update) (resp : option str) : M str :=
  let uid := from_user u in
  let user_message := text u in
  let* chat_session := get_chat_session uid in
  match chat_session with
  | None =>
      log (ChatNewSession uid);;;
      put_chat_session uid [];;;
      let* user_data := _load_profile uid in
      match user_data with
      | Some (profile, last_plan) =>
          log ChatReturning;;;
          let name := default (JStr (lit "friend")) (dict_get (lit "name") profile) in
          send_message uid (ReturningUser profile last_plan name user_message) resp
      | None =>
          log ChatNew;;;
          send_message uid (NewUser user_message) resp
      end
  | Some _ => send_message uid (Forward user_message) resp
  end.

(** Lines 340 to 366 of [main_chat_handler]: what is done with the
    model's answer.  [now] is the clock reading of
    [save_new_plan_and_profile]. *)
Definition process_reply (u : update) (ai_message : str) (now : timestamp) : M unit :=
  let uid := from_user u in
  if contains END_OF_PLAN ai_message then
    log ChatEndOfPlan;;;
    let* py := get_python in
    let '(parsed, parse_logs) := _extract_profile_json py ai_message in
    log_all parse_logs;;;
    match parsed with
    | Raised => raise
    | Val (Some ((_ :: _) as d)) =>
        let* updated_profile_json := alloc d in
        let '(plan, plan_logs) := _extract_plan_text ai_message in
        log_all plan_logs;;;
        save_new_plan_and_profile uid updated_profile_json plan now;;;
        let disclaimer_text :=
          match Re.search disclaimer_re ai_message with
          | Some disclaimer_match =>
              strip (replace END_OF_PLAN [] (Re.group0 ai_message disclaimer_match))
          | None => []
          end in
        let final_message_to_send := plan ++ lit_nl ++ lit_nl ++ disclaimer_text in
        reply_text u (strip final_message_to_send)
    | Val _ =>
        log ChatNoJson;;;
        let clean_message := strip (replace END_OF_PLAN [] ai_message) in
        reply_text u clean_message
    end
  else
    reply_text u ai_message.

(** The last resort of [main_chat_handler], its [except] branch. *)
Definition apologise (u : update) : M unit :=
  log ChatError;;;
  reply_text u (lit "I'm sorry, I had trouble processing that. Please try again.").

(** [main_chat_handler] on one update.  [resp] is the model's answer to
    the one prompt the handler sends and [now] the clock reading of the
    commit. *)
Definition main_chat_handler (u : update) (resp : option str) (now : timestamp) : M unit :=
  if negb (model self) then
    reply_text u (lit "AI brain is not configured. Contact admin.")
  else if negb (supabase self) then
    reply_text u (lit "Database is not connected. Contact admin.")
  else
    let uid := from_user u in
    let user_message := text u in
    log (ChatMessage uid user_message);;;
    _log_conversation uid (lit "user") user_message;;;
    try_except
      (send (Typing (chat_id u));;;
       let* ai_message := obtain_reply u resp in
       _log_conversation uid (lit "ai") ai_message;;;
       process_reply u ai_message now)
      (apologise u).

(** [reset_chat]: [context.user_data.clear()] empties the dictionary of
    the user who sent the command. *)
Definition reset_chat (u : update) : M unit :=
  (fun w => (Val tt, set_user_data (delete (from_user u) (user_data w)) w));;;
  reply_text u (lit "I've cleared our conversation history. We can start fresh!").

End Methods.

(** ** Vocabulary of the statements *)

(** [t] starts with [p], letter case ignored as [re.IGNORECASE] does. *)
Fixpoint startswith_i (p t : str) : bool :=
  match p with
  | [] => true
  | x :: p' =>
      match t with
      | [] => false
      | y :: t' => Re.atom_ok (Re.LitI x) y && startswith_i p' t'
      end
  end.

(** Where [p] first occurs in [t], letter case ignored. *)
Fixpoint find_i (p t : str) : option nat :=
  if startswith_i p t then Some 0%nat
  else match t with
       | [] => None
       | _ :: t' => option_map S (find_i p t')
       end.

(** The phrase the disclaimer pattern looks for. *)
Definition CONSULT : str := lit "consult a doctor".

(** [c] does not occur in [t]. *)
Definition lacks (c : N) (t : str) : bool := forallb (fun x => negb (x =? c)) t.

(** The profile pattern matches at the head of [t]: [t] starts with the
    marker, then whitespace, if any, then an opening brace that has a
    closing brace somewhere after it. *)
Definition opens_block (t : str) : bool :=
  startswith USER_DATA_JSON t &&
  match lstrip (drop (length USER_DATA_JSON) t) with
  | c :: t' => (c =? 123) && negb (lacks 125 t')
  | [] => false
  end.

(** The first place of [t] where the profile pattern matches. *)
Fixpoint find_block (t : str) : option nat :=
  if opens_block t then Some 0%nat
  else match t with
       | [] => None
       | _ :: t' => option_map S (find_block t')
       end.

(** [t] is not empty and does not start with whitespace. *)
Definition starts_with_text (t : str) : bool :=
  match t with
  | [] => false
  | c :: _ => negb (isspace c)
  end.

(** The disclaimer sentence of the round trip, and the text of the round
    trip for a profile text [J] and a plan body [B]. *)
Definition DISCLAIMER : str := lit "Please consult a doctor.".

Definition roundtrip_text (J B : str) : str :=
  USER_DATA_JSON ++ lit " " ++ J ++ lit_nl ++ B ++ lit_nl ++ DISCLAIMER ++ lit_nl
  ++ END_OF_PLAN.

(** The profile pattern after its literal part. *)
Definition profile_re_tail : Re.regex :=
  [Re.Greedy Re.Space; Re.GroupOpen; Re.One (Re.Lit 123); Re.Lazy Re.Dot;
   Re.One (Re.Lit 125); Re.GroupClose].

(** The three requests of the persistence pipeline: profile upsert, plan
    close and plan insert. *)
Definition persists (rq : request) : bool :=
  match rq with
  | UsersUpsert _ | PlanClose _ _ | PlanInsert _ => true
  | UsersSelect _ | PlanSelectActive _ | TurnInsert _ => false
  end.

(** From [w] to [w'] nothing was persisted: [users] and [plan_history]
    are as they were and no request of the pipeline was executed. *)
Definition quiet (w w' : world) : Prop :=
  users (db w') = users (db w) /\
  plan_history (db w') = plan_history (db w) /\
  exists added, requests w' = requests w ++ added /\
                forallb (fun rq => negb (persists rq)) added = true.

(** From [w] to [w'] a call of [save_new_plan_and_profile] for [uid] ran
    to its last line: it logged its start and its success. *)
Definition saved_ok (uid : Z) (w w' : world) : Prop :=
  logs w' = logs w ++ [SaveStart uid; SaveOk uid].

(** No request to the store is going to raise. *)
Definition healthy (w : world) : Prop := Forall (fun b => b = false) (faults w).

(** From [w] to [w'] nothing was persisted or sent, no object changed,
    and a store that was not going to raise still is not. *)
Definition calm (w w' : world) : Prop :=
  heap w' = heap w /\ outbox w' = outbox w /\ quiet w w' /\ (healthy w -> healthy w').

(** [m] is calm from every world, whether it returns or raises. *)
Definition calmly {A} (m : M A) : Prop := forall w, calm w (snd (m w)).

(** [m] is calm and returns a value that satisfies [P]. *)
Definition returns {A} (P : A -> Prop) (m : M A) : Prop :=
  forall w, exists a w', m w = (Val a, w') /\ P a /\ calm w w'.

(** From [w] to [w'] the interpreter and Telegram are what they were, and
    the log has only grown. *)
Definition onward (w w' : world) : Prop :=
  python w' = python w /\ telegram_refuses w' = telegram_refuses w /\
  exists added, logs w' = logs w ++ added.

(** [m] keeps [R] from every world, whether it returns or raises. *)
Definition keeps (R : world -> world -> Prop) {A} (m : M A) : Prop :=
  forall w, R w (snd (m w)).

(** The tables after a profile [d] and a plan were committed for [uid]
    at [now]: the profile row upserted under [uid], the active plans of
    [uid] closed, the new plan added. *)
Definition committed (uid : Z) (d : pydict) (plan : str) (now : timestamp)
    (tb : tables) : tables :=
  {| users := upsert_rows (JInt uid) (dict_set (lit "user_id") (JInt uid) d) (users tb);
     plan_history :=
       map (close_row uid now) (plan_history tb) ++
       [{| user_id := uid; plan_text := plan; profile_json := d;
           start_date := now; end_date := None |}];
     conversation_history := conversation_history tb |}.

(** The requests of one commit, in the order they are executed. *)
Definition commit_requests (uid : Z) (d : pydict) (plan : str) (now : timestamp)
    : list request :=
  [UsersUpsert (dict_set (lit "user_id") (JInt uid) d);
   PlanClose uid now;
   PlanInsert {| user_id := uid; plan_text := plan; profile_json := d;
                 start_date := now; end_date := None |}].

(** The row that closes [r] at [now]. *)
Definition closed_at (now : timestamp) (r : plan_row) : plan_row :=
  {| user_id := user_id r; plan_text := plan_text r; profile_json := profile_json r;
     start_date := start_date r; end_date := Some now |}.

(** Every value of a profile is a string or a number. *)
Definition primitive_values (d : pydict) : bool :=
  forallb (fun kv => match snd kv with
                     | JStr _ | JInt _ | JFloat _ => true
                     | _ => false
                     end) d.

Definition SORRY : str :=
  lit "I'm sorry, I had trouble processing that. Please try again.".

(** What reaches the user when the handler, inside its [try], replies
    with [t]: the text [t], or the apology when Telegram refuses [t]. *)
Definition delivered (w : world) (t : str) : str :=
  if telegram_accepts (telegram_refuses w) t then t else SORRY.

(** The handler, given the answer [r], has committed the profile [d] for
    the sender: the plan history is the old one with the sender's active
    plans closed and one new record that carries [d] and the extracted
    plan; the profile rows are the old ones with [d] upserted under the
    sender's id; the requests of that commit came last, after requests
    outside the pipeline; and the commit logged its start and its
    success. *)
Definition stored_as_is (self : FouserBot) (u : update) (r : str) (now : timestamp)
    (w : world) (d : pydict) : Prop :=
  let w' := snd (main_chat_handler self u (Some r) now w) in
  let uid := from_user u in
  let plan := fst (_extract_plan_text r) in
  plan_history (db w')
  = map (close_row uid now) (plan_history (db w))
    ++ [{| user_id := uid; plan_text := plan; profile_json := d;
           start_date := now; end_date := None |}] /\
  users (db w')
  = upsert_rows (JInt uid) (dict_set (lit "user_id") (JInt uid) d) (users (db w)) /\
  (exists before,
      requests w' = requests w ++ before ++ commit_requests uid d plan now /\
      forallb (fun rq => negb (persists rq)) before = true) /\
  (exists before after,
      logs w' = logs w ++ before ++ [SaveStart uid; SaveOk uid] ++ after).

(** The handler, given the answer [r], has sent the typing action and
    then [t], and nothing else. *)
Definition replies_with (self : FouserBot) (u : update) (r : str) (now : timestamp)
    (w : world) (t : str) : Prop :=
  outbox (snd (main_chat_handler self u (Some r) now w))
  = outbox w ++ [Typing (chat_id u); Reply (chat_id u) t].

(** ** Sample data *)

Definition bot0 : FouserBot := {| model := true; supabase := true |}.

(** An interpreter with the default limit on the digits of an [int] and
    room for 900 arrays and objects, one inside the other. *)
Definition cpython : interpreter := {| int_max_str_digits := 4300; recursion_room := 900 |}.

Definition hello : update := {| chat_id := 42; from_user := 42; text := lit "hi" |}.

(** A store with one active plan of user 42 and one of user 7, and a heap
    with one profile. *)
Definition world1 : world :=
  {| heap := [[(lit "name", JStr (lit "Sam")); (lit "user_id", JInt 5)]];
     db := {| users := [];
              plan_history :=
                [{| user_id := 42; plan_text := lit "old plan"; profile_json := [];
                    start_date := 5%Z; end_date := None |};
                 {| user_id := 7; plan_text := lit "their plan"; profile_json := [];
                    start_date := 6%Z; end_date := None |}];
              conversation_history := [] |};
     faults := [false; false]; requests := []; logs := [];
     user_data := {[ 7%Z := [] ]}; outbox := [];
     python := cpython; telegram_refuses := fun _ => false |}.

(** A store that breaks the invariant: user 42 has two active plans. *)
Definition world2 : world :=
  {| heap := [];
     db := {| users := [[(lit "user_id", JInt 42); (lit "name", JStr (lit "Sam"))]];
              plan_history :=
                [{| user_id := 42; plan_text := lit "first"; profile_json := [];
                    start_date := 5%Z; end_date := None |};
                 {| user_id := 42; plan_text := lit "second"; profile_json := [];
                    start_date := 9%Z; end_date := None |};
                 {| user_id := 42; plan_text := lit "third"; profile_json := [];
                    start_date := 7%Z; end_date := Some 8%Z |}];
              conversation_history := [] |};
     faults := []; requests := []; logs := []; user_data := ∅; outbox := [];
     python := cpython; telegram_refuses := fun _ => false |}.

(** An empty store. *)
Definition world0 : world :=
  {| heap := []; db := {| users := []; plan_history := []; conversation_history := [] |};
     faults := []; requests := []; logs := []; user_data := ∅; outbox := [];
     python := cpython; telegram_refuses := fun _ => false |}.

(** A heap whose one object is an empty profile, over an empty store. *)
Definition world_empty_profile : world :=
  {| heap := [[]]; db := {| users := []; plan_history := []; conversation_history := [] |};
     faults := []; requests := []; logs := []; user_data := ∅; outbox := [];
     python := cpython; telegram_refuses := fun _ => false |}.

(** Answers of the model: a plan with a profile, a profile block without
    the marker, the marker without a profile, the marker with an empty
    profile. *)
Definition answer_plan : str :=
  roundtrip_text (litq "{'name': 'Sam', 'age': 30}") (lit "1. Walk").

Definition answer_block_only : str := litq "[USER_DATA_JSON] {'name': 'Sam'} noted".

Definition answer_marker_only : str := lit "Here is your plan [END_OF_PLAN]".

Definition answer_empty_profile : str :=
  USER_DATA_JSON ++ lit " {}" ++ lit_nl ++ lit "1. Walk" ++ lit_nl ++ END_OF_PLAN.

(** The marker after a profile block whose one value is an integer of
    4301 digits, and an answer of 4097 letters. *)
Definition answer_long_int : str :=
  USER_DATA_JSON ++ lit " " ++ (123 :: (litq "'a': " ++ repeat 57 4301) ++ [125])
  ++ lit " " ++ END_OF_PLAN.

Definition answer_too_long : str := repeat 97 4097.

(** The worlds after one commit and after a second one. *)
Definition world1_once : world :=
  snd (save_new_plan_and_profile bot0 42 0 (lit "new plan") 9%Z world1).

Definition world1_twice : world :=
  snd (save_new_plan_and_profile bot0 42 0 (lit "new plan") 11%Z world1_once).

(** ** Start-up *)

(** The four variables the module reads with [os.environ.get]. *)
Record environ := {
  TELEGRAM_TOKEN : option str;
  GEMINI_API_KEY : option str;
  SUPABASE_URL : option str;
  SUPABASE_SERVICE_KEY : option str
}.

(** [not v] for what [os.environ.get] returns: true for [None] and for the
    empty text. *)
Definition unset (v : option str) : bool :=
  match v with
  | None | Some [] => true
  | Some (_ :: _) => false
  end.

(** The calls to the logger of [__init__], [run] and the main block; the
    ten lines of the missing-variables notice are one entry. *)
Inductive startup_entry :=
| SupabaseNotSet
| SupabaseConnected
| SupabaseFailed
| GeminiConfigured
| GeminiFailed
| RunNoModel
| RunNoSupabase
| RunPolling
| MainVariablesNotSet
| MainLoaded.

(** [FouserBot.__init__]: the bot built and what is logged.
    [create_client_ok] and [genai_ok] say whether [create_client] and the
    configuration of the Gemini model return, rather than raise. *)
Definition __init__ (e : environ) (create_client_ok genai_ok : bool)
    : FouserBot * list startup_entry :=
  let '(supabase_client, log1) :=
    if unset (SUPABASE_URL e) || unset (SUPABASE_SERVICE_KEY e)
    then (false, [SupabaseNotSet])
    else if create_client_ok then (true, [SupabaseConnected])
         else (false, [SupabaseFailed]) in
  let '(gemini_model, log2) :=
    if genai_ok then (true, [GeminiConfigured]) else (false, [GeminiFailed]) in
  ({| model := gemini_model; supabase := supabase_client |}, log1 ++ log2).

(** [FouserBot.run]: whether polling starts, and what is logged. *)
Definition run (self : FouserBot) : bool * list startup_entry :=
  if negb (model self) then (false, [RunNoModel])
  else if negb (supabase self) then (false, [RunNoSupabase])
  else (true, [RunPolling]).

(** The main block: whether polling starts, and what is logged. *)
Definition main (e : environ) (create_client_ok genai_ok : bool)
    : bool * list startup_entry :=
  if unset (TELEGRAM_TOKEN e) || unset (GEMINI_API_KEY e)
     || unset (SUPABASE_URL e) || unset (SUPABASE_SERVICE_KEY e)
  then (false, [MainVariablesNotSet])
  else
    let '(bot, log1) := __init__ e create_client_ok genai_ok in
    let '(polling, log2) := run bot in
    (polling, MainLoaded :: log1 ++ log2).

(** ** Vocabulary of the further statements *)

(** The tables after the first step of a commit, the upsert of the
    profile [d] under [uid]. *)
Definition upserted (uid : Z) (d : pydict) (tb : tables) : tables :=
  {| users := upsert_rows (JInt uid) (dict_set (lit "user_id") (JInt uid) d) (users tb);
     plan_history := plan_history tb;
     conversation_history := conversation_history tb |}.

(** No user has more than one plan with a null end time. *)
Definition at_most_one_active (tb : tables) : Prop :=
  forall uid, (count_active uid tb <= 1)%nat.

(** A dictionary holds each key once. *)
Definition keys_unique (d : pydict) : Prop := NoDup (map fst d).

(** From [w] to [w'] the sessions are what they were. *)
Definition same_sessions (w w' : world) : Prop := user_data w' = user_data w.

(** From [w] to [w'] the three tables are what they were. *)
Definition same_tables (w w' : world) : Prop := db w' = db w.

(** A request that only reads. *)
Definition reads (rq : request) : bool :=
  match rq with
  | UsersSelect _ | PlanSelectActive _ => true
  | _ => false
  end.

(** The text of the last plan that [_load_profile] takes from the rows of
    its second request. *)
Definition last_plan_of (uid : Z) (tb : tables) : str :=
  match plan_select_active uid tb with
  | [] => lit "No previous plan found."
  | p :: _ => p
  end.

(** The two turns the handler logs for a message and its answer. *)
Definition user_turn (u : update) : turn :=
  {| turn_user := from_user u; sender := lit "user"; message_text := text u |}.

Definition ai_turn (u : update) (r : str) : turn :=
  {| turn_user := from_user u; sender := lit "ai"; message_text := r |}.

(** What [_load_profile] returns with a client, from the faults to come
    [fl] and the tables: [None] when the first select raises, when it
    finds no row, or when the second select raises; the first row and the
    last plan otherwise. *)
Definition load_result (uid : Z) (fl : list bool) (tb : tables)
    : option (pydict * str) :=
  if hd false fl then None
  else match users_select uid tb with
       | [] => None
       | p :: _ =>
           if hd false (tail fl) then None else Some (p, last_plan_of uid tb)
       end.

(** The number of selects [_load_profile] executes with a client: one
    when the first raises or finds no row, two otherwise. *)
Definition selects_of_load (uid : Z) (fl : list bool) (tb : tables) : nat :=
  if hd false fl then 1%nat
  else match users_select uid tb with
       | [] => 1%nat
       | _ :: _ => 2%nat
       end.

(** The prompt that opens a session, from what [_load_profile] returned
    and the user's message. *)
Definition first_prompt (o : option (pydict * str)) (user_message : str) : prompt :=
  match o with
  | Some (profile, last_plan) =>
      ReturningUser profile last_plan
        (default (JStr (lit "friend")) (dict_get (lit "name") profile)) user_message
  | None => NewUser user_message
  end.

(** What reaches the user for the answer [r] of the model: the apology
    when the answer has the marker and [json.loads] raises something that
    is not caught; otherwise what is delivered of the text the handler
    builds, which is the plan with the disclaimer when a profile that is
    not empty was found, the answer without [[END_OF_PLAN]] when none was,
    and the answer as it is when it has no marker. *)
Definition handler_reply (w : world) (r : str) : str :=
  if contains END_OF_PLAN r then
    match fst (_extract_profile_json (python w) r) with
    | Raised => SORRY
    | Val (Some (_ :: _)) =>
        delivered w
          (strip (fst (_extract_plan_text r) ++ lit_nl ++ lit_nl ++
                  match Re.search disclaimer_re r with
                  | Some m => strip (replace END_OF_PLAN [] (Re.group0 r m))
                  | None => []
                  end))
    | Val _ => delivered w (strip (replace END_OF_PLAN [] r))
    end
  else delivered w r.

(** From [w] to [w'] the objects, what was sent, the sessions, the
    profile rows and the plan records are what they were. *)
Definition untouched (w w' : world) : Prop :=
  heap w' = heap w /\ outbox w' = outbox w /\ user_data w' = user_data w /\
  users (db w') = users (db w) /\ plan_history (db w') = plan_history (db w).

(** ** Further sample data *)

(** [world1] with a store that raises on the first request. *)
Definition world1_down : world := set_faults [true] world1.

(** [world2] after user 42 has talked to the bot once. *)
Definition world2_talking : world :=
  set_user_data {[ 42%Z := [(NewUser (lit "hi"), lit "hello")] ]} world2.

Definition all_set : environ :=
  {| TELEGRAM_TOKEN := Some (lit "t"); GEMINI_API_KEY := Some (lit "g");
     SUPABASE_URL := Some (lit "u"); SUPABASE_SERVICE_KEY := Some (lit "k") |}.

(** ** The model on concrete inputs *)

Example replace_leftmost : replace (lit "aa") (lit "b") (lit "aaaxaa") = lit "baxb".
Proof. vm_compute. reflexivity. Qed.

Example replace_empty_old : replace [] (lit "-") (lit "abc") = lit "-a-b-c-".
Proof. vm_compute. reflexivity. Qed.

Example replace_once_through :
  replace END_OF_PLAN [] (lit "[END_OF_[END_OF_PLAN]PLAN] abc") = lit "[END_OF_PLAN] abc".
Proof. vm_compute. reflexivity. Qed.

Example strip_unicode_space : strip [8195; 97; 32; 98; 160; 12288] = lit "a b".
Proof. vm_compute. reflexivity. Qed.

Example loads_last_key_wins :
  loads cpython (litq "{'name': 'Sam', 'age': 30, 'name': 'Max'}")
  = Loaded (JObj [(lit "name", JStr (lit "Max")); (lit "age", JInt 30)]).
Proof. vm_compute. reflexivity. Qed.

Example loads_nested :
  loads cpython (litq "{'a': [1, -2.5e3, true, null], 'b': {'c': '\u00e9'}}")
  = Loaded (JObj [(lit "a", JArr [JInt 1; JFloat (lit "-2.5e3"); JBool true; JNull]);
                  (lit "b", JObj [(lit "c", JStr [233])])]).
Proof. vm_compute. reflexivity. Qed.

Example loads_rejects :
  map (loads cpython)
      [litq "{'a': 1,}"; litq "{'a': 01}"; lit "{'a': 1}"; litq "{'a': 1} x";
       litq "{'a': {'b': 1}"]
  = [JSONDecodeError; JSONDecodeError; JSONDecodeError; JSONDecodeError;
     JSONDecodeError].
Proof. vm_compute. reflexivity. Qed.

(** An [int] of 4301 digits is refused by [int], also when the text stops
    after it; a [float] of as many digits is read. *)
Example loads_long_int :
  map (loads cpython)
      [litq "{'a': " ++ repeat 49 4300 ++ lit "}";
       litq "{'a': " ++ repeat 49 4301 ++ lit "}";
       litq "{'a': -" ++ repeat 49 4301;
       litq "{'a': 0" ++ repeat 49 4301 ++ lit "}"]
  = [Loaded (JObj [(lit "a", JInt (digits_value (repeat 49 4300)))]);
     OtherError; OtherError; JSONDecodeError] /\
  exists x, loads cpython (litq "{'a': " ++ repeat 49 4301 ++ lit ".5}")
            = Loaded (JObj [(lit "a", JFloat x)]).
Proof. split; [vm_compute; reflexivity|]. eexists. vm_compute. reflexivity. Qed.

(** Arrays one inside the other: 899 of them in an object are read, 900
    are one too many, closed or not. *)
Example loads_deep_nesting :
  let nest n := litq "{'a': " ++ repeat 91 n ++ repeat 93 n ++ lit "}" in
  (exists v, loads cpython (nest 899%nat) = Loaded v) /\
  loads cpython (nest 900%nat) = OtherError /\
  loads cpython (litq "{'a': " ++ repeat 91 2000 ++ lit "}") = OtherError /\
  loads cpython (litq "{'a': " ++ repeat 91 50 ++ lit "}") = JSONDecodeError.
Proof.
  split; [eexists; vm_compute; reflexivity|]. repeat split; vm_compute; reflexivity.
Qed.

Example search_ignores_case :
  Re.search disclaimer_re (lit "Always CON" ++ [383] ++ lit "ULT a Doctor first")
  = Some (7%nat, {| Re.m_end := 29; Re.g1_start := 0; Re.g1_end := 0 |}).
Proof. vm_compute. reflexivity. Qed.

Example search_leftmost_block :
  option_map (Re.group1 (litq "a [USER_DATA_JSON] b [USER_DATA_JSON]  {'k': 1} {'l': 2}"))
    (Re.search profile_re (litq "a [USER_DATA_JSON] b [USER_DATA_JSON]  {'k': 1} {'l': 2}"))
  = Some (litq "{'k': 1}").
Proof. vm_compute. reflexivity. Qed.

(** The scenario of a first plan for user 42: one commit, and the plan a
    later [_load_profile] returns. *)
Example first_plan_for_42 :
  let w := snd (main_chat_handler bot0 hello (Some answer_plan) 9%Z world0) in
  List.filter persists (requests w)
  = commit_requests 42 [(lit "name", JStr (lit "Sam")); (lit "age", JInt 30)]
      (lit "1. Walk" ++ lit_nl ++ lit "Please") 9%Z /\
  outbox w
  = [Typing 42;
     Reply 42 (lit "1. Walk" ++ lit_nl ++ lit "Please" ++ lit_nl ++ lit_nl
               ++ lit "consult a doctor.")] /\
  fst (_load_profile bot0 42 w)
  = Val (Some ([(lit "name", JStr (lit "Sam")); (lit "age", JInt 30);
                (lit "user_id", JInt 42)],
               lit "1. Walk" ++ lit_nl ++ lit "Please")).
Proof. vm_compute. repeat split. Qed.

(** ** Proof steps *)

(** Case analysis on what a [match] or an [if] of [H] looks at. *)
Ltac break_match H :=
  repeat match type of H with
         | match ?x with _ => _ end = _ => destruct x eqn:?; try discriminate
         | (if ?x then _ else _) = _ => destruct x eqn:?; try discriminate
         end.

Ltac break_inner H :=
  repeat match type of H with
         | context [match ?x with _ => _ end] =>
             lazymatch x with
             | context [match _ with _ => _ end] => fail
             | _ => destruct x eqn:?; try discriminate
             end
         end.

(** ** Facts about texts, dictionaries and tables *)

Lemma str_eqb_refl (a : str) : str_eqb a a = true.
Proof. induction a as [|x a IH]; simpl; [reflexivity|]. now rewrite N.eqb_refl. Qed.

Lemma str_eqb_eq (a b : str) : str_eqb a b = true <-> a = b.
Proof.
  split; [|intros ->; apply str_eqb_refl].
  revert b; induction a as [|x a IH]; intros [|y b]; simpl; try discriminate; auto.
  intros H. apply andb_true_iff in H as [H1 H2].
  apply N.eqb_eq in H1. f_equal; auto.
Qed.

Lemma dict_get_set_eq (k : str) (v : json) (d : pydict) :
  dict_get k (dict_set k v d) = Some v.
Proof.
  induction d as [|[k' v'] d IH]; simpl.
  - now rewrite str_eqb_refl.
  - destruct (str_eqb k' k) eqn:E; simpl; rewrite E; auto.
Qed.

Lemma dict_get_set_ne (k k' : str) (v : json) (d : pydict) :
  k <> k' -> dict_get k' (dict_set k v d) = dict_get k' d.
Proof.
  intros Hne. induction d as [|[k0 v0] d IH]; simpl.
  - destruct (str_eqb k k') eqn:E; [|reflexivity].
    apply str_eqb_eq in E. contradiction.
  - destruct (str_eqb k0 k) eqn:E; simpl.
    + apply str_eqb_eq in E. subst k0.
      destruct (str_eqb k k') eqn:E'; [|reflexivity].
      apply str_eqb_eq in E'. contradiction.
    + destruct (str_eqb k0 k'); auto.
Qed.

Lemma close_row_not_active (uid : Z) (now : timestamp) (r : plan_row) :
  is_active uid (close_row uid now r) = false.
Proof.
  unfold close_row. destruct (is_active uid r) eqn:E; [|exact E].
  unfold is_active; simpl. apply andb_false_r.
Qed.

Lemma filter_active_closed (uid : Z) (now : timestamp) (rows : list plan_row) :
  List.filter (is_active uid) (map (close_row uid now) rows) = [].
Proof.
  induction rows as [|r rows IH]; simpl; [reflexivity|].
  now rewrite close_row_not_active.
Qed.

Lemma close_row_active (uid : Z) (now : timestamp) (r : plan_row) :
  is_active uid r = true -> close_row uid now r = closed_at now r.
Proof. intros H. unfold close_row. now rewrite H. Qed.

Lemma close_row_other (uid : Z) (now : timestamp) (r : plan_row) :
  is_active uid r = false -> close_row uid now r = r.
Proof. intros H. unfold close_row. now rewrite H. Qed.


(** ** [save_new_plan_and_profile] *)

Lemma heap_set_last (hp : list pydict) (d x : pydict) :
  <[length hp := x]> (hp ++ [d]) = hp ++ [x].
Proof.
  replace (length hp) with (length hp + 0)%nat by lia.
  now rewrite insert_app_r.
Qed.

(** What [save_new_plan_and_profile] does when the client is there and
    the profile is not empty: it returns, with the copy of the profile as
    the one new object, having executed the requests of a commit up to the
    first that raised. *)
Lemma save_run (self : FouserBot) (uid : Z) (profile : nat) (d : pydict)
    (plan : str) (now : timestamp) (w : world) :
  supabase self = true ->
  heap w !! profile = Some d ->
  dict_truthy d = true ->
  exists w' n,
    save_new_plan_and_profile self uid profile plan now w = (Val tt, w') /\
    heap w' = heap w ++ [dict_set (lit "user_id") (JInt uid) d] /\
    user_data w' = user_data w /\ outbox w' = outbox w /\
    requests w' = requests w ++ take (S n) (commit_requests uid d plan now) /\
    ((saved_ok uid w w' /\ n = 2%nat /\
      db w' = committed uid d plan now (db w) /\
      faults w' = tail (tail (tail (faults w))))
     \/ (logs w' = logs w ++ [SaveStart uid; SaveFailed uid] /\ ~ healthy w)).
Proof.
  intros Hs Hh Ht.
  destruct w as [hp tb fl rq lg ud ob]; simpl in *.
  unfold save_new_plan_and_profile. rewrite Hs. simpl.
  unfold bind at 1. unfold deref at 1. simpl. rewrite Hh. rewrite Ht. simpl.
  unfold bind, log, alloc, setitem, try_except, deref, execute, ret; simpl.
  rewrite list_lookup_middle by reflexivity. simpl.
  rewrite heap_set_last, list_lookup_middle by reflexivity. simpl.
  unfold users_upsert. rewrite dict_get_set_eq.
  pose proof (lookup_app_l_Some hp [dict_set (lit "user_id") (JInt uid) d] _ _ Hh) as Hh'.
  destruct fl as [|b1 [|b2 [|b3 fl]]]; try destruct b1; try destruct b2; try destruct b3;
    simpl; rewrite ?Hh'; simpl.
  all: eexists;
    first
      [ exists 2%nat; split; [reflexivity|]; simpl; rewrite <- ?app_assoc; simpl;
        repeat (split; [reflexivity|]); left; unfold saved_ok, committed; simpl;
        rewrite <- ?app_assoc; simpl; repeat split; reflexivity
      | exists 0%nat; split; [reflexivity|]; simpl; rewrite <- ?app_assoc; simpl;
        repeat (split; [reflexivity|]); right; rewrite <- ?app_assoc;
        (split; [reflexivity|]); unfold healthy; simpl; intros Hf;
        repeat match goal with
               | H : Forall _ (_ :: _) |- _ => inversion_clear H
               end; discriminate
      | exists 1%nat; split; [reflexivity|]; simpl; rewrite <- ?app_assoc; simpl;
        repeat (split; [reflexivity|]); right; rewrite <- ?app_assoc;
        (split; [reflexivity|]); unfold healthy; simpl; intros Hf;
        repeat match goal with
               | H : Forall _ (_ :: _) |- _ => inversion_clear H
               end; discriminate
      | exists 2%nat; split; [reflexivity|]; simpl; rewrite <- ?app_assoc; simpl;
        repeat (split; [reflexivity|]); right; rewrite <- ?app_assoc;
        (split; [reflexivity|]); unfold healthy; simpl; intros Hf;
        repeat match goal with
               | H : Forall _ (_ :: _) |- _ => inversion_clear H
               end; discriminate ].
Qed.

(** A call that logged its success had a client and a profile that is
    not empty, and met no fault. *)
Lemma save_ok_inv (self : FouserBot) (uid : Z) (profile : nat) (plan : str)
    (now : timestamp) (w w' : world) (o : outcome unit) :
  save_new_plan_and_profile self uid profile plan now w = (o, w') ->
  saved_ok uid w w' ->
  exists d,
    supabase self = true /\ heap w !! profile = Some d /\ dict_truthy d = true /\
    db w' = committed uid d plan now (db w) /\
    requests w' = requests w ++ commit_requests uid d plan now /\
    heap w' = heap w ++ [dict_set (lit "user_id") (JInt uid) d].
Proof.
  intros Hrun Hok. unfold saved_ok in Hok.
  destruct (supabase self) eqn:Hs.
  - destruct (heap w !! profile) as [d|] eqn:Hh.
    + destruct (dict_truthy d) eqn:Ht.
      * destruct (save_run self uid profile d plan now w Hs Hh Ht)
          as (w1 & n & Hrun1 & Hheap & _ & _ & Hrq & Hcase).
        rewrite Hrun in Hrun1. injection Hrun1 as -> <-.
        destruct Hcase as [(_ & -> & Hdb & _) | [Hlog _]].
        -- exists d. repeat split; auto.
        -- rewrite Hok in Hlog. apply app_inv_head in Hlog. discriminate.
      * unfold save_new_plan_and_profile in Hrun. rewrite Hs in Hrun.
        unfold bind, deref, log in Hrun. simpl in Hrun.
        rewrite Hh, Ht in Hrun. simpl in Hrun. injection Hrun as _ <-.
        simpl in Hok. apply app_inv_head in Hok. discriminate.
    + unfold save_new_plan_and_profile in Hrun. rewrite Hs in Hrun.
      unfold bind, deref in Hrun. simpl in Hrun.
      rewrite Hh in Hrun. injection Hrun as _ <-.
      apply (f_equal length) in Hok. rewrite length_app in Hok. simpl in Hok. lia.
  - unfold save_new_plan_and_profile, log in Hrun. rewrite Hs in Hrun. simpl in Hrun.
    injection Hrun as _ <-. simpl in Hok. apply app_inv_head in Hok. discriminate.
Qed.

Lemma committed_active (uid : Z) (d : pydict) (plan : str) (now : timestamp)
    (tb : tables) :
  List.filter (is_active uid) (plan_history (committed uid d plan now tb))
  = [{| user_id := uid; plan_text := plan; profile_json := d;
        start_date := now; end_date := None |}].
Proof.
  simpl. rewrite List.filter_app, filter_active_closed. simpl.
  unfold is_active; simpl. now rewrite Z.eqb_refl.
Qed.

(** C1. After a call of [save_new_plan_and_profile] that completed
    successfully, exactly one plan record of the user has a null end
    time; its profile snapshot is the profile the call was given (the
    parsed JSON, in the handler), and every plan that was active before
    now ends at the start time of the new one, the one timestamp of the
    commit. *)
Theorem commit_one_active (self : FouserBot) (uid : Z) (profile : nat)
    (plan : str) (now : timestamp) (w w' : world) (o : outcome unit) :
  save_new_plan_and_profile self uid profile plan now w = (o, w') ->
  saved_ok uid w w' ->
  exists d new,
    heap w !! profile = Some d /\
    List.filter (is_active uid) (plan_history (db w')) = [new] /\
    count_active uid (db w') = 1%nat /\
    profile_json new = d /\ plan_text new = plan /\
    start_date new = now /\ end_date new = None /\
    forall i old,
      plan_history (db w) !! i = Some old -> is_active uid old = true ->
      plan_history (db w') !! i = Some (closed_at now old) /\
      end_date (closed_at now old) = Some (start_date new).
Proof.
  intros Hrun Hok.
  destruct (save_ok_inv _ _ _ _ _ _ _ _ Hrun Hok) as (d & _ & Hh & _ & Hdb & _).
  exists d. eexists. split; [exact Hh|].
  unfold count_active. rewrite Hdb, committed_active.
  do 6 (split; [reflexivity|]).
  intros i old Hold Hactive. split; [|reflexivity].
  simpl. apply lookup_app_l_Some. rewrite list_lookup_fmap, Hold. simpl.
  now rewrite close_row_active.
Qed.

(** C5, as the code has it.  Two calls of [save_new_plan_and_profile] in
    sequence with the same user, profile and plan text, each of which
    completes successfully, leave exactly one plan
    record of the user with a null end time: the record of the first
    call is closed, at the timestamp of the second, and the record of the
    second is the only active one. *)
Theorem commit_twice_one_active (self : FouserBot) (uid : Z) (profile : nat)
    (plan : str) (now1 now2 : timestamp) (w w1 w2 : world) (o1 o2 : outcome unit) :
  save_new_plan_and_profile self uid profile plan now1 w = (o1, w1) ->
  saved_ok uid w w1 ->
  save_new_plan_and_profile self uid profile plan now2 w1 = (o2, w2) ->
  saved_ok uid w1 w2 ->
  exists d,
    heap w !! profile = Some d /\ heap w1 !! profile = Some d /\
    let first := {| user_id := uid; plan_text := plan; profile_json := d;
                    start_date := now1; end_date := Some now2 |} in
    let second := {| user_id := uid; plan_text := plan; profile_json := d;
                     start_date := now2; end_date := None |} in
    plan_history (db w2)
    = map (close_row uid now2) (map (close_row uid now1) (plan_history (db w)))
      ++ [first; second] /\
    List.filter (is_active uid) (plan_history (db w2)) = [second] /\
    count_active uid (db w2) = 1%nat.
Proof.
  intros Hrun1 Hok1 Hrun2 Hok2.
  destruct (save_ok_inv _ _ _ _ _ _ _ _ Hrun1 Hok1)
    as (d & _ & Hh & _ & Hdb1 & _ & Hheap1).
  destruct (save_ok_inv _ _ _ _ _ _ _ _ Hrun2 Hok2)
    as (d' & _ & Hh' & _ & Hdb2 & _).
  assert (d' = d) as ->.
  { rewrite Hheap1 in Hh'. rewrite (lookup_app_l_Some _ _ _ _ Hh) in Hh'. congruence. }
  exists d. split; [exact Hh|]. split; [exact Hh'|].
  unfold count_active. rewrite Hdb2, committed_active.
  repeat split.
  simpl. rewrite Hdb1. simpl. rewrite map_app, <- app_assoc. simpl.
  rewrite close_row_active; [reflexivity|].
  unfold is_active; simpl. now rewrite Z.eqb_refl.
Qed.

(** The four ways a commit can go once it has started: the upsert
    raises, the close raises, the insert raises, or all three are served. *)
Lemma save_outcomes (self : FouserBot) (uid : Z) (profile : nat) (d : pydict)
    (plan : str) (now : timestamp) (w : world) :
  supabase self = true ->
  heap w !! profile = Some d ->
  dict_truthy d = true ->
  exists w',
    save_new_plan_and_profile self uid profile plan now w = (Val tt, w') /\
    ((hd false (faults w) = true /\ db w' = db w /\
      requests w' = requests w ++ take 1 (commit_requests uid d plan now) /\
      logs w' = logs w ++ [SaveStart uid; SaveFailed uid])
     \/ (hd false (faults w) = false /\ hd false (tail (faults w)) = true /\
         db w' = upserted uid d (db w) /\
         requests w' = requests w ++ take 2 (commit_requests uid d plan now) /\
         logs w' = logs w ++ [SaveStart uid; SaveFailed uid])
     \/ (hd false (faults w) = false /\ hd false (tail (faults w)) = false /\
         hd false (tail (tail (faults w))) = true /\
         db w' = plan_close uid now (upserted uid d (db w)) /\
         requests w' = requests w ++ commit_requests uid d plan now /\
         logs w' = logs w ++ [SaveStart uid; SaveFailed uid])
     \/ (hd false (faults w) = false /\ hd false (tail (faults w)) = false /\
         hd false (tail (tail (faults w))) = false /\
         db w' = committed uid d plan now (db w) /\
         requests w' = requests w ++ commit_requests uid d plan now /\
         logs w' = logs w ++ [SaveStart uid; SaveOk uid])).
Proof.
  intros Hs Hh Ht.
  destruct w as [hp tb fl rq lg ud ob]; simpl in *.
  unfold save_new_plan_and_profile. rewrite Hs. simpl.
  unfold bind at 1. unfold deref at 1. simpl. rewrite Hh. rewrite Ht. simpl.
  unfold bind, log, alloc, setitem, try_except, deref, execute, ret; simpl.
  rewrite list_lookup_middle by reflexivity. simpl.
  rewrite heap_set_last, list_lookup_middle by reflexivity. simpl.
  unfold users_upsert. rewrite dict_get_set_eq.
  pose proof (lookup_app_l_Some hp [dict_set (lit "user_id") (JInt uid) d] _ _ Hh) as Hh'.
  destruct (hd false fl) eqn:F1; simpl.
  { eexists. split; [reflexivity|]. left. simpl. rewrite <- !app_assoc. auto. }
  destruct (hd false (tail fl)) eqn:F2; simpl.
  { eexists. split; [reflexivity|]. right; left. simpl. rewrite <- !app_assoc. auto. }
  rewrite Hh'. simpl.
  destruct (hd false (tail (tail fl))) eqn:F3; simpl.
  { eexists. split; [reflexivity|]. right; right; left. simpl.
    rewrite <- !app_assoc. auto 10. }
  eexists. split; [reflexivity|]. right; right; right. simpl.
  rewrite <- !app_assoc. auto 10.
Qed.

(** C10. A call of [save_new_plan_and_profile] with a profile that is
    not empty leaves in the object the caller passed what it held before.
    With a client, the call first upserts the profile with [user_id] set
    to the caller's user id, whatever [user_id] the profile had, and that
    row is what the [users] table takes when the upsert is served; every
    plan record it inserts carries the profile as it was given, without
    that change; and when the store serves the three requests, the tables
    are the old ones with that row upserted, the active plans of the user
    closed and one plan record added, whose snapshot is the profile as it
    was given. *)
Theorem commit_rows_and_argument (self : FouserBot) (uid : Z) (profile : nat)
    (d : pydict) (plan : str) (now : timestamp) (w : world) :
  heap w !! profile = Some d ->
  dict_truthy d = true ->
  let row := dict_set (lit "user_id") (JInt uid) d in
  let w' := snd (save_new_plan_and_profile self uid profile plan now w) in
  heap w' !! profile = Some d /\
  dict_get (lit "user_id") row = Some (JInt uid) /\
  (forall k, k <> lit "user_id" -> dict_get k row = dict_get k d) /\
  (supabase self = true ->
   (exists rest,
       requests w' = requests w ++ UsersUpsert row :: rest /\
       forall r, In (PlanInsert r) rest -> profile_json r = d) /\
   (hd false (faults w) = false ->
    users (db w') = upsert_rows (JInt uid) row (users (db w))) /\
   (healthy w ->
    requests w' = requests w ++ commit_requests uid d plan now /\
    users (db w') = upsert_rows (JInt uid) row (users (db w)) /\
    plan_history (db w')
    = map (close_row uid now) (plan_history (db w))
      ++ [{| user_id := uid; plan_text := plan; profile_json := d;
             start_date := now; end_date := None |}])).
Proof.
  intros Hh Ht row w'. subst w'.
  split; [|split; [apply dict_get_set_eq|split]].
  - destruct (supabase self) eqn:Hs.
    + destruct (save_run self uid profile d plan now w Hs Hh Ht)
        as (w1 & n & -> & Hheap & _).
      simpl. rewrite Hheap. now apply lookup_app_l_Some.
    + unfold save_new_plan_and_profile. rewrite Hs. exact Hh.
  - intros k Hk. apply dict_get_set_ne. congruence.
  - intros Hs.
    destruct (save_run self uid profile d plan now w Hs Hh Ht)
      as (w1 & n & Hrun & _ & _ & _ & Hrq & Hcase).
    destruct (save_outcomes self uid profile d plan now w Hs Hh Ht)
      as (w2 & Hrun2 & Hout).
    rewrite Hrun in Hrun2. injection Hrun2 as <-. rewrite Hrun. simpl.
    split; [|split].
    + exists (take n [PlanClose uid now;
                      PlanInsert {| user_id := uid; plan_text := plan;
                                    profile_json := d; start_date := now;
                                    end_date := None |}]).
      split; [exact Hrq|].
      intros r Hin.
      destruct n as [|[|n]]; simpl in Hin; [contradiction| |];
        destruct Hin as [Hin | Hin]; try discriminate; try contradiction.
      destruct Hin as [Hin | Hin]; [|now rewrite take_nil in Hin].
      injection Hin as <-. reflexivity.
    + intros F1.
      destruct Hout as [H | [H | [H | H]]].
      * destruct H as (F & _). congruence.
      * destruct H as (_ & _ & -> & _). reflexivity.
      * destruct H as (_ & _ & _ & -> & _). reflexivity.
      * destruct H as (_ & _ & _ & -> & _). reflexivity.
    + intros Hw.
      destruct Hcase as [(_ & -> & Hdb & _) | [_ Hbad]]; [|contradiction].
      rewrite Hdb. repeat split. exact Hrq.
Qed.

(** ** [_load_profile] *)

(** The first row of [order_desc] is a row that starts last. *)
Lemma order_desc_head (l : list plan_row) :
  l <> [] ->
  exists x rest,
    order_desc l = x :: rest /\ In x l /\
    forall y, In y l -> (start_date y <= start_date x)%Z.
Proof.
  induction l as [|a l IH]; [congruence|]. intros _.
  destruct l as [|b l].
  - exists a, []. simpl. repeat split; auto.
    intros y [<- | []]. lia.
  - destruct IH as (x & rest & Heq & Hin & Hmax); [congruence|].
    change (order_desc (a :: b :: l)) with (insert_desc a (order_desc (b :: l))).
    rewrite Heq. simpl insert_desc.
    destruct (start_date x <? start_date a)%Z eqn:E.
    + apply Z.ltb_lt in E. exists a, (x :: rest).
      split; [reflexivity|]. split; [now left|].
      intros y [<- | Hy]; [lia|]. specialize (Hmax y Hy). lia.
    + apply Z.ltb_ge in E. exists x, (insert_desc a rest).
      split; [reflexivity|]. split; [now right|].
      intros y [<- | Hy]; [lia|]. now apply Hmax.
Qed.

(** C7. When the store holds more than one plan record with a null end
    time for a user, the lookup of the active plan that [_load_profile]
    does for a stored user returns a plan text, and it is the text of an
    active record of that user whose start time no other active record of
    the user exceeds. *)
Theorem load_profile_latest_active (self : FouserBot) (uid : Z) (w : world) :
  supabase self = true ->
  hd false (faults w) = false ->
  hd false (tail (faults w)) = false ->
  users_select uid (db w) <> [] ->
  (1 < count_active uid (db w))%nat ->
  exists profile r w',
    _load_profile self uid w = (Val (Some (profile, plan_text r)), w') /\
    In r (plan_history (db w)) /\ is_active uid r = true /\
    forall r', In r' (plan_history (db w)) -> is_active uid r' = true ->
               (start_date r' <= start_date r)%Z.
Proof.
  intros Hs Hf1 Hf2 Husers Hmany.
  destruct (order_desc_head (List.filter (is_active uid) (plan_history (db w))))
    as (r & rest & Hord & Hin & Hmax).
  { unfold count_active in Hmany. intros E. rewrite E in Hmany. simpl in Hmany. lia. }
  apply List.filter_In in Hin as [Hin Hact].
  destruct (users_select uid (db w)) as [|profile others] eqn:Hsel; [congruence|].
  exists profile, r. eexists. split; [|split; [exact Hin|split; [exact Hact|]]].
  - unfold _load_profile. rewrite Hs. simpl.
    unfold try_except, bind, execute, ret. simpl.
    rewrite Hf1, Hsel. simpl. rewrite Hf2. simpl.
    unfold plan_select_active. simpl. rewrite Hord. simpl. reflexivity.
  - intros r' Hin' Hact'. apply Hmax. apply List.filter_In. auto.
Qed.

(** ** [reset_chat] *)

(** C9. [reset_chat] removes the chat session of the user who sent the
    command and of nobody else, and neither reads nor writes the store:
    no request is executed and the three tables are what they were. *)
Theorem reset_clears_one_session (u : update) (w : world) :
  exists w',
    reset_chat u w = (Val tt, w') /\
    user_data w' !! from_user u = None /\
    (forall other, other <> from_user u -> user_data w' !! other = user_data w !! other) /\
    requests w' = requests w /\
    db w' = db w.
Proof.
  eexists. split; [reflexivity|]. simpl.
  split; [apply lookup_delete_eq|].
  split; [|split; reflexivity].
  intros other Hne. apply lookup_delete_ne. congruence.
Qed.

(** ** What the handler leaves alone *)

Lemma quiet_refl (w : world) : quiet w w.
Proof.
  repeat split. exists []. now rewrite app_nil_r.
Qed.

Lemma quiet_trans (w1 w2 w3 : world) : quiet w1 w2 -> quiet w2 w3 -> quiet w1 w3.
Proof.
  intros (Hu & Hp & a & Hr & Ha) (Hu' & Hp' & a' & Hr' & Ha').
  split; [congruence|]. split; [congruence|].
  exists (a ++ a'). split.
  - now rewrite Hr', Hr, app_assoc.
  - rewrite forallb_app, Ha, Ha'. reflexivity.
Qed.

Lemma calm_refl (w : world) : calm w w.
Proof.
  split; [reflexivity|]. split; [reflexivity|]. split; [apply quiet_refl|auto].
Qed.

Lemma calm_same (w w' : world) :
  heap w' = heap w -> outbox w' = outbox w -> db w' = db w ->
  requests w' = requests w -> faults w' = faults w -> calm w w'.
Proof.
  intros Hh Ho Hd Hr Hf. split; [exact Hh|]. split; [exact Ho|]. split.
  - unfold quiet. rewrite Hd, Hr. repeat split. exists []. now rewrite app_nil_r.
  - unfold healthy. now rewrite Hf.
Qed.

Lemma calm_trans (w1 w2 w3 : world) : calm w1 w2 -> calm w2 w3 -> calm w1 w3.
Proof.
  intros (Hh & Ho & Hq & Hf) (Hh' & Ho' & Hq' & Hf').
  split; [congruence|]. split; [congruence|].
  split; [eapply quiet_trans; eauto|]. auto.
Qed.

Lemma calm_quiet (w w' : world) : calm w w' -> quiet w w'.
Proof. now intros (_ & _ & H & _). Qed.

Lemma healthy_tail (w : world) :
  healthy w -> Forall (fun b => b = false) (tail (faults w)).
Proof.
  unfold healthy. destruct (faults w); simpl; auto. now inversion 1.
Qed.

Lemma healthy_hd (w : world) : healthy w -> hd false (faults w) = false.
Proof.
  unfold healthy. destruct (faults w); simpl; auto. now inversion 1.
Qed.

Lemma returns_calmly {A} (P : A -> Prop) (m : M A) : returns P m -> calmly m.
Proof. intros H w. destruct (H w) as (a & w' & -> & _ & Hc). exact Hc. Qed.

Lemma calmly_ret {A} (a : A) : calmly (ret a).
Proof. intros w. apply calm_refl. Qed.

Lemma returns_ret {A} (P : A -> Prop) (a : A) : P a -> returns P (ret a).
Proof. intros H w. exists a, w. repeat split; auto; apply calm_refl. Qed.

Lemma calmly_bind {A B} (m : M A) (k : A -> M B) :
  calmly m -> (forall a, calmly (k a)) -> calmly (bind m k).
Proof.
  intros Hm Hk w. unfold bind. specialize (Hm w).
  destruct (m w) as [[a|] w1]; simpl in *; [|exact Hm].
  eapply calm_trans; [exact Hm|]. apply Hk.
Qed.

Lemma returns_bind {A B} (P : A -> Prop) (Q : B -> Prop) (m : M A) (k : A -> M B) :
  returns P m -> (forall a, P a -> returns Q (k a)) -> returns Q (bind m k).
Proof.
  intros Hm Hk w. unfold bind.
  destruct (Hm w) as (a & w1 & -> & Ha & Hc).
  destruct (Hk a Ha w1) as (b & w2 & Hb & Hq & Hc').
  exists b, w2. simpl. split; [exact Hb|]. split; [exact Hq|].
  eapply calm_trans; eauto.
Qed.

Lemma returns_try {A} (P : A -> Prop) (body handler : M A) :
  calmly body -> (forall w a, fst (body w) = Val a -> P a) -> returns P handler ->
  returns P (try_except body handler).
Proof.
  intros Hb Hp Hh w. unfold try_except. specialize (Hb w). specialize (Hp w).
  destruct (body w) as [[a|] w1]; simpl in *.
  - exists a, w1. split; [reflexivity|]. split; [now apply Hp|exact Hb].
  - destruct (Hh w1) as (a & w2 & -> & Ha & Hc).
    exists a, w2. split; [reflexivity|]. split; [exact Ha|].
    eapply calm_trans; eauto.
Qed.

Lemma returns_log (e : log_entry) : returns (fun _ => True) (log e).
Proof.
  intros w. eexists; eexists. split; [reflexivity|]. split; [exact I|].
  now apply calm_same.
Qed.

Lemma returns_log_all (es : list log_entry) : returns (fun _ => True) (log_all es).
Proof.
  intros w. eexists; eexists. split; [reflexivity|]. split; [exact I|].
  now apply calm_same.
Qed.

(** A request outside the pipeline that leaves [users] and [plan_history]
    alone is calm. *)
Lemma calmly_execute {R} (rq : request) (act : tables -> option (tables * R)) :
  persists rq = false ->
  (forall tb tb' r, act tb = Some (tb', r) ->
                    users tb' = users tb /\ plan_history tb' = plan_history tb) ->
  calmly (execute rq act).
Proof.
  intros Hrq Hact w. unfold execute.
  assert (Hcalm : forall tb,
             users tb = users (db w) -> plan_history tb = plan_history (db w) ->
             calm w (set_db tb (set_faults (tail (faults w))
                                  (set_requests (requests w ++ [rq]) w)))).
  { intros tb Hu Hp. split; [reflexivity|]. split; [reflexivity|]. split.
    - split; [exact Hu|]. split; [exact Hp|]. exists [rq]. split; [reflexivity|].
      simpl. now rewrite Hrq.
    - intros Hh. unfold healthy. simpl. now apply healthy_tail. }
  assert (Hcalm' : calm w (set_faults (tail (faults w))
                             (set_requests (requests w ++ [rq]) w))).
  { specialize (Hcalm (db w) eq_refl eq_refl). destruct w; exact Hcalm. }
  destruct (hd false (faults w)); simpl; [exact Hcalm'|].
  destruct (act (db w)) as [[tb r]|] eqn:E; simpl; [|exact Hcalm'].
  destruct (Hact _ _ _ E). now apply Hcalm.
Qed.

Section HandlerFrame.

Variable self : FouserBot.

Lemma returns_log_conversation (uid : Z) (s m : str) :
  returns (fun _ => True) (_log_conversation self uid s m).
Proof.
  unfold _log_conversation. destruct (supabase self); simpl; [|apply returns_log].
  apply returns_try; auto using returns_log.
  apply calmly_execute; [reflexivity|].
  intros tb tb' r E. injection E as <- _. auto.
Qed.

Lemma returns_load_profile (uid : Z) :
  returns (fun _ => True) (_load_profile self uid).
Proof.
  unfold _load_profile. destruct (supabase self); simpl.
  - apply returns_try; auto.
    + apply calmly_bind.
      * apply calmly_execute; [reflexivity|]. intros tb tb' r E. injection E as <- _. auto.
      * intros [|profile rest].
        -- apply (returns_calmly (fun _ => True)).
           eapply returns_bind; [apply returns_log|].
           intros _ _. apply returns_ret. exact I.
        -- apply calmly_bind; [|intros; apply calmly_ret].
           apply calmly_execute; [reflexivity|].
           intros tb tb' r E. injection E as <- _. auto.
    + eapply returns_bind; [apply returns_log|]. intros _ _. apply returns_ret. exact I.
  - eapply returns_bind; [apply returns_log|]. intros _ _. apply returns_ret. exact I.
Qed.

Lemma returns_send_message (uid : Z) (p : prompt) (r : str) :
  returns (fun a => a = r) (send_message uid p (Some r)).
Proof.
  intros w. eexists; eexists. split; [reflexivity|]. split; [reflexivity|].
  now apply calm_same.
Qed.

Lemma calmly_send_message (uid : Z) (p : prompt) (resp : option str) :
  calmly (send_message uid p resp).
Proof.
  destruct resp as [r|].
  - eapply returns_calmly, returns_send_message.
  - intros w. apply calm_refl.
Qed.

(** With an answer from the model, [obtain_reply] returns it. *)
Lemma returns_obtain_reply (u : update) (r : str) :
  returns (fun a => a = r) (obtain_reply self u (Some r)).
Proof.
  unfold obtain_reply.
  eapply returns_bind with (P := fun _ => True).
  { intros w. eexists; eexists. split; [reflexivity|]. split; [exact I|]. apply calm_refl. }
  intros [sess|] _; [apply returns_send_message|].
  eapply returns_bind; [apply returns_log|]. intros _ _.
  eapply returns_bind with (P := fun _ => True).
  { intros w. eexists; eexists. split; [reflexivity|]. split; [exact I|].
    now apply calm_same. }
  intros _ _.
  eapply returns_bind; [apply returns_load_profile|].
  intros [[profile last_plan]|] _;
    (eapply returns_bind; [apply returns_log|]); intros _ _; apply returns_send_message.
Qed.

End HandlerFrame.

(** ** What Telegram takes, and what stays outside *)

(** No step of the bot changes the interpreter or what Telegram refuses,
    and none takes anything out of the log. *)
Lemma onward_refl (w : world) : onward w w.
Proof. split; [reflexivity|]. split; [reflexivity|]. exists []. now rewrite app_nil_r. Qed.

Lemma onward_trans (w1 w2 w3 : world) : onward w1 w2 -> onward w2 w3 -> onward w1 w3.
Proof.
  intros (H1 & H2 & a & Ha) (H3 & H4 & b & Hb).
  split; [congruence|]. split; [congruence|].
  exists (a ++ b). now rewrite Hb, Ha, app_assoc.
Qed.

Lemma onward_same (w w' : world) :
  python w' = python w -> telegram_refuses w' = telegram_refuses w ->
  logs w' = logs w -> onward w w'.
Proof.
  intros H1 H2 H3. split; [exact H1|]. split; [exact H2|].
  exists []. now rewrite app_nil_r.
Qed.

Lemma onward_bind {A B} (m : M A) (k : A -> M B) :
  keeps onward m -> (forall a, keeps onward (k a)) -> keeps onward (bind m k).
Proof.
  intros Hm Hk w. unfold bind. specialize (Hm w).
  destruct (m w) as [[a|] w1]; simpl in *; [|exact Hm].
  eapply onward_trans; [exact Hm|]. apply Hk.
Qed.

Lemma onward_try {A} (body handler : M A) :
  keeps onward body -> keeps onward handler -> keeps onward (try_except body handler).
Proof.
  intros Hb Hh w. unfold try_except. specialize (Hb w).
  destruct (body w) as [[a|] w1]; simpl in *; [exact Hb|].
  eapply onward_trans; [exact Hb|]. apply Hh.
Qed.

Lemma onward_execute {R} (rq : request) (act : tables -> option (tables * R)) :
  keeps onward (execute rq act).
Proof.
  intros w. unfold execute. destruct (hd false (faults w)); [now apply onward_same|].
  destruct (act (db w)) as [[tb r]|]; now apply onward_same.
Qed.

Lemma onward_reply_text (u : update) (t : str) : keeps onward (reply_text u t).
Proof.
  intros w. unfold reply_text.
  destruct (telegram_accepts (telegram_refuses w) t); now apply onward_same.
Qed.

Lemma onward_deref (l : nat) : keeps onward (deref l).
Proof. intros w. unfold deref. destruct (heap w !! l); now apply onward_same. Qed.

Lemma onward_setitem (l : nat) (k : str) (v : json) : keeps onward (setitem l k v).
Proof. intros w. unfold setitem. destruct (heap w !! l); now apply onward_same. Qed.

Lemma onward_log (e : log_entry) : keeps onward (log e).
Proof. intros w. split; [reflexivity|]. split; [reflexivity|]. now exists [e]. Qed.

Lemma onward_log_all (es : list log_entry) : keeps onward (log_all es).
Proof. intros w. split; [reflexivity|]. split; [reflexivity|]. now exists es. Qed.

Lemma onward_simple {A} (m : M A) :
  (forall w, python (snd (m w)) = python w /\
             telegram_refuses (snd (m w)) = telegram_refuses w /\
             logs (snd (m w)) = logs w) ->
  keeps onward m.
Proof. intros H w. destruct (H w) as (H1 & H2 & H3). now apply onward_same. Qed.

(** One step of a proof that a method goes onward. *)
Ltac onward_step :=
  first [ apply onward_bind; [|intros ?]
        | apply onward_try
        | apply onward_execute
        | apply onward_reply_text
        | apply onward_deref
        | apply onward_setitem
        | apply onward_log
        | apply onward_log_all
        | apply onward_simple; intros ?; repeat split; reflexivity ].

Lemma onward_save (self : FouserBot) (uid : Z) (profile : nat) (plan : str)
    (now : timestamp) :
  keeps onward (save_new_plan_and_profile self uid profile plan now).
Proof.
  unfold save_new_plan_and_profile.
  destruct (supabase self); simpl; [|onward_step].
  apply onward_bind; [onward_step|]. intros given.
  destruct (dict_truthy given); simpl; repeat onward_step.
Qed.

Lemma onward_log_conversation (self : FouserBot) (uid : Z) (s m : str) :
  keeps onward (_log_conversation self uid s m).
Proof.
  unfold _log_conversation. destruct (supabase self); simpl; repeat onward_step.
Qed.

Lemma onward_load_profile (self : FouserBot) (uid : Z) :
  keeps onward (_load_profile self uid).
Proof.
  unfold _load_profile. destruct (supabase self); simpl; [|repeat onward_step].
  apply onward_try; [|repeat onward_step].
  apply onward_bind; [onward_step|]. intros [|profile rest]; repeat onward_step.
Qed.

Lemma onward_send_message (uid : Z) (p : prompt) (resp : option str) :
  keeps onward (send_message uid p resp).
Proof. intros w. destruct resp; now apply onward_same. Qed.

Lemma onward_obtain_reply (self : FouserBot) (u : update) (resp : option str) :
  keeps onward (obtain_reply self u resp).
Proof.
  unfold obtain_reply. apply onward_bind; [onward_step|].
  intros [s|]; [apply onward_send_message|].
  apply onward_bind; [onward_step|]. intros _.
  apply onward_bind; [onward_step|]. intros _.
  apply onward_bind; [apply onward_load_profile|].
  intros [[profile last_plan]|];
    (apply onward_bind; [onward_step|]); intros _; apply onward_send_message.
Qed.

(** Telegram takes a plain text, whatever else it refuses. *)
Lemma accepts_plain (refuses : str -> bool) (t : str) :
  plain_text t = true -> telegram_accepts refuses t = true.
Proof. intros H. unfold telegram_accepts. now rewrite H. Qed.

Lemma reply_plain (u : update) (t : str) (w : world) :
  plain_text t = true -> reply_text u t w = send (Reply (chat_id u) t) w.
Proof. intros H. unfold reply_text. now rewrite accepts_plain. Qed.

Lemma refuses_empty (refuses : str -> bool) : telegram_accepts refuses [] = false.
Proof. reflexivity. Qed.

Lemma refuses_long (refuses : str -> bool) (t : str) :
  (4096 < length t)%nat -> telegram_accepts refuses t = false.
Proof.
  intros H. unfold telegram_accepts, plain_text.
  assert (E : (length t <=? 4096)%nat = false) by now apply Nat.leb_gt.
  rewrite E, !andb_false_r. reflexivity.
Qed.

(** The apology is delivered. *)
Lemma apologise_run (u : update) (w : world) :
  apologise u w
  = (Val tt, set_outbox (outbox w ++ [Reply (chat_id u) SORRY])
               (set_logs (logs w ++ [ChatError]) w)).
Proof.
  unfold apologise, bind, log. rewrite reply_plain by (vm_compute; reflexivity).
  reflexivity.
Qed.

(** A reply inside the [try] of the handler: the text is delivered, or
    the error is logged and the apology is. *)
Lemma reply_or_apologise (u : update) (t : str) (w : world) :
  exists w',
    try_except (reply_text u t) (apologise u) w = (Val tt, w') /\
    outbox w' = outbox w ++ [Reply (chat_id u) (delivered w t)] /\
    heap w' = heap w /\ db w' = db w /\ requests w' = requests w /\
    user_data w' = user_data w /\ faults w' = faults w /\
    (logs w' = logs w \/ logs w' = logs w ++ [ChatError]).
Proof.
  unfold try_except, reply_text, delivered.
  destruct (telegram_accepts (telegram_refuses w) t).
  - eexists. split; [reflexivity|]. simpl. auto 10.
  - rewrite apologise_run. eexists. split; [reflexivity|]. simpl. auto 10.
Qed.

Lemma quiet_reply (u : update) (t : str) (w : world) :
  quiet w (snd (reply_text u t w)).
Proof.
  unfold reply_text. destruct (telegram_accepts (telegram_refuses w) t);
    repeat split; exists []; simpl; now rewrite app_nil_r.
Qed.

Lemma quiet_same (w w' : world) :
  db w' = db w -> requests w' = requests w -> quiet w w'.
Proof.
  intros Hdb Hrq. unfold quiet. rewrite Hdb, Hrq.
  repeat split. exists []. now rewrite app_nil_r.
Qed.

Lemma quiet_reply_or_apologise (u : update) (t : str) (w : world) :
  quiet w (snd (try_except (reply_text u t) (apologise u) w)).
Proof.
  destruct (reply_or_apologise u t w) as (w' & -> & _ & _ & Hdb & Hrq & _).
  now apply quiet_same.
Qed.

(** ** [main_chat_handler] *)

Lemma bind_val {A B} (m : M A) (k : A -> M B) (w w' : world) (a : A) :
  m w = (Val a, w') -> bind m k w = k a w'.
Proof. intros E. unfold bind. now rewrite E. Qed.

Lemma try_bind_val {A B} (m : M A) (k : A -> M B) (h : M B) (w w' : world) (a : A) :
  m w = (Val a, w') -> try_except (bind m k) h w = try_except (k a) h w'.
Proof. intros E. unfold try_except, bind. now rewrite E. Qed.

(** With both clients and an answer [r] from the model, the handler gets
    to the processing of [r] having only sent the typing action and
    executed requests outside the pipeline. *)
Lemma handler_run (self : FouserBot) (u : update) (r : str) (now : timestamp)
    (w : world) :
  model self = true -> supabase self = true ->
  exists w1,
    heap w1 = heap w /\
    outbox w1 = outbox w ++ [Typing (chat_id u)] /\
    quiet w w1 /\ (healthy w -> healthy w1) /\ onward w w1 /\
    main_chat_handler self u (Some r) now w
    = try_except (process_reply self u r now) (apologise u) w1.
Proof.
  intros Hm Hs. unfold main_chat_handler. rewrite Hm, Hs. simpl.
  destruct (returns_log (ChatMessage (from_user u) (text u)) w)
    as (? & wa & Ea & _ & Ca).
  rewrite (bind_val _ _ _ _ _ Ea).
  destruct (returns_log_conversation self (from_user u) (lit "user") (text u) wa)
    as (? & wb & Eb & _ & Cb).
  rewrite (bind_val _ _ _ _ _ Eb).
  rewrite (try_bind_val _ _ _ wb (set_outbox (outbox wb ++ [Typing (chat_id u)]) wb) tt)
    by reflexivity.
  set (wc := set_outbox (outbox wb ++ [Typing (chat_id u)]) wb).
  destruct (returns_obtain_reply self u r wc) as (? & wd & Ed & -> & Cd).
  rewrite (try_bind_val _ _ _ _ _ _ Ed).
  destruct (returns_log_conversation self (from_user u) (lit "ai") r wd)
    as (? & we & Ee & _ & Ce).
  rewrite (try_bind_val _ _ _ _ _ _ Ee).
  exists we.
  pose proof (calm_trans _ _ _ Ca Cb) as (Hh1 & Ho1 & Hq1 & Hf1).
  pose proof (calm_trans _ _ _ Cd Ce) as (Hh2 & Ho2 & Hq2 & Hf2).
  split; [now rewrite Hh2, <- Hh1|].
  split; [rewrite Ho2; subst wc; simpl; now rewrite Ho1|].
  split; [|split; [|split; [|reflexivity]]].
  - eapply quiet_trans; [exact Hq1|]. eapply quiet_trans; [|exact Hq2].
    subst wc. repeat split. exists []. simpl. now rewrite app_nil_r.
  - intros H. apply Hf2. apply Hf1 in H. exact H.
  - pose proof (onward_log_conversation self (from_user u) (lit "user") (text u) wa)
      as Sb.
    pose proof (onward_obtain_reply self u (Some r) wc) as Sd.
    pose proof (onward_log_conversation self (from_user u) (lit "ai") r wd) as Se.
    pose proof (onward_log (ChatMessage (from_user u) (text u)) w) as Sa.
    rewrite Ea in Sa. rewrite Eb in Sb. rewrite Ed in Sd. rewrite Ee in Se.
    simpl in Sa, Sb, Sd, Se.
    eapply onward_trans; [|exact Se]. eapply onward_trans; [|exact Sd].
    eapply onward_trans; [exact Sa|]. eapply onward_trans; [exact Sb|].
    subst wc. now apply onward_same.
Qed.

(** What [process_reply] does with an answer that lacks the marker, and
    with one that has the marker but no usable profile. *)
Lemma process_reply_plain (self : FouserBot) (u : update) (r : str)
    (now : timestamp) :
  contains END_OF_PLAN r = false ->
  process_reply self u r now = reply_text u r.
Proof. intros H. unfold process_reply. now rewrite H. Qed.

Lemma process_reply_no_profile (self : FouserBot) (u : update) (r : str)
    (now : timestamp) (w : world) :
  contains END_OF_PLAN r = true ->
  fst (_extract_profile_json (python w) r) = Val None \/
  fst (_extract_profile_json (python w) r) = Val (Some []) ->
  exists w1,
    try_except (process_reply self u r now) (apologise u) w
    = try_except (reply_text u (strip (replace END_OF_PLAN [] r))) (apologise u) w1 /\
    outbox w1 = outbox w /\ heap w1 = heap w /\ db w1 = db w /\
    requests w1 = requests w /\ user_data w1 = user_data w /\
    python w1 = python w /\ telegram_refuses w1 = telegram_refuses w /\
    exists added, logs w1 = logs w ++ added /\ last added = Some ChatNoJson.
Proof.
  intros Hc Hp. unfold process_reply. rewrite Hc.
  rewrite (try_bind_val _ _ _ w (set_logs (logs w ++ [ChatEndOfPlan]) w) tt)
    by reflexivity.
  rewrite (try_bind_val _ _ _ _ (set_logs (logs w ++ [ChatEndOfPlan]) w) (python w))
    by reflexivity.
  destruct (_extract_profile_json (python w) r) as [parsed parse_logs]. simpl in Hp.
  rewrite (try_bind_val _ _ _ _
             (set_logs ((logs w ++ [ChatEndOfPlan]) ++ parse_logs) w) tt)
    by reflexivity.
  assert (Hlast : last ([ChatEndOfPlan] ++ parse_logs ++ [ChatNoJson]) = Some ChatNoJson)
    by (rewrite !app_assoc; apply last_snoc).
  destruct Hp as [-> | ->].
  - rewrite (try_bind_val _ _ _ _
               (set_logs (((logs w ++ [ChatEndOfPlan]) ++ parse_logs) ++ [ChatNoJson]) w)
               tt) by reflexivity.
    eexists. split; [reflexivity|]. simpl. do 7 (split; [reflexivity|]).
    exists ([ChatEndOfPlan] ++ parse_logs ++ [ChatNoJson]).
    split; [now rewrite <- !app_assoc|exact Hlast].
  - rewrite (try_bind_val _ _ _ _
               (set_logs (((logs w ++ [ChatEndOfPlan]) ++ parse_logs) ++ [ChatNoJson]) w)
               tt) by reflexivity.
    eexists. split; [reflexivity|]. simpl. do 7 (split; [reflexivity|]).
    exists ([ChatEndOfPlan] ++ parse_logs ++ [ChatNoJson]).
    split; [now rewrite <- !app_assoc|exact Hlast].
Qed.

(** What it does when [json.loads] raises something that is not caught:
    the apology. *)
Lemma process_reply_raised (self : FouserBot) (u : update) (r : str)
    (now : timestamp) (w : world) :
  contains END_OF_PLAN r = true ->
  fst (_extract_profile_json (python w) r) = Raised ->
  exists w',
    try_except (process_reply self u r now) (apologise u) w = (Val tt, w') /\
    outbox w' = outbox w ++ [Reply (chat_id u) SORRY] /\
    heap w' = heap w /\ db w' = db w /\ requests w' = requests w /\
    user_data w' = user_data w /\ last (logs w') = Some ChatError.
Proof.
  intros Hc Hp. unfold process_reply. rewrite Hc.
  rewrite (try_bind_val _ _ _ w (set_logs (logs w ++ [ChatEndOfPlan]) w) tt)
    by reflexivity.
  rewrite (try_bind_val _ _ _ _ (set_logs (logs w ++ [ChatEndOfPlan]) w) (python w))
    by reflexivity.
  destruct (_extract_profile_json (python w) r) as [parsed parse_logs]. simpl in Hp.
  subst parsed.
  rewrite (try_bind_val _ _ _ _
             (set_logs ((logs w ++ [ChatEndOfPlan]) ++ parse_logs) w) tt)
    by reflexivity.
  unfold try_except, raise. rewrite apologise_run.
  eexists. split; [reflexivity|]. simpl. repeat (split; [reflexivity|]).
  apply last_snoc.
Qed.

(** C2. When the model's answer does not contain [[END_OF_PLAN]], the
    handler executes no profile upsert, no plan close and no plan insert,
    and leaves [users] and [plan_history] as they were, whatever else the
    answer holds, a [[USER_DATA_JSON]] block included. *)
Theorem no_marker_no_persistence (self : FouserBot) (u : update) (r : str)
    (now : timestamp) (w : world) :
  contains END_OF_PLAN r = false ->
  quiet w (snd (main_chat_handler self u (Some r) now w)).
Proof.
  intros Hc.
  destruct (model self) eqn:Hm; [destruct (supabase self) eqn:Hs|].
  - destruct (handler_run self u r now w Hm Hs) as (w1 & _ & _ & Hq & _ & _ & ->).
    rewrite process_reply_plain by exact Hc.
    eapply quiet_trans; [exact Hq|]. apply quiet_reply_or_apologise.
  - unfold main_chat_handler. rewrite Hm, Hs. apply quiet_reply.
  - unfold main_chat_handler. rewrite Hm. apply quiet_reply.
Qed.

(** C6, as the code has it.  When the model's answer contains the marker
    and [_extract_profile_json] returns no profile (no block, or a block
    on which [json.loads] raises [JSONDecodeError]), the handler persists
    nothing and replies with the answer from which every [[END_OF_PLAN]]
    was removed and whose leading and trailing whitespace was then
    stripped, or with the apology when Telegram refuses that text.  When
    [json.loads] raises anything else on the block, the handler persists
    nothing and replies with the apology. *)
Theorem marker_without_profile (self : FouserBot) (u : update) (r : str)
    (now : timestamp) (w : world) :
  model self = true -> supabase self = true ->
  contains END_OF_PLAN r = true ->
  (fst (_extract_profile_json (python w) r) = Val None ->
   quiet w (snd (main_chat_handler self u (Some r) now w)) /\
   replies_with self u r now w (delivered w (strip (replace END_OF_PLAN [] r)))) /\
  (fst (_extract_profile_json (python w) r) = Raised ->
   quiet w (snd (main_chat_handler self u (Some r) now w)) /\
   replies_with self u r now w SORRY).
Proof.
  intros Hm Hs Hc. unfold replies_with.
  destruct (handler_run self u r now w Hm Hs)
    as (w1 & _ & Ho & Hq & _ & (Hpy & Htg & _) & ->).
  split; intros Hp; rewrite <- Hpy in Hp.
  - destruct (process_reply_no_profile self u r now w1 Hc (or_introl Hp))
      as (w2 & -> & Ho2 & _ & Hdb & Hrq & _ & _ & Htg2 & _).
    destruct (reply_or_apologise u (strip (replace END_OF_PLAN [] r)) w2)
      as (w3 & -> & Ho3 & _ & Hdb3 & Hrq3 & _).
    simpl. split.
    + eapply quiet_trans; [exact Hq|]. apply quiet_same; congruence.
    + rewrite Ho3, Ho2, Ho, <- app_assoc. unfold delivered.
      now rewrite Htg2, Htg.
  - destruct (process_reply_raised self u r now w1 Hc Hp)
      as (w2 & -> & Ho2 & _ & Hdb & Hrq & _).
    simpl. split.
    + eapply quiet_trans; [exact Hq|]. now apply quiet_same.
    + rewrite Ho2, Ho, <- app_assoc. reflexivity.
Qed.

(** What [process_reply] does with an answer that has the marker and a
    profile that is not empty, when the store serves every request: one
    commit of that profile with the extracted plan, then the reply, or the
    apology when Telegram refuses it. *)
Lemma process_reply_commit (self : FouserBot) (u : update) (r : str)
    (now : timestamp) (w : world) (d : pydict) :
  supabase self = true ->
  contains END_OF_PLAN r = true ->
  fst (_extract_profile_json (python w) r) = Val (Some d) ->
  dict_truthy d = true ->
  healthy w ->
  let plan := fst (_extract_plan_text r) in
  exists w',
    try_except (process_reply self u r now) (apologise u) w = (Val tt, w') /\
    db w' = committed (from_user u) d plan now (db w) /\
    requests w' = requests w ++ commit_requests (from_user u) d plan now /\
    exists before after,
      logs w' = logs w ++ before ++ [SaveStart (from_user u); SaveOk (from_user u)]
                ++ after.
Proof.
  intros Hs Hc Hp Ht Hf plan. subst plan. unfold process_reply. rewrite Hc.
  rewrite (try_bind_val _ _ _ w (set_logs (logs w ++ [ChatEndOfPlan]) w) tt)
    by reflexivity.
  rewrite (try_bind_val _ _ _ _ (set_logs (logs w ++ [ChatEndOfPlan]) w) (python w))
    by reflexivity.
  destruct (_extract_profile_json (python w) r) as [parsed parse_logs]. simpl in Hp.
  subst parsed.
  destruct d as [|kv d]; [discriminate|].
  destruct (_extract_plan_text r) as [plan plan_logs]. simpl fst.
  rewrite (try_bind_val _ _ _ _
             (set_logs ((logs w ++ [ChatEndOfPlan]) ++ parse_logs) w) tt)
    by reflexivity.
  set (w1 := set_logs ((logs w ++ [ChatEndOfPlan]) ++ parse_logs) w).
  rewrite (try_bind_val _ _ _ w1 (set_heap (heap w1 ++ [kv :: d]) w1) (length (heap w1)))
    by reflexivity.
  set (w2 := set_heap (heap w1 ++ [kv :: d]) w1).
  rewrite (try_bind_val _ _ _ w2 (set_logs (logs w2 ++ plan_logs) w2) tt) by reflexivity.
  set (w3 := set_logs (logs w2 ++ plan_logs) w2).
  destruct (save_run self (from_user u) (length (heap w1)) (kv :: d) plan now w3 Hs)
    as (w4 & n & Hrun & _ & _ & _ & Hrq & Hcase).
  { simpl. now apply list_lookup_middle. }
  { reflexivity. }
  destruct Hcase as [(Hok & -> & Hdb & _) | [_ Hbad]]; [|exfalso; apply Hbad; exact Hf].
  rewrite (try_bind_val _ _ _ _ _ _ Hrun).
  match goal with
  | |- context [try_except (reply_text u ?t) _ _] =>
      destruct (reply_or_apologise u t w4) as (w5 & -> & _ & _ & Hdb5 & Hrq5 & _ & _ & Hlog5)
  end.
  exists w5. split; [reflexivity|].
  split; [now rewrite Hdb5, Hdb|]. split; [now rewrite Hrq5, Hrq|].
  unfold saved_ok in Hok.
  exists ([ChatEndOfPlan] ++ parse_logs ++ plan_logs).
  destruct Hlog5 as [-> | ->]; [exists []|exists [ChatError]];
    rewrite Hok; simpl; rewrite <- ?app_assoc; simpl; rewrite ?app_nil_r;
    reflexivity.
Qed.

(** C8, as the code has it.  When the model's answer has the marker and
    its profile block parses to a JSON object that is not empty, the
    handler commits that object whatever its keys and values, as long as
    the store serves the requests: the new plan record carries the object
    as it was parsed, the profile row upserted is the object with
    [user_id] set, and nothing is checked or filled in.  When the block
    parses to the empty object, nothing is persisted. *)
Theorem nonempty_profile_stored_as_is (self : FouserBot) (u : update) (r : str)
    (now : timestamp) (w : world) (d : pydict) :
  model self = true -> supabase self = true ->
  contains END_OF_PLAN r = true ->
  fst (_extract_profile_json (python w) r) = Val (Some d) ->
  (d <> [] -> healthy w -> stored_as_is self u r now w d) /\
  (d = [] -> quiet w (snd (main_chat_handler self u (Some r) now w))).
Proof.
  intros Hm Hs Hc Hp.
  destruct (handler_run self u r now w Hm Hs)
    as (w1 & _ & _ & (Hu & Hph & before & Hrq & Hbefore) & Hf1
        & (Hpy & _ & lg & Hlg) & Hrun).
  rewrite <- Hpy in Hp. split.
  - intros Hd Hf. unfold stored_as_is. rewrite Hrun.
    destruct (process_reply_commit self u r now w1 d Hs Hc Hp)
      as (w2 & -> & Hdb & Hrq2 & lb & la & Hlog).
    { destruct d; [congruence|reflexivity]. }
    { now apply Hf1. }
    simpl. rewrite Hdb. simpl. rewrite Hu, Hph.
    split; [reflexivity|]. split; [reflexivity|]. split.
    + exists before. split; [|exact Hbefore].
      now rewrite Hrq2, Hrq, <- app_assoc.
    + exists (lg ++ lb), la. now rewrite Hlog, Hlg, <- !app_assoc.
  - intros ->. rewrite Hrun.
    destruct (process_reply_no_profile self u r now w1 Hc (or_intror Hp))
      as (w2 & -> & _ & _ & Hdb & Hrq2 & _).
    destruct (reply_or_apologise u (strip (replace END_OF_PLAN [] r)) w2)
      as (w3 & -> & _ & _ & Hdb3 & Hrq3 & _).
    simpl. eapply quiet_trans.
    + split; [exact Hu|]. split; [exact Hph|]. exists before. now split.
    + apply quiet_same; congruence.
Qed.

(** ** The regular expressions *)

Lemma match_greedy_unfold (a : Re.atom) (r : Re.regex) (t : str) (pos : nat) :
  Re.match_here (Re.Greedy a :: r) t pos
  = match t with
    | c :: t' =>
        if Re.atom_ok a c
        then match Re.match_here (Re.Greedy a :: r) t' (S pos) with
             | Some m => Some m
             | None => Re.match_here r t pos
             end
        else Re.match_here r t pos
    | [] => Re.match_here r t pos
    end.
Proof. destruct t; reflexivity. Qed.

Lemma match_lazy_unfold (a : Re.atom) (r : Re.regex) (t : str) (pos : nat) :
  Re.match_here (Re.Lazy a :: r) t pos
  = match Re.match_here r t pos with
    | Some m => Some m
    | None =>
        match t with
        | c :: t' =>
            if Re.atom_ok a c then Re.match_here (Re.Lazy a :: r) t' (S pos) else None
        | [] => None
        end
    end.
Proof. destruct t; reflexivity. Qed.

(** A literal prefix of a pattern matches exactly the texts that start
    with it. *)
Lemma match_literal (s : str) (r : Re.regex) (t : str) (pos : nat) :
  Re.match_here (Re.literal s ++ r) t pos
  = if startswith s t
    then Re.match_here r (drop (length s) t) (pos + length s)
    else None.
Proof.
  revert t pos. induction s as [|c s IH]; intros t pos.
  - simpl. rewrite drop_0. f_equal. lia.
  - destruct t as [|y t]; [reflexivity|]. simpl.
    destruct (c =? y); simpl; [|reflexivity].
    rewrite IH. destruct (startswith s t); [|reflexivity]. f_equal. lia.
Qed.

(** The greedy [\s*] runs over a stretch of whitespace that ends at a
    character that is not whitespace, when the rest of the pattern
    matches from there. *)
Lemma match_greedy_space (r : Re.regex) (ws : str) (c : N) (t : str) (pos : nat)
    (m : Re.rmatch) :
  forallb isspace ws = true ->
  isspace c = false ->
  Re.match_here r (c :: t) (pos + length ws) = Some m ->
  Re.match_here (Re.Greedy Re.Space :: r) (ws ++ c :: t) pos = Some m.
Proof.
  revert pos. induction ws as [|x ws IH]; intros pos Hws Hc Hm.
  - simpl app. rewrite match_greedy_unfold. simpl Re.atom_ok. rewrite Hc.
    simpl in Hm. now rewrite Nat.add_0_r in Hm.
  - simpl in Hws. apply andb_true_iff in Hws as [Hx Hws].
    simpl app. rewrite match_greedy_unfold. simpl Re.atom_ok. rewrite Hx.
    rewrite (IH (S pos)); auto.
    simpl in Hm. now rewrite Nat.add_succ_r in Hm.
Qed.

(** The lazy [.*?] before a closing brace stops at the first one. *)
Lemma match_lazy_brace (body rest : str) (pos : nat) :
  forallb (fun c => negb (c =? 125)) body = true ->
  Re.match_here [Re.Lazy Re.Dot; Re.One (Re.Lit 125); Re.GroupClose]
                (body ++ 125 :: rest) pos
  = Some {| Re.m_end := S (pos + length body); Re.g1_start := 0;
            Re.g1_end := S (pos + length body) |}.
Proof.
  revert pos. induction body as [|c body IH]; intros pos Hb.
  - simpl. now rewrite Nat.add_0_r.
  - simpl in Hb. apply andb_true_iff in Hb as [Hc Hb].
    assert (E : (125 =? c) = false).
    { rewrite N.eqb_sym. now destruct (c =? 125). }
    simpl app. rewrite match_lazy_unfold.
    cbn [Re.match_here Re.atom_ok]. rewrite E.
    rewrite IH by exact Hb. cbn [length]. rewrite Nat.add_succ_r. reflexivity.
Qed.

(** Positions at which a pattern has no match are passed over. *)
Lemma search_from_skip (re : Re.regex) (pre t : str) (pos : nat) :
  (forall i p, (i < length pre)%nat -> Re.match_here re (drop i (pre ++ t)) p = None) ->
  Re.search_from re (pre ++ t) pos = Re.search_from re t (pos + length pre).
Proof.
  revert pos. induction pre as [|c pre IH]; intros pos H.
  - simpl. f_equal. lia.
  - pose proof (H 0%nat pos ltac:(simpl; lia)) as H0. rewrite drop_0 in H0.
    simpl app in *. cbn [Re.search_from]. rewrite H0.
    rewrite IH.
    + f_equal. simpl. lia.
    + intros i p Hi. apply (H (S i) p). simpl. lia.
Qed.

Lemma startswith_app (p t : str) : startswith p (p ++ t) = true.
Proof. induction p as [|c p IH]; simpl; [reflexivity|]. now rewrite N.eqb_refl. Qed.

Lemma find_none_before (p t : str) (n : nat) :
  find p t = Some n ->
  forall i, (i < n)%nat -> startswith p (drop i t) = false.
Proof.
  revert n. induction t as [|c t IH]; intros n Hf i Hi.
  - simpl in Hf. destruct (startswith p []); [|discriminate].
    injection Hf as <-. lia.
  - simpl in Hf. destruct (startswith p (c :: t)) eqn:E.
    + injection Hf as <-. lia.
    + destruct (find p t) as [k|] eqn:Ek; [|discriminate].
      simpl in Hf. injection Hf as <-.
      destruct i as [|i]; [exact E|]. simpl. apply (IH k eq_refl). lia.
Qed.

Lemma slice_middle (a b c : str) :
  slice (length a) (length a + length b) (a ++ b ++ c) = b.
Proof.
  unfold slice. rewrite drop_app_length.
  replace (length a + length b - length a)%nat with (length b) by lia.
  now rewrite take_app_length.
Qed.

Lemma search_from_hit (re : Re.regex) (t : str) (pos : nat) (m : Re.rmatch) :
  Re.match_here re t pos = Some m -> Re.search_from re t pos = Some (pos, m).
Proof. intros H. destruct t; simpl; now rewrite H. Qed.

Lemma profile_re_split : profile_re = Re.literal USER_DATA_JSON ++ profile_re_tail.
Proof. reflexivity. Qed.

Lemma profile_re_needs_marker (t : str) (p : nat) :
  startswith USER_DATA_JSON t = false -> Re.match_here profile_re t p = None.
Proof. intros H. now rewrite profile_re_split, match_literal, H. Qed.

(** The profile pattern on a text whose first marker is followed by
    whitespace and a braced span without an inner closing brace: the match
    starts at that marker and captures that span. *)
Lemma search_profile_block (pre ws body rest : str) :
  let text := pre ++ USER_DATA_JSON ++ ws ++ (123 :: body ++ [125]) ++ rest in
  find USER_DATA_JSON text = Some (length pre) ->
  forallb isspace ws = true ->
  forallb (fun c => negb (c =? 125)) body = true ->
  exists m,
    Re.search profile_re text = Some m /\
    Re.group0 text m = USER_DATA_JSON ++ ws ++ 123 :: body ++ [125] /\
    Re.group1 text m = 123 :: body ++ [125].
Proof.
  intros text Hfind Hws Hbody.
  set (s := (length pre + length USER_DATA_JSON + length ws)%nat).
  set (J := 123 :: body ++ [125]) in *.
  set (e := (s + length J)%nat).
  exists (length pre, {| Re.m_end := e; Re.g1_start := s; Re.g1_end := e |}).
  split; [|split].
  - unfold Re.search, text. rewrite search_from_skip.
    + apply search_from_hit.
      rewrite profile_re_split, match_literal, startswith_app.
      rewrite drop_app_length. subst J.
      cbn [app]. rewrite <- app_assoc. cbn [app].
      unfold profile_re_tail.
      erewrite match_greedy_space; [reflexivity|exact Hws|reflexivity|].
      change (Re.match_here (Re.GroupOpen :: Re.One (Re.Lit 123) :: ?r) (123 :: ?t) ?p)
        with (match Re.match_here r t (S p) with
              | Some m => Some {| Re.m_end := Re.m_end m; Re.g1_start := p;
                                  Re.g1_end := Re.g1_end m |}
              | None => None
              end).
      rewrite match_lazy_brace by exact Hbody.
      subst e s. cbn [Re.m_end Re.g1_end Re.g1_start length].
      rewrite length_app. cbn [length]. f_equal. f_equal; lia.
    + intros i p Hi. apply profile_re_needs_marker.
      now apply (find_none_before _ _ _ Hfind).
  - unfold Re.group0. cbn [fst snd Re.m_end]. subst e s text.
    replace (pre ++ USER_DATA_JSON ++ ws ++ J ++ rest)
      with (pre ++ (USER_DATA_JSON ++ ws ++ J) ++ rest)
      by (now rewrite <- !app_assoc).
    replace (length pre + length USER_DATA_JSON + length ws + length J)%nat
      with (length pre + length (USER_DATA_JSON ++ ws ++ J))%nat
      by (rewrite !length_app; lia).
    apply slice_middle.
  - unfold Re.group1. cbn [fst snd Re.m_end Re.g1_start Re.g1_end]. subst e s text.
    replace (pre ++ USER_DATA_JSON ++ ws ++ J ++ rest)
      with ((pre ++ USER_DATA_JSON ++ ws) ++ J ++ rest)
      by (now rewrite <- !app_assoc).
    replace (length pre + length USER_DATA_JSON + length ws)%nat
      with (length (pre ++ USER_DATA_JSON ++ ws))
      by (rewrite !length_app; lia).
    apply slice_middle.
Qed.

(** ** [json.loads] on a text that starts with a brace *)

Lemma scan_pairs_object (py : interpreter) (depth n : nat) (acc : pydict) (s : str)
    (v : json) (r : str) :
  scan_pairs py depth n acc s = Scanned v r -> exists d, v = JObj d.
Proof.
  revert acc s. induction n as [|n IH]; intros acc s H; [discriminate|].
  simpl in H.
  repeat match type of H with
         | match ?x with _ => _ end = _ => destruct x eqn:?; try discriminate
         | (if ?x then _ else _) = _ => destruct x eqn:?; try discriminate
         | (let '(_, _) := ?x in _) = _ => destruct x eqn:?
         end.
  - injection H as <- _. eauto.
  - eapply IH; eauto.
Qed.

(** What [loads] does with a text that starts with a brace, in terms of
    the scan of its members. *)
Lemma loads_brace (py : interpreter) (s : str) :
  loads py (123 :: s)
  = if (recursion_room py <=? 0)%nat then OtherError
    else match skip_ws s with
         | [] => JSONDecodeError
         | c1 :: r1 =>
             match (if c1 =? 125 then Scanned (JObj []) r1
                    else scan_pairs py 1 (2 * length (123 :: s)) [] (c1 :: r1)) with
             | Scanned v r =>
                 match skip_ws r with [] => Loaded v | _ :: _ => JSONDecodeError end
             | Malformed => JSONDecodeError
             | Raises => OtherError
             end
         end.
Proof.
  unfold loads. cbn [skip_ws is_ws].
  change (is_ws 123) with false. cbv iota.
  cbn [scan_value]. change (123 =? 34) with false. change (123 =? 123) with true.
  cbv iota.
  destruct (recursion_room py <=? 0)%nat; [reflexivity|].
  destruct (skip_ws s) as [|c1 r1]; reflexivity.
Qed.

Lemma loads_object (py : interpreter) (s : str) (v : json) :
  loads py (123 :: s) = Loaded v -> exists d, v = JObj d.
Proof.
  rewrite loads_brace. intros H.
  destruct (recursion_room py <=? 0)%nat; [discriminate|].
  destruct (skip_ws s) as [|c1 r1]; [discriminate|].
  destruct (c1 =? 125).
  - destruct (skip_ws r1); [|discriminate]. injection H as <-. eauto.
  - destruct (scan_pairs py 1 (2 * length (123 :: s)) [] (c1 :: r1))
      as [v' r'| |] eqn:E; try discriminate.
    destruct (skip_ws r'); [|discriminate]. injection H as <-.
    eapply scan_pairs_object; eauto.
Qed.

(** ** Texts: replacing, stripping, searching *)

Lemma replace_from_skip (old new a t : str) :
  replace_from old new (length a) (a ++ t) = replace_from old new 0 t.
Proof. induction a as [|c a IH]; [reflexivity|]. simpl. exact IH. Qed.

(** Where no occurrence of [old] starts, [replace] copies. *)
Lemma replace_from_keep (old new a t : str) :
  old <> [] ->
  (forall i, (i < length a)%nat -> startswith old (drop i (a ++ t)) = false) ->
  replace_from old new 0 (a ++ t) = a ++ replace_from old new 0 t.
Proof.
  intros Hold. induction a as [|c a IH]; intros H; [reflexivity|].
  pose proof (H 0%nat ltac:(simpl; lia)) as H0. rewrite drop_0 in H0.
  simpl app in *. cbn [replace_from]. rewrite H0. f_equal.
  apply IH. intros i Hi. apply (H (S i)). simpl. lia.
Qed.

Lemma startswith_head (o c : N) (p t : str) :
  (c =? o) = false -> startswith (o :: p) (c :: t) = false.
Proof. intros H. simpl. rewrite N.eqb_sym, H. reflexivity. Qed.

Lemma lacks_app (c : N) (a b : str) : lacks c (a ++ b) = lacks c a && lacks c b.
Proof. apply forallb_app. Qed.

Lemma lacks_drop (c : N) (a : str) (i : nat) :
  lacks c a = true -> lacks c (drop i a) = true.
Proof.
  revert i. induction a as [|x a IH]; intros [|i] H; simpl; auto.
  simpl in H. apply andb_true_iff in H as [_ H]. now apply IH.
Qed.

(** No occurrence of [o :: p] starts inside a text that lacks [o]. *)
Lemma startswith_lacks (o : N) (p a t : str) (i : nat) :
  lacks o a = true -> (i < length a)%nat ->
  startswith (o :: p) (drop i (a ++ t)) = false.
Proof.
  revert i. induction a as [|x a IH]; intros i Ha Hi; [simpl in Hi; lia|].
  simpl in Ha. apply andb_true_iff in Ha as [Hx Ha].
  destruct i as [|i].
  - simpl. apply startswith_head. now destruct (x =? o).
  - simpl. apply IH; [exact Ha|]. simpl in Hi. lia.
Qed.

Lemma replace_from_lacks (o : N) (p new a t : str) :
  lacks o a = true ->
  replace_from (o :: p) new 0 (a ++ t) = a ++ replace_from (o :: p) new 0 t.
Proof.
  intros Ha. apply replace_from_keep; [discriminate|].
  intros i Hi. now apply startswith_lacks.
Qed.

(** An occurrence at the head is replaced and passed over. *)
Lemma replace_from_hit (o : N) (p new t : str) :
  replace_from (o :: p) new 0 ((o :: p) ++ t) = new ++ replace_from (o :: p) new 0 t.
Proof.
  pose proof (startswith_app (o :: p) t) as E. cbn [app] in E.
  cbn [app replace_from]. rewrite E.
  f_equal. cbn [length]. rewrite Nat.sub_succ, Nat.sub_0_r.
  apply replace_from_skip.
Qed.

Lemma rstrip_app (a b : str) : rstrip b <> [] -> rstrip (a ++ b) = a ++ rstrip b.
Proof.
  intros Hb. induction a as [|c a IH]; [reflexivity|].
  simpl. rewrite IH. destruct (a ++ rstrip b) eqn:E; [|reflexivity].
  apply app_eq_nil in E as [_ E]. contradiction.
Qed.

Lemma lstrip_text (t : str) : starts_with_text t = true -> lstrip t = t.
Proof. destruct t as [|c t]; [discriminate|]. simpl. now destruct (isspace c). Qed.

Lemma strip_app (a b : str) :
  starts_with_text a = true -> rstrip b <> [] -> strip (a ++ b) = a ++ rstrip b.
Proof.
  intros Ha Hb. unfold strip. rewrite lstrip_text.
  - now apply rstrip_app.
  - destruct a; [discriminate|exact Ha].
Qed.

Lemma contains_lacks (o : N) (p t : str) : lacks o t = true -> contains (o :: p) t = false.
Proof.
  induction t as [|c t IH]; intros H; [reflexivity|].
  simpl in H. apply andb_true_iff in H as [Hc H].
  cbn [contains]. rewrite startswith_head by (now destruct (c =? o)).
  now apply IH.
Qed.

Lemma contains_occurs (p t : str) :
  contains p t = true -> exists i, startswith p (drop i t) = true.
Proof.
  induction t as [|c t IH]; intros H.
  - exists 0%nat. simpl in *. now rewrite orb_false_r in H.
  - cbn [contains] in H. apply orb_true_iff in H as [H | H].
    + now exists 0%nat.
    + destruct (IH H) as [i Hi]. now exists (S i).
Qed.

(** ** The disclaimer pattern *)

Lemma match_literal_i (s : str) (r : Re.regex) (t : str) (pos : nat) :
  Re.match_here (Re.literal_i s ++ r) t pos
  = if startswith_i s t
    then Re.match_here r (drop (length s) t) (pos + length s)
    else None.
Proof.
  revert t pos. induction s as [|c s IH]; intros t pos.
  - simpl. rewrite drop_0. f_equal. lia.
  - destruct t as [|y t]; [reflexivity|].
    cbn [Re.literal_i map app Re.match_here startswith_i].
    destruct (Re.atom_ok (Re.LitI c) y); [|reflexivity].
    cbn [andb]. fold (Re.literal_i s). rewrite IH.
    destruct (startswith_i s t); [|reflexivity].
    cbn [drop length]. f_equal. lia.
Qed.

Lemma match_greedy_dot (t : str) (pos : nat) :
  Re.match_here [Re.Greedy Re.Dot] t pos
  = Some {| Re.m_end := pos + length t; Re.g1_start := 0; Re.g1_end := 0 |}.
Proof.
  revert pos. induction t as [|c t IH]; intros pos.
  - simpl. now rewrite Nat.add_0_r.
  - rewrite match_greedy_unfold. cbn [Re.atom_ok]. rewrite IH.
    cbn [length]. now rewrite Nat.add_succ_r.
Qed.

Lemma startswith_i_length (p t : str) :
  startswith_i p t = true -> (length p <= length t)%nat.
Proof.
  revert t. induction p as [|x p IH]; intros [|y t] H; simpl in *; try lia; try discriminate.
  apply andb_true_iff in H as [_ H]. apply IH in H. lia.
Qed.

Lemma disclaimer_re_split : disclaimer_re = Re.literal_i CONSULT ++ [Re.Greedy Re.Dot].
Proof. reflexivity. Qed.

(** The disclaimer pattern matches where the phrase starts, letter case
    ignored, and runs to the end of the text. *)
Lemma match_disclaimer (t : str) (pos : nat) :
  Re.match_here disclaimer_re t pos
  = if startswith_i CONSULT t
    then Some {| Re.m_end := pos + length t; Re.g1_start := 0; Re.g1_end := 0 |}
    else None.
Proof.
  rewrite disclaimer_re_split, match_literal_i.
  destruct (startswith_i CONSULT t) eqn:E; [|reflexivity].
  rewrite match_greedy_dot. apply startswith_i_length in E.
  rewrite length_drop. do 2 f_equal. lia.
Qed.

Lemma search_disclaimer (t : str) (pos : nat) :
  Re.search_from disclaimer_re t pos
  = option_map
      (fun i => ((pos + i)%nat,
                 {| Re.m_end := pos + length t; Re.g1_start := 0; Re.g1_end := 0 |}))
      (find_i CONSULT t).
Proof.
  revert pos. induction t as [|c t IH]; intros pos.
  - reflexivity.
  - cbn [Re.search_from find_i]. rewrite match_disclaimer.
    destruct (startswith_i CONSULT (c :: t)).
    + simpl. now rewrite Nat.add_0_r.
    + rewrite IH. destruct (find_i CONSULT t) as [i|]; [|reflexivity].
      cbn [option_map length]. now rewrite !Nat.add_succ_r.
Qed.

Lemma find_i_none (p t : str) (i : nat) :
  find_i p t = None -> startswith_i p (drop i t) = false.
Proof.
  revert i. induction t as [|c t IH]; intros i H.
  - rewrite drop_nil. simpl in H. now destruct (startswith_i p []).
  - cbn [find_i] in H. destruct (startswith_i p (c :: t)) eqn:E; [discriminate|].
    destruct i as [|i]; [exact E|]. simpl. apply IH.
    now destruct (find_i p t).
Qed.

Lemma find_i_skip (p a t : str) :
  (forall i, (i < length a)%nat -> startswith_i p (drop i (a ++ t)) = false) ->
  find_i p (a ++ t) = option_map (fun i => (length a + i)%nat) (find_i p t).
Proof.
  induction a as [|c a IH]; intros H.
  - simpl. now destruct (find_i p t).
  - pose proof (H 0%nat ltac:(simpl; lia)) as H0. rewrite drop_0 in H0.
    simpl app in *. cbn [find_i]. rewrite H0, IH.
    + now destruct (find_i p t).
    + intros i Hi. apply (H (S i)). simpl. lia.
Qed.

(** A character that matches no letter of [p] ends every occurrence of
    [p] that would run over it. *)
Lemma startswith_i_stop (p b : str) (c : N) (r : str) :
  forallb (fun x => negb (Re.atom_ok (Re.LitI x) c)) p = true ->
  startswith_i p (b ++ c :: r) = startswith_i p b.
Proof.
  revert b. induction p as [|x p IH]; intros b H; [reflexivity|].
  cbn [forallb] in H. apply andb_true_iff in H as [Hx H].
  destruct b as [|y b].
  - cbn [app startswith_i]. now destruct (Re.atom_ok (Re.LitI x) c).
  - cbn [app startswith_i]. now rewrite IH.
Qed.

Lemma startswith_i_refl_lit (p q t : str) :
  startswith (p ++ q) t = true -> startswith_i p t = true.
Proof.
  revert t. induction p as [|x p IH]; intros t H; [reflexivity|].
  destruct t as [|y t]; [discriminate|].
  cbn [app startswith] in H. apply andb_true_iff in H as [Hx H].
  apply N.eqb_eq in Hx. subst y.
  cbn [startswith_i Re.atom_ok]. rewrite N.eqb_refl. simpl. now apply IH.
Qed.

Lemma slice_to_end (i : nat) (t : str) : slice i (length t) t = drop i t.
Proof. unfold slice. apply take_ge. rewrite length_drop. lia. Qed.

(** ** The round trip of [_extract_plan_text] *)

(** In a body without the phrase, followed by a line feed, the phrase
    starts nowhere. *)
Lemma no_phrase_before (B r : str) (i : nat) :
  Re.search disclaimer_re B = None ->
  (i < length B)%nat ->
  startswith_i CONSULT (drop i (B ++ lit_nl ++ r)) = false.
Proof.
  intros Hs Hi. unfold Re.search in Hs. rewrite search_disclaimer in Hs.
  destruct (find_i CONSULT B) eqn:E; [discriminate|].
  rewrite drop_app_le by lia.
  change (lit_nl ++ r) with (10 :: r).
  rewrite startswith_i_stop by (vm_compute; reflexivity).
  now apply find_i_none.
Qed.

Lemma find_hit (p t : str) : startswith p t = true -> find p t = Some 0%nat.
Proof. intros H. destruct t; simpl; now rewrite H. Qed.

Lemma starts_with_text_app (a b : str) :
  starts_with_text a = true -> starts_with_text (a ++ b) = true.
Proof. destruct a; [discriminate|auto]. Qed.

(** Step 1: the completion marker at the end goes. *)
Lemma replace_marker_tail (x : str) :
  lacks 91 x = true ->
  replace END_OF_PLAN [] (USER_DATA_JSON ++ x ++ END_OF_PLAN) = USER_DATA_JSON ++ x.
Proof.
  intros Hx. unfold replace.
  change END_OF_PLAN with (91 :: lit "END_OF_PLAN]").
  replace (USER_DATA_JSON ++ x ++ 91 :: lit "END_OF_PLAN]")
    with ((USER_DATA_JSON ++ x) ++ (91 :: lit "END_OF_PLAN]") ++ [])
    by (now rewrite app_nil_r, <- app_assoc).
  rewrite replace_from_keep, replace_from_hit; [now rewrite !app_nil_r|discriminate|].
  intros [|i] Hi.
  - rewrite drop_0. vm_compute. reflexivity.
  - change USER_DATA_JSON with (91 :: lit "USER_DATA_JSON]") in *.
    rewrite <- !app_assoc. cbn [app drop]. rewrite app_assoc.
    apply startswith_lacks.
    + rewrite lacks_app, Hx. reflexivity.
    + cbn [app length] in Hi. lia.
Qed.

(** Step 4: the matched block at the head goes. *)
Lemma replace_block_head (g rest : str) :
  starts_with_text g = true -> lacks (hd 0 g) rest = true ->
  replace g [] (g ++ rest) = rest.
Proof.
  intros Hg Hrest. destruct g as [|o g]; [discriminate|].
  unfold replace. rewrite replace_from_hit. cbn [app hd] in *.
  rewrite <- (app_nil_r rest) at 1.
  rewrite replace_from_lacks by exact Hrest. now rewrite app_nil_r.
Qed.

(** Step 6: in a body without the phrase followed by the disclaimer
    sentence on its own line, the disclaimer pattern matches from the
    phrase to the end. *)
Lemma search_disclaimer_roundtrip (B : str) :
  Re.search disclaimer_re B = None ->
  exists m,
    Re.search disclaimer_re (B ++ lit_nl ++ DISCLAIMER) = Some m /\
    Re.group0 (B ++ lit_nl ++ DISCLAIMER) m = lit "consult a doctor.".
Proof.
  intros HB. unfold Re.search. rewrite search_disclaimer.
  rewrite find_i_skip by (intros i Hi; now apply no_phrase_before).
  replace (find_i CONSULT (lit_nl ++ DISCLAIMER)) with (Some 8%nat)
    by (vm_compute; reflexivity).
  cbn [option_map]. eexists. split; [reflexivity|].
  unfold Re.group0. cbn [fst snd Re.m_end plus]. rewrite slice_to_end.
  rewrite drop_app_add'; [|reflexivity]. vm_compute. reflexivity.
Qed.

(** Step 7: the phrase and what follows go. *)
Lemma replace_disclaimer_roundtrip (B : str) :
  Re.search disclaimer_re B = None ->
  replace (lit "consult a doctor.") [] (B ++ lit_nl ++ DISCLAIMER)
  = B ++ lit_nl ++ lit "Please ".
Proof.
  intros HB. unfold replace.
  change (lit "consult a doctor.") with (99 :: lit "onsult a doctor.").
  rewrite replace_from_keep; [|discriminate|].
  - f_equal; vm_compute; reflexivity.
  - intros i Hi.
    destruct (startswith (99 :: lit "onsult a doctor.")
                (drop i (B ++ lit_nl ++ DISCLAIMER))) eqn:E; [|reflexivity].
    change (99 :: lit "onsult a doctor.") with (CONSULT ++ [46]) in E.
    apply startswith_i_refl_lit in E.
    rewrite no_phrase_before in E by assumption. discriminate.
Qed.

Lemma extract_plan_text_roundtrip (body B : str) :
  lacks 125 body = true -> lacks 91 body = true ->
  lacks 91 B = true ->
  Re.search disclaimer_re B = None ->
  starts_with_text B = true ->
  _extract_plan_text (roundtrip_text (123 :: body ++ [125]) B)
  = (B ++ lit_nl ++ lit "Please", []).
Proof.
  intros Hbrace Hbody HB Hphrase Hstart.
  set (J := 123 :: body ++ [125]).
  assert (HJ : lacks 91 J = true).
  { subst J. cbn [lacks forallb]. fold (lacks 91 (body ++ [125])).
    rewrite lacks_app, Hbody. reflexivity. }
  unfold _extract_plan_text.
  (* the completion marker goes, and the line feed before it *)
  assert (E1 : strip (replace END_OF_PLAN [] (roundtrip_text J B))
               = USER_DATA_JSON ++ lit " " ++ J ++ lit_nl ++ B ++ lit_nl ++ DISCLAIMER).
  { unfold roundtrip_text.
    replace (USER_DATA_JSON ++ lit " " ++ J ++ lit_nl ++ B ++ lit_nl ++ DISCLAIMER
             ++ lit_nl ++ END_OF_PLAN)
      with (USER_DATA_JSON
            ++ (lit " " ++ J ++ lit_nl ++ B ++ lit_nl ++ DISCLAIMER ++ lit_nl)
            ++ END_OF_PLAN)
      by (now rewrite <- !app_assoc).
    rewrite replace_marker_tail
      by (rewrite !lacks_app, HJ, HB; reflexivity).
    replace (USER_DATA_JSON ++ lit " " ++ J ++ lit_nl ++ B ++ lit_nl ++ DISCLAIMER
             ++ lit_nl)
      with ((USER_DATA_JSON ++ lit " " ++ J ++ lit_nl ++ B ++ lit_nl)
            ++ DISCLAIMER ++ lit_nl)
      by (now rewrite <- !app_assoc).
    rewrite strip_app; [|reflexivity|vm_compute; discriminate].
    replace (rstrip (DISCLAIMER ++ lit_nl)) with DISCLAIMER by (vm_compute; reflexivity).
    now rewrite <- !app_assoc. }
  rewrite E1. clear E1.
  (* the profile block goes, and the line feed after it *)
  destruct (search_profile_block [] (lit " ") body (lit_nl ++ B ++ lit_nl ++ DISCLAIMER))
    as (m & Hm & Hg0 & _);
    [cbn [app length]; apply find_hit, startswith_app|reflexivity|exact Hbrace|].
  change (Re.search profile_re
            (USER_DATA_JSON ++ lit " " ++ J ++ lit_nl ++ B ++ lit_nl ++ DISCLAIMER)
          = Some m) in Hm.
  change (Re.group0
            (USER_DATA_JSON ++ lit " " ++ J ++ lit_nl ++ B ++ lit_nl ++ DISCLAIMER) m
          = USER_DATA_JSON ++ lit " " ++ J) in Hg0.
  rewrite Hm, Hg0. clear Hm Hg0.
  assert (E2 : strip (replace (USER_DATA_JSON ++ lit " " ++ J) []
                        (USER_DATA_JSON ++ lit " " ++ J ++ lit_nl ++ B ++ lit_nl
                         ++ DISCLAIMER))
               = B ++ lit_nl ++ DISCLAIMER).
  { replace (USER_DATA_JSON ++ lit " " ++ J ++ lit_nl ++ B ++ lit_nl ++ DISCLAIMER)
      with ((USER_DATA_JSON ++ lit " " ++ J) ++ lit_nl ++ B ++ lit_nl ++ DISCLAIMER)
      by (now rewrite <- !app_assoc).
    rewrite replace_block_head; [|reflexivity|].
    - change (strip (lit_nl ++ B ++ lit_nl ++ DISCLAIMER))
        with (strip (B ++ lit_nl ++ DISCLAIMER)).
      rewrite strip_app; [|exact Hstart|vm_compute; discriminate].
      f_equal.
    - change (hd 0 (USER_DATA_JSON ++ lit " " ++ J)) with 91.
      rewrite !lacks_app, HB. reflexivity. }
  rewrite E2. clear E2.
  (* the disclaimer goes from its phrase on *)
  destruct (search_disclaimer_roundtrip B Hphrase) as (m2 & Hm2 & Hg2).
  rewrite Hm2, Hg2, replace_disclaimer_roundtrip by exact Hphrase.
  rewrite strip_app; [|exact Hstart|vm_compute; discriminate].
  replace (rstrip (lit_nl ++ lit "Please ")) with (lit_nl ++ lit "Please")
    by (vm_compute; reflexivity).
  destruct B as [|b B]; [discriminate|]. cbn [app].
  change (b :: B ++ lit_nl ++ lit "Please") with ((b :: B) ++ lit_nl ++ lit "Please").
  rewrite strip_app; [|exact Hstart|vm_compute; discriminate].
  replace (rstrip (lit_nl ++ lit "Please")) with (lit_nl ++ lit "Please")
    by (vm_compute; reflexivity).
  reflexivity.
Qed.

(** ** What the profile pattern captures *)

Lemma search_from_found (r : Re.regex) (t : str) (pos i : nat) (m : Re.rmatch) :
  Re.search_from r t pos = Some (i, m) ->
  exists k, i = (pos + k)%nat /\ Re.match_here r (drop k t) i = Some m.
Proof.
  revert pos. induction t as [|c t IH]; intros pos H.
  - simpl in H. destruct (Re.match_here r [] pos) eqn:E; [|discriminate].
    injection H as <- <-. exists 0%nat. split; [lia|exact E].
  - cbn [Re.search_from] in H.
    destruct (Re.match_here r (c :: t) pos) eqn:E.
    + injection H as <- <-. exists 0%nat. split; [lia|exact E].
    + apply IH in H as (k & -> & Hk). exists (S k). split; [lia|exact Hk].
Qed.

Lemma match_greedy_found (a : Re.atom) (r : Re.regex) (t : str) (pos : nat)
    (m : Re.rmatch) :
  Re.match_here (Re.Greedy a :: r) t pos = Some m ->
  exists k, Re.match_here r (drop k t) (pos + k) = Some m.
Proof.
  revert pos. induction t as [|c t IH]; intros pos H;
    rewrite match_greedy_unfold in H.
  - exists 0%nat. now rewrite Nat.add_0_r.
  - destruct (Re.atom_ok a c).
    + destruct (Re.match_here (Re.Greedy a :: r) t (S pos)) eqn:E.
      * injection H as ->. apply IH in E as [k Hk].
        exists (S k). simpl. now rewrite Nat.add_succ_r.
      * exists 0%nat. now rewrite Nat.add_0_r.
    + exists 0%nat. now rewrite Nat.add_0_r.
Qed.

Lemma match_lazy_brace_end (t : str) (pos : nat) (m : Re.rmatch) :
  Re.match_here [Re.Lazy Re.Dot; Re.One (Re.Lit 125); Re.GroupClose] t pos = Some m ->
  (pos < Re.g1_end m)%nat.
Proof.
  revert pos. induction t as [|c t IH]; intros pos H; rewrite match_lazy_unfold in H.
  - discriminate.
  - cbn [Re.match_here Re.atom_ok] in H.
    destruct (125 =? c).
    + injection H as <-. simpl. lia.
    + apply IH in H. lia.
Qed.

(** The captured group starts with the opening brace. *)
Lemma group1_starts_with_brace (text : str) (m : nat * Re.rmatch) :
  Re.search profile_re text = Some m ->
  exists s, Re.group1 text m = 123 :: s.
Proof.
  destruct m as [i m]. intros H. unfold Re.search in H.
  apply search_from_found in H as (k & Hi & H). cbn [plus] in Hi. subst i.
  rewrite profile_re_split, match_literal in H.
  destruct (startswith USER_DATA_JSON (drop k text)); [|discriminate].
  unfold profile_re_tail in H.
  apply match_greedy_found in H as [j H].
  rewrite !drop_drop, Nat.add_assoc in H.
  set (p := (k + length USER_DATA_JSON + j)%nat) in *.
  destruct (drop p text) as [|c t] eqn:E; [discriminate|].
  change (Re.match_here (Re.GroupOpen :: Re.One (Re.Lit 123) :: ?r) (c :: t) p)
    with (match (if 123 =? c then Re.match_here r t (S p) else None) with
          | Some m => Some {| Re.m_end := Re.m_end m; Re.g1_start := p;
                              Re.g1_end := Re.g1_end m |}
          | None => None
          end) in H.
  destruct (123 =? c) eqn:Ec; [|discriminate].
  apply N.eqb_eq in Ec. subst c.
  destruct (Re.match_here [Re.Lazy Re.Dot; Re.One (Re.Lit 125); Re.GroupClose] t (S p))
    as [m'|] eqn:E'; [|discriminate].
  injection H as <-. apply match_lazy_brace_end in E'.
  unfold Re.group1, slice. cbn [snd Re.g1_start Re.g1_end]. rewrite E.
  destruct (Re.g1_end m' - p)%nat eqn:En; [lia|].
  simpl. eauto.
Qed.

(** So [json.loads] of the captured group is a [dict] whenever it is
    anything: [_extract_profile_json] returns a [dict] or logs a failure
    to parse. *)
Lemma extract_profile_cases (py : interpreter) (text : str) (m : nat * Re.rmatch) :
  Re.search profile_re text = Some m ->
  (exists d, loads py (Re.group1 text m) = Loaded (JObj d) /\
             _extract_profile_json py text = (Val (Some d), [])) \/
  (loads py (Re.group1 text m) = JSONDecodeError /\
   _extract_profile_json py text = (Val None, [ParseJsonFailed])) \/
  (loads py (Re.group1 text m) = OtherError /\
   _extract_profile_json py text = (Raised, [])).
Proof.
  intros H. destruct (group1_starts_with_brace text m H) as [s Hs].
  unfold _extract_profile_json. rewrite H, Hs.
  destruct (loads py (123 :: s)) as [v| |] eqn:E; [|right; left; auto|right; right; auto].
  destruct (loads_object _ _ _ E) as [d ->]. left. eauto.
Qed.

Lemma match_greedy_inv (a : Re.atom) (r : Re.regex) (t : str) (pos : nat)
    (m : Re.rmatch) :
  Re.match_here (Re.Greedy a :: r) t pos = Some m ->
  exists k, forallb (Re.atom_ok a) (take k t) = true /\
            Re.match_here r (drop k t) (pos + k) = Some m.
Proof.
  revert pos. induction t as [|c t IH]; intros pos H;
    rewrite match_greedy_unfold in H.
  - exists 0%nat. split; [reflexivity|]. now rewrite Nat.add_0_r.
  - destruct (Re.atom_ok a c) eqn:Hc.
    + destruct (Re.match_here (Re.Greedy a :: r) t (S pos)) eqn:E.
      * injection H as ->. apply IH in E as (k & Hk & Hm).
        exists (S k). simpl. rewrite Hc, Hk. split; [reflexivity|].
        now rewrite Nat.add_succ_r.
      * exists 0%nat. split; [reflexivity|]. now rewrite Nat.add_0_r.
    + exists 0%nat. split; [reflexivity|]. now rewrite Nat.add_0_r.
Qed.

Lemma match_lazy_brace_inv (t : str) (pos : nat) (m : Re.rmatch) :
  Re.match_here [Re.Lazy Re.Dot; Re.One (Re.Lit 125); Re.GroupClose] t pos = Some m ->
  exists body rest,
    t = body ++ 125 :: rest /\ lacks 125 body = true /\
    Re.g1_end m = S (pos + length body).
Proof.
  revert pos. induction t as [|c t IH]; intros pos H; rewrite match_lazy_unfold in H.
  - discriminate.
  - cbn [Re.match_here Re.atom_ok] in H.
    destruct (125 =? c) eqn:Hc.
    + injection H as <-. apply N.eqb_eq in Hc. subst c.
      exists [], t. simpl. repeat split. f_equal. lia.
    + apply IH in H as (body & rest & -> & Hl & Hend).
      exists (c :: body), rest. split; [reflexivity|]. split.
      * simpl. rewrite N.eqb_sym, Hc. exact Hl.
      * rewrite Hend. simpl. lia.
Qed.

Lemma startswith_split (g x : str) :
  startswith g x = true -> x = g ++ drop (length g) x.
Proof.
  revert x. induction g as [|c g IH]; intros x H; [reflexivity|].
  destruct x as [|y x]; [discriminate|]. simpl in H.
  apply andb_true_iff in H as [H1 H2]. apply N.eqb_eq in H1. subst y.
  simpl. f_equal. now apply IH.
Qed.

Lemma lstrip_spaces (ws : str) (c : N) (t : str) :
  forallb isspace ws = true -> isspace c = false -> lstrip (ws ++ c :: t) = c :: t.
Proof.
  intros Hws Hc. induction ws as [|x ws IH]; simpl.
  - now rewrite Hc.
  - simpl in Hws. apply andb_true_iff in Hws as [Hx Hws]. rewrite Hx. now apply IH.
Qed.

Lemma lstrip_split (t : str) :
  exists ws, forallb isspace ws = true /\ t = ws ++ lstrip t.
Proof.
  induction t as [|c t (ws & Hws & Ht)]; [now exists []|].
  cbn [lstrip]. destruct (isspace c) eqn:Hc.
  - exists (c :: ws). simpl. rewrite Hc, Hws. split; [reflexivity|]. now f_equal.
  - now exists [].
Qed.

Lemma lacks_split (c : N) (t : str) :
  lacks c t = false ->
  exists body rest, t = body ++ c :: rest /\ lacks c body = true.
Proof.
  induction t as [|x t IH]; [discriminate|].
  simpl. destruct (x =? c) eqn:E; simpl.
  - intros _. apply N.eqb_eq in E. subst x. now exists [], t.
  - intros H. destruct (IH H) as (body & rest & -> & Hb).
    exists (x :: body), rest. split; [reflexivity|]. simpl. now rewrite E.
Qed.

(** A block opens exactly where the text reads: marker, whitespace, and a
    span from an opening brace to the first closing brace after it. *)
Lemma opens_block_split (t : str) :
  opens_block t = true ->
  exists ws body rest,
    t = USER_DATA_JSON ++ ws ++ (123 :: body ++ [125]) ++ rest /\
    forallb isspace ws = true /\ lacks 125 body = true.
Proof.
  unfold opens_block. intros H. apply andb_true_iff in H as [Hm H].
  apply startswith_split in Hm.
  destruct (lstrip_split (drop (length USER_DATA_JSON) t)) as (ws & Hws & Ht).
  destruct (lstrip (drop (length USER_DATA_JSON) t)) as [|c t'] eqn:E; [discriminate|].
  apply andb_true_iff in H as [Hc Hl]. apply N.eqb_eq in Hc. subst c.
  apply negb_true_iff in Hl.
  destruct (lacks_split _ _ Hl) as (body & rest & -> & Hb).
  exists ws, body, rest. split; [|auto].
  rewrite Hm at 1. f_equal. rewrite Ht at 1. f_equal.
  simpl. now rewrite <- app_assoc.
Qed.

Lemma opens_block_built (ws body rest : str) :
  forallb isspace ws = true ->
  opens_block (USER_DATA_JSON ++ ws ++ (123 :: body ++ [125]) ++ rest) = true.
Proof.
  intros Hws. unfold opens_block. rewrite startswith_app, drop_app_length.
  cbn [app]. rewrite lstrip_spaces by (exact Hws || reflexivity).
  rewrite <- app_assoc, lacks_app. simpl. now rewrite andb_false_r.
Qed.

(** The profile pattern at the head of such a text. *)
Lemma match_profile_at (ws body rest : str) (p : nat) :
  forallb isspace ws = true -> lacks 125 body = true ->
  Re.match_here profile_re
    (USER_DATA_JSON ++ ws ++ (123 :: body ++ [125]) ++ rest) p
  = Some {| Re.m_end := p + length USER_DATA_JSON + length ws + length (123 :: body ++ [125]);
            Re.g1_start := p + length USER_DATA_JSON + length ws;
            Re.g1_end := p + length USER_DATA_JSON + length ws
                         + length (123 :: body ++ [125]) |}.
Proof.
  intros Hws Hbody.
  rewrite profile_re_split, match_literal, startswith_app, drop_app_length.
  cbn [app]. rewrite <- app_assoc. cbn [app]. unfold profile_re_tail.
  erewrite match_greedy_space; [reflexivity|exact Hws|reflexivity|].
  change (Re.match_here (Re.GroupOpen :: Re.One (Re.Lit 123) :: ?r) (123 :: ?t) ?p)
    with (match Re.match_here r t (S p) with
          | Some m => Some {| Re.m_end := Re.m_end m; Re.g1_start := p;
                              Re.g1_end := Re.g1_end m |}
          | None => None
          end).
  rewrite match_lazy_brace by exact Hbody.
  cbn [Re.m_end Re.g1_end Re.g1_start length].
  rewrite length_app. cbn [length]. f_equal. f_equal; lia.
Qed.

(** The profile pattern matches only where a block opens. *)
Lemma match_profile_opens (t : str) (p : nat) :
  opens_block t = false -> Re.match_here profile_re t p = None.
Proof.
  intros Hno. destruct (Re.match_here profile_re t p) as [m|] eqn:H; [|reflexivity].
  exfalso. rewrite profile_re_split, match_literal in H.
  destruct (startswith USER_DATA_JSON t) eqn:Hmark; [|discriminate].
  unfold profile_re_tail in H.
  apply match_greedy_inv in H as (j & Hws & H).
  set (T1 := drop (length USER_DATA_JSON) t) in *.
  destruct (drop j T1) as [|c t'] eqn:E; [discriminate|].
  change (Re.match_here (Re.GroupOpen :: Re.One (Re.Lit 123) :: ?r) (c :: t') ?q)
    with (match (if 123 =? c then Re.match_here r t' (S q) else None) with
          | Some m => Some {| Re.m_end := Re.m_end m; Re.g1_start := q;
                              Re.g1_end := Re.g1_end m |}
          | None => None
          end) in H.
  destruct (123 =? c) eqn:Ec; [|discriminate].
  apply N.eqb_eq in Ec. subst c.
  destruct (Re.match_here [Re.Lazy Re.Dot; Re.One (Re.Lit 125); Re.GroupClose] t' _)
    as [m'|] eqn:E'; [|discriminate].
  apply match_lazy_brace_inv in E' as (body & rest & -> & Hbody & _).
  unfold opens_block in Hno. rewrite Hmark in Hno. fold T1 in Hno.
  rewrite <- (take_drop j T1), E in Hno.
  rewrite lstrip_spaces in Hno by (exact Hws || reflexivity).
  rewrite lacks_app in Hno. simpl in Hno. rewrite andb_false_r in Hno. discriminate.
Qed.

Lemma find_block_here (t : str) : opens_block t = true -> find_block t = Some 0%nat.
Proof. intros H. destruct t; cbn [find_block]; now rewrite H. Qed.

Lemma find_block_first (t : str) (n : nat) :
  find_block t = Some n ->
  opens_block (drop n t) = true /\
  forall i, (i < n)%nat -> opens_block (drop i t) = false.
Proof.
  revert n. induction t as [|c t IH]; intros n H.
  - cbn [find_block] in H. destruct (opens_block []) eqn:E; [|discriminate].
    injection H as <-. split; [exact E|]. intros i Hi. lia.
  - cbn [find_block] in H. destruct (opens_block (c :: t)) eqn:E.
    + injection H as <-. split; [exact E|]. intros i Hi. lia.
    + destruct (find_block t) as [k|] eqn:Ek; [|discriminate].
      injection H as <-. destruct (IH k eq_refl) as [Hk Hbefore].
      split; [exact Hk|]. intros [|i] Hi; [exact E|]. apply Hbefore. lia.
Qed.

Lemma find_block_nowhere (t : str) (i : nat) :
  find_block t = None -> opens_block (drop i t) = false.
Proof.
  revert i. induction t as [|c t IH]; intros i H.
  - rewrite drop_nil. cbn [find_block] in H. now destruct (opens_block []).
  - cbn [find_block] in H. destruct (opens_block (c :: t)) eqn:E; [discriminate|].
    destruct i as [|i]; [exact E|]. simpl. apply IH.
    now destruct (find_block t).
Qed.

Lemma search_no_block (text : str) :
  find_block text = None -> Re.search profile_re text = None.
Proof.
  intros H. unfold Re.search.
  rewrite <- (app_nil_r text) at 1.
  rewrite search_from_skip.
  - cbn [Re.search_from]. rewrite match_profile_opens; reflexivity.
  - intros i p _. apply match_profile_opens.
    rewrite app_nil_r. now apply find_block_nowhere.
Qed.

(** The search finds the first block and captures its span. *)
Lemma search_first_block (pre ws body rest : str) :
  let text := pre ++ USER_DATA_JSON ++ ws ++ (123 :: body ++ [125]) ++ rest in
  find_block text = Some (length pre) ->
  forallb isspace ws = true ->
  lacks 125 body = true ->
  exists m,
    Re.search profile_re text = Some m /\
    Re.group1 text m = 123 :: body ++ [125].
Proof.
  intros text Hfind Hws Hbody.
  set (J := 123 :: body ++ [125]) in *.
  eexists. split.
  - unfold Re.search, text. rewrite search_from_skip.
    + apply search_from_hit. now apply match_profile_at.
    + intros i p Hi. apply match_profile_opens.
      now apply (find_block_first _ _ Hfind).
  - unfold Re.group1. cbn [fst snd Re.g1_start Re.g1_end]. subst text.
    replace (pre ++ USER_DATA_JSON ++ ws ++ J ++ rest)
      with ((pre ++ USER_DATA_JSON ++ ws) ++ J ++ rest)
      by (now rewrite <- !app_assoc).
    replace (0 + length pre + length USER_DATA_JSON + length ws)%nat
      with (length (pre ++ USER_DATA_JSON ++ ws))
      by (rewrite !length_app; lia).
    apply slice_middle.
Qed.

(** ** [_extract_profile_json] *)

Lemma extract_profile_block (py : interpreter) (pre ws body rest : str) :
  let J := 123 :: body ++ [125] in
  let text := pre ++ USER_DATA_JSON ++ ws ++ J ++ rest in
  find_block text = Some (length pre) ->
  forallb isspace ws = true ->
  lacks 125 body = true ->
  _extract_profile_json py text
  = match loads py J with
    | Loaded (JObj d) => (Val (Some d), [])
    | Loaded _ => (Val None, [])
    | JSONDecodeError => (Val None, [ParseJsonFailed])
    | OtherError => (Raised, [])
    end.
Proof.
  intros J text Hfind Hws Hbody.
  destruct (search_first_block pre ws body rest Hfind Hws Hbody) as (m & Hm & Hg1).
  unfold _extract_profile_json. fold J text in Hm, Hg1. now rewrite Hm, Hg1.
Qed.

Lemma extract_profile_no_block (py : interpreter) (text : str) :
  find_block text = None -> _extract_profile_json py text = (Val None, []).
Proof.
  intros H. unfold _extract_profile_json. now rewrite search_no_block.
Qed.

(** C4, as the code has it.  The block of a text is the first place where
    the marker [[USER_DATA_JSON]] is followed by whitespace, if any, and
    an opening brace that has a closing brace after it; its span runs from
    that brace to the first closing brace after it, so that an object
    with an object inside is cut at the inner closing brace.  A text
    without a block gives [None] and no log.  A text with a block reads:
    what is before the block, the marker, the whitespace, the span, the
    rest; and for it [_extract_profile_json] does what [json.loads] does
    with the span: it returns the object when [json.loads] returns one;
    it returns [None] and logs one error when [json.loads] raises
    [JSONDecodeError]; and it raises when [json.loads] raises anything
    else. *)
Theorem extract_profile_first_block (py : interpreter) (text : str) :
  (find_block text = None -> _extract_profile_json py text = (Val None, [])) /\
  (forall n, find_block text = Some n ->
     exists pre ws body rest,
       length pre = n /\
       text = pre ++ USER_DATA_JSON ++ ws ++ (123 :: body ++ [125]) ++ rest /\
       forallb isspace ws = true /\ lacks 125 body = true) /\
  (forall pre ws body rest,
     text = pre ++ USER_DATA_JSON ++ ws ++ (123 :: body ++ [125]) ++ rest ->
     find_block text = Some (length pre) ->
     forallb isspace ws = true ->
     lacks 125 body = true ->
     _extract_profile_json py text
     = match loads py (123 :: body ++ [125]) with
       | Loaded (JObj d) => (Val (Some d), [])
       | Loaded _ => (Val None, [])
       | JSONDecodeError => (Val None, [ParseJsonFailed])
       | OtherError => (Raised, [])
       end).
Proof.
  split; [apply extract_profile_no_block|]. split.
  - intros n Hn. destruct (find_block_first _ _ Hn) as [Hopen _].
    destruct (opens_block_split _ Hopen) as (ws & body & rest & Ht & Hws & Hb).
    assert (Htext : text = take n text ++ USER_DATA_JSON ++ ws
                           ++ (123 :: body ++ [125]) ++ rest).
    { rewrite <- Ht. symmetry. apply take_drop. }
    exists (take n text), ws, body, rest.
    split; [|split; [exact Htext|auto]].
    apply (f_equal length) in Htext. rewrite !length_app in Htext.
    rewrite length_take in *. simpl in Htext. lia.
  - intros pre ws body rest -> Hfind Hws Hb.
    now apply extract_profile_block.
Qed.

(** ** The round trip *)

Lemma startswith_drop (a p t : str) :
  startswith (a ++ p) t = true -> startswith p (drop (length a) t) = true.
Proof.
  revert t. induction a as [|x a IH]; intros t H; [now rewrite drop_0|].
  destruct t as [|y t]; [discriminate|].
  cbn [app startswith] in H. apply andb_true_iff in H as [_ H].
  cbn [length drop]. now apply IH.
Qed.

(** The plan text of the round trip holds the phrase nowhere. *)
Lemma no_phrase_in_plan (B : str) (j : nat) :
  Re.search disclaimer_re B = None ->
  startswith_i CONSULT (drop j (B ++ lit_nl ++ lit "Please")) = false.
Proof.
  intros HB. destruct (Nat.lt_ge_cases j (length B)) as [Hj | Hj].
  - now apply no_phrase_before.
  - rewrite drop_app_ge by exact Hj.
    destruct (startswith_i CONSULT (drop (j - length B) (lit_nl ++ lit "Please")))
      eqn:E; [|reflexivity].
    apply startswith_i_length in E. rewrite length_drop in E.
    change (length CONSULT) with 16%nat in E.
    change (length (lit_nl ++ lit "Please")) with 7%nat in E. lia.
Qed.

(** The profile of the round trip is recovered as [json.loads] reads
    it. *)
Lemma extract_profile_roundtrip (py : interpreter) (body B : str) (profile : pydict) :
  loads py (123 :: body ++ [125]) = Loaded (JObj profile) ->
  lacks 125 body = true ->
  _extract_profile_json py (roundtrip_text (123 :: body ++ [125]) B)
  = (Val (Some profile), []).
Proof.
  intros Hloads Hbrace.
  pose proof (extract_profile_block py [] (lit " ") body
                (lit_nl ++ B ++ lit_nl ++ DISCLAIMER ++ lit_nl ++ END_OF_PLAN)) as E.
  change (find_block (roundtrip_text (123 :: body ++ [125]) B) = Some 0%nat ->
          forallb isspace (lit " ") = true ->
          lacks 125 body = true ->
          _extract_profile_json py (roundtrip_text (123 :: body ++ [125]) B)
          = match loads py (123 :: body ++ [125]) with
            | Loaded (JObj d) => (Val (Some d), [])
            | Loaded _ => (Val None, [])
            | JSONDecodeError => (Val None, [ParseJsonFailed])
            | OtherError => (Raised, [])
            end) in E.
  rewrite E; [now rewrite Hloads| |reflexivity|exact Hbrace].
  apply find_block_here.
  apply (opens_block_built (lit " ") body
           (lit_nl ++ B ++ lit_nl ++ DISCLAIMER ++ lit_nl ++ END_OF_PLAN) eq_refl).
Qed.

(** C3, what the code does.  For a profile text [J] from an opening brace
    to its one closing brace that [json.loads] reads as [profile] and
    that holds no opening bracket, and a plan body [B] that starts with
    text and holds neither an opening bracket nor the phrase "consult a
    doctor" in any letter case: from ["[USER_DATA_JSON] " + J + "\n" + B +
    "\nPlease consult a doctor.\n[END_OF_PLAN]"] the parser recovers
    [profile] exactly, and a plan text that holds neither marker nor the
    disclaimer sentence; but the plan text is not [B]: it is [B], a line
    feed and the word "Please", which the disclaimer pattern leaves
    behind. *)
Theorem roundtrip_plan_keeps_please (py : interpreter) (body B : str)
    (profile : pydict) :
  let J := 123 :: body ++ [125] in
  let text := roundtrip_text J B in
  let plan := fst (_extract_plan_text text) in
  loads py J = Loaded (JObj profile) ->
  lacks 125 body = true -> lacks 91 body = true ->
  lacks 91 B = true ->
  Re.search disclaimer_re B = None ->
  starts_with_text B = true ->
  fst (_extract_profile_json py text) = Val (Some profile) /\
  plan = B ++ lit_nl ++ lit "Please" /\
  plan <> B /\
  contains USER_DATA_JSON plan = false /\
  contains END_OF_PLAN plan = false /\
  contains DISCLAIMER plan = false.
Proof.
  intros J text plan Hloads Hbrace Hbody HB Hphrase Hstart.
  assert (Hplan : plan = B ++ lit_nl ++ lit "Please").
  { subst plan text J. now rewrite extract_plan_text_roundtrip. }
  assert (Hlacks : lacks 91 (B ++ lit_nl ++ lit "Please") = true).
  { rewrite !lacks_app, HB. reflexivity. }
  split; [|split; [|split; [|split; [|split]]]].
  - subst text J. now rewrite (extract_profile_roundtrip py body B profile).
  - exact Hplan.
  - rewrite Hplan. intros E. apply (f_equal length) in E.
    rewrite !length_app in E. simpl in E. lia.
  - rewrite Hplan. now apply (contains_lacks 91 (lit "USER_DATA_JSON]")).
  - rewrite Hplan. now apply (contains_lacks 91 (lit "END_OF_PLAN]")).
  - rewrite Hplan.
    destruct (contains DISCLAIMER (B ++ lit_nl ++ lit "Please")) eqn:E; [|reflexivity].
    apply contains_occurs in E as [i E].
    change DISCLAIMER with (lit "Please " ++ CONSULT ++ lit ".") in E.
    apply startswith_drop, startswith_i_refl_lit in E.
    rewrite drop_drop, no_phrase_in_plan in E by exact Hphrase. discriminate.
Qed.

(** ** The fuel of [json.loads] *)

Lemma skip_ws_length (s : str) : (length (skip_ws s) <= length s)%nat.
Proof.
  induction s as [|c s IH]; simpl; [lia|]. destruct (is_ws c); simpl; lia.
Qed.

Lemma cons_char_some (c : N) (o : option (str * str)) (x r : str) :
  cons_char c o = Some (x, r) -> exists x', o = Some (x', r).
Proof.
  destruct o as [[x' r']|]; simpl; [|discriminate].
  intros H. injection H as _ <-. eauto.
Qed.

Lemma scan_string_shorter (k : nat) (s x r : str) :
  (length s <= k)%nat ->
  scan_string s = Some (x, r) -> (length r < length s)%nat.
Proof.
  revert s x r. induction k as [|k IH]; intros s x r Hk H.
  - destruct s; [discriminate|simpl in Hk; lia].
  - destruct s as [|c s]; [discriminate|].
    cbn [scan_string] in H.
    break_match H; subst;
      try (injection H as <- <-; simpl; lia);
      apply cons_char_some in H as [x' H];
      apply IH in H; simpl in *; lia.
Qed.

Lemma span_digits_length (s ds r : str) :
  span_digits s = (ds, r) -> (length r <= length s)%nat.
Proof.
  revert ds r. induction s as [|c s IH]; intros ds r H; simpl in H.
  - injection H as <- <-. simpl. lia.
  - destruct (is_digit c).
    + destruct (span_digits s) as [ds' r'] eqn:E. injection H as <- <-.
      specialize (IH _ _ eq_refl). simpl. lia.
    + injection H as <- <-. simpl. lia.
Qed.

Lemma scan_number_shorter (py : interpreter) (s : str) (v : json) (r : str) :
  scan_number py s = Scanned v r -> (length r < length s)%nat.
Proof.
  intros H. unfold scan_number in H.
  break_inner H;
    repeat match goal with
           | E : span_digits _ = _ |- _ => apply span_digits_length in E
           end;
    repeat match goal with
           | E : (_, _) = (_, _) |- _ => injection E as <- <-
           | E : Some _ = Some _ |- _ => injection E as E
           | E : Scanned _ _ = Scanned _ _ |- _ => injection E as E
           end;
    subst; simpl in *; try discriminate; try lia.
Qed.

Lemma eat_shorter (w : string) (c : N) (s r : str) :
  (0 <? length (lit w))%nat = true ->
  eat w (c :: s) = Some r -> (length r < length (c :: s))%nat.
Proof.
  intros Hw H. unfold eat in H. apply Nat.ltb_lt in Hw.
  destruct (startswith (lit w) (c :: s)); [|discriminate].
  injection H as <-. rewrite length_drop. simpl. lia.
Qed.

Lemma eaten_shorter (w : string) (x : json) (c : N) (s : str) (v : json) (r : str) :
  (0 <? length (lit w))%nat = true ->
  eaten w x (c :: s) = Scanned v r -> (length r < length (c :: s))%nat.
Proof.
  intros Hw H. unfold eaten in H.
  destruct (eat w (c :: s)) eqn:E; [|discriminate].
  injection H as _ <-. now apply eat_shorter in E.
Qed.

(** Every scanner that returns has consumed a character. *)
Lemma scan_shorter (py : interpreter) (n : nat) :
  (forall k s v r, scan_value py k n s = Scanned v r -> (length r < length s)%nat) /\
  (forall k acc s v r,
      scan_items py k n acc s = Scanned v r -> (length r < length s)%nat) /\
  (forall k acc s v r,
      scan_pairs py k n acc s = Scanned v r -> (length r < length s)%nat).
Proof.
  induction n as [|n (IHv & IHi & IHp)]; [repeat split; discriminate|].
  split; [|split].
  - intros k s v r H. destruct s as [|c s]; [discriminate|].
    cbn [scan_value] in H.
    repeat match type of H with
           | (if ?x then _ else _) = _ => destruct x eqn:?; try discriminate
           end;
      try (now apply eaten_shorter in H).
    + destruct (scan_string s) as [[x r']|] eqn:E; [|discriminate].
      injection H as _ <-. apply (scan_string_shorter (length s)) in E; simpl; lia.
    + pose proof (skip_ws_length s).
      destruct (skip_ws s) as [|c1 r1] eqn:E; [discriminate|].
      destruct (c1 =? 125).
      * injection H as _ <-. simpl in *. lia.
      * apply IHp in H. simpl in *. lia.
    + pose proof (skip_ws_length s).
      destruct (skip_ws s) as [|c1 r1] eqn:E; [discriminate|].
      destruct (c1 =? 93).
      * injection H as _ <-. simpl in *. lia.
      * apply IHi in H. simpl in *. lia.
    + destruct (eat "-Infinity" (c :: s)) eqn:E.
      * injection H as _ <-. now apply eat_shorter in E.
      * now apply scan_number_shorter in H.
    + now apply scan_number_shorter in H.
  - intros k acc s v r H. cbn [scan_items] in H.
    destruct (scan_value py k n s) as [v1 r1| |] eqn:E; try discriminate.
    apply IHv in E. pose proof (skip_ws_length r1).
    destruct (skip_ws r1) as [|c r2] eqn:E2; [discriminate|].
    destruct (c =? 93).
    + injection H as _ <-. simpl in *. lia.
    + destruct (c =? 44); [|discriminate].
      apply IHi in H. pose proof (skip_ws_length r2). simpl in *. lia.
  - intros k acc s v r H. cbn [scan_pairs] in H.
    destruct s as [|q s]; [discriminate|].
    destruct (q =? 34); [|discriminate].
    destruct (scan_string s) as [[key r0]|] eqn:E; [|discriminate].
    apply (scan_string_shorter (length s)) in E; [|lia].
    pose proof (skip_ws_length r0).
    destruct (skip_ws r0) as [|c r1] eqn:E1; [discriminate|].
    destruct (c =? 58); [|discriminate].
    destruct (scan_value py k n (skip_ws r1)) as [v1 r2| |] eqn:E2; try discriminate.
    apply IHv in E2. pose proof (skip_ws_length r1). pose proof (skip_ws_length r2).
    destruct (skip_ws r2) as [|c2 r3] eqn:E3; [discriminate|].
    destruct (c2 =? 125).
    + injection H as _ <-. simpl in *. lia.
    + destruct (c2 =? 44); [|discriminate].
      apply IHp in H. pose proof (skip_ws_length r3). simpl in *. lia.
Qed.

(** Past twice the length of the text, more fuel changes nothing. *)
Lemma scan_fuel (py : interpreter) (n : nat) :
  (forall k m s, (2 * length s < n)%nat -> (2 * length s < m)%nat ->
                 scan_value py k n s = scan_value py k m s) /\
  (forall k m acc s, (2 * length s + 1 < n)%nat -> (2 * length s + 1 < m)%nat ->
                     scan_items py k n acc s = scan_items py k m acc s) /\
  (forall k m acc s, (2 * length s + 1 < n)%nat -> (2 * length s + 1 < m)%nat ->
                     scan_pairs py k n acc s = scan_pairs py k m acc s).
Proof.
  induction n as [|n (IHv & IHi & IHp)]; [repeat split; intros; lia|].
  split; [|split].
  - intros k [|m] s Hn Hm; [lia|].
    destruct s as [|c s]; [reflexivity|].
    cbn [scan_value].
    repeat match goal with
           | |- (if ?x then _ else _) = (if ?x then _ else _) => destruct x; try reflexivity
           end.
    + pose proof (skip_ws_length s).
      destruct (skip_ws s) as [|c1 r1]; [reflexivity|].
      destruct (c1 =? 125); [reflexivity|].
      apply IHp; simpl in *; lia.
    + pose proof (skip_ws_length s).
      destruct (skip_ws s) as [|c1 r1]; [reflexivity|].
      destruct (c1 =? 93); [reflexivity|].
      apply IHi; simpl in *; lia.
  - intros k [|m] acc s Hn Hm; [lia|].
    cbn [scan_items]. rewrite (IHv k m s) by lia.
    destruct (scan_value py k m s) as [v1 r1| |] eqn:E; try reflexivity.
    apply (proj1 (scan_shorter py m)) in E. pose proof (skip_ws_length r1).
    destruct (skip_ws r1) as [|c r2]; [reflexivity|].
    destruct (c =? 93); [reflexivity|].
    destruct (c =? 44); [|reflexivity].
    pose proof (skip_ws_length r2).
    apply IHi; simpl in *; lia.
  - intros k [|m] acc s Hn Hm; [lia|].
    cbn [scan_pairs].
    destruct s as [|q s]; [reflexivity|].
    destruct (q =? 34); [|reflexivity].
    destruct (scan_string s) as [[key r0]|] eqn:E; [|reflexivity].
    apply (scan_string_shorter (length s)) in E; [|lia].
    pose proof (skip_ws_length r0).
    destruct (skip_ws r0) as [|c r1]; [reflexivity|].
    destruct (c =? 58); [|reflexivity].
    pose proof (skip_ws_length r1).
    rewrite (IHv k m (skip_ws r1)) by (simpl in *; lia).
    destruct (scan_value py k m (skip_ws r1)) as [v1 r2| |] eqn:E2; try reflexivity.
    apply (proj1 (scan_shorter py m)) in E2. pose proof (skip_ws_length r2).
    destruct (skip_ws r2) as [|c2 r3]; [reflexivity|].
    destruct (c2 =? 125); [reflexivity|].
    destruct (c2 =? 44); [|reflexivity].
    pose proof (skip_ws_length r3).
    apply IHp; simpl in *; lia.
Qed.

(** The fuel [json.loads] starts with is enough: with any more of it, the
    scan gives the same. *)
Lemma loads_fuel_enough (py : interpreter) (s : str) (extra : nat) :
  scan_value py 0 (S (2 * length s) + extra) (skip_ws s)
  = scan_value py 0 (S (2 * length s)) (skip_ws s).
Proof.
  pose proof (skip_ws_length s).
  apply (proj1 (scan_fuel py _)); lia.
Qed.

(** ** The statements at work *)

(** One commit on [world1]: it succeeds, and user 42 is left with one
    active plan. *)
Lemma commit_one_active_witness :
  saved_ok 42 world1 world1_once /\ count_active 42 (db world1_once) = 1%nat.
Proof.
  split; [vm_compute; reflexivity|].
  destruct (commit_one_active bot0 42 0 (lit "new plan") 9%Z world1 world1_once (Val tt))
    as (d & new & _ & _ & Hcount & _);
    [vm_compute; reflexivity|vm_compute; reflexivity|exact Hcount].
Defined.

(** An answer with a profile block and no marker: nothing is persisted. *)
Lemma no_marker_no_persistence_witness :
  contains END_OF_PLAN answer_block_only = false /\
  quiet world1 (snd (main_chat_handler bot0 hello (Some answer_block_only) 9%Z world1)).
Proof.
  split; [vm_compute; reflexivity|].
  apply no_marker_no_persistence. vm_compute. reflexivity.
Defined.

(** The round trip of a one-field profile and a one-line body: the
    profile comes back, and the plan text is the body with a line
    [Please] after it. *)
Lemma roundtrip_plan_keeps_please_witness :
  fst (_extract_profile_json cpython (roundtrip_text (litq "{'name': 'Sam'}") (lit "1. Walk")))
  = Val (Some [(lit "name", JStr (lit "Sam"))]) /\
  fst (_extract_plan_text (roundtrip_text (litq "{'name': 'Sam'}") (lit "1. Walk")))
  = lit "1. Walk" ++ lit_nl ++ lit "Please" /\
  fst (_extract_plan_text (roundtrip_text (litq "{'name': 'Sam'}") (lit "1. Walk")))
  <> lit "1. Walk".
Proof.
  destruct (roundtrip_plan_keeps_please cpython (litq "'name': 'Sam'") (lit "1. Walk")
              [(lit "name", JStr (lit "Sam"))])
    as (Hprofile & Hplan & Hne & _);
    [vm_compute; reflexivity ..|].
  split; [exact Hprofile|]. split; [exact Hplan|exact Hne].
Defined.

(** Two markers, the first with no brace after it, and a block after the
    second: the block is read.  A marker and no block: [None].  A block
    with an integer of 4301 digits: the error of [int] leaves the
    method. *)
Lemma extract_profile_first_block_witness :
  find_block (USER_DATA_JSON ++ lit " none. " ++ USER_DATA_JSON ++ lit "  "
              ++ (123 :: litq "'age': 30" ++ [125]) ++ lit " bye")
  = Some 23%nat /\
  _extract_profile_json cpython
    (USER_DATA_JSON ++ lit " none. " ++ USER_DATA_JSON ++ lit "  "
     ++ (123 :: litq "'age': 30" ++ [125]) ++ lit " bye")
  = (Val (Some [(lit "age", JInt 30)]), []) /\
  _extract_profile_json cpython (USER_DATA_JSON ++ lit " none.") = (Val None, []) /\
  _extract_profile_json cpython answer_long_int = (Raised, []).
Proof.
  split; [vm_compute; reflexivity|]. split; [|split].
  - destruct (extract_profile_first_block cpython
                (USER_DATA_JSON ++ lit " none. " ++ USER_DATA_JSON ++ lit "  "
                 ++ (123 :: litq "'age': 30" ++ [125]) ++ lit " bye"))
      as (_ & _ & Hread).
    rewrite (Hread (USER_DATA_JSON ++ lit " none. ") (lit "  ") (litq "'age': 30")
               (lit " bye"));
      [vm_compute; reflexivity|vm_compute; reflexivity ..].
  - destruct (extract_profile_first_block cpython (USER_DATA_JSON ++ lit " none."))
      as (Hnone & _).
    apply Hnone. vm_compute. reflexivity.
  - destruct (extract_profile_first_block cpython answer_long_int) as (_ & _ & Hread).
    rewrite (Hread [] (lit " ") (litq "'a': " ++ repeat 57 4301)
               (lit " " ++ END_OF_PLAN));
      [vm_compute; reflexivity|vm_compute; reflexivity ..].
Defined.

(** C4 as written fails: a valid JSON object with a nested object follows
    the marker, and nothing is returned. *)
Lemma extract_profile_nested_counterexample :
  ~ (forall (py : interpreter) (ws J rest : str) (d : pydict),
        forallb isspace ws = true ->
        loads py J = Loaded (JObj d) ->
        fst (_extract_profile_json py (USER_DATA_JSON ++ ws ++ J ++ rest)) = Val (Some d)).
Proof.
  intros H.
  pose proof (H cpython (lit " ") (litq "{'a': {'b': 1}}") []
                [(lit "a", JObj [(lit "b", JInt 1)])]) as Hrun.
  vm_compute in Hrun. specialize (Hrun eq_refl eq_refl). discriminate.
Qed.

(** Two commits on [world1]: both succeed, and user 42 is left with one
    active plan. *)
Lemma commit_twice_one_active_witness :
  saved_ok 42 world1 world1_once /\ saved_ok 42 world1_once world1_twice /\
  count_active 42 (db world1_twice) = 1%nat.
Proof.
  split; [vm_compute; reflexivity|]. split; [vm_compute; reflexivity|].
  destruct (commit_twice_one_active bot0 42 0 (lit "new plan") 9%Z 11%Z
              world1 world1_once world1_twice (Val tt) (Val tt))
    as (d & _ & _ & _ & _ & Hcount);
    [vm_compute; reflexivity ..|exact Hcount].
Defined.

(** C5 as written fails: two calls with an empty profile, on a store that
    serves every request, leave no active plan at all. *)
Lemma commit_twice_empty_profile_counterexample :
  ~ (forall (self : FouserBot) (uid : Z) (profile : nat) (plan : str)
            (now1 now2 : timestamp) (w : world),
        supabase self = true -> healthy w -> is_Some (heap w !! profile) ->
        count_active uid
          (db (snd (save_new_plan_and_profile self uid profile plan now2
                      (snd (save_new_plan_and_profile self uid profile plan now1 w)))))
        = 1%nat).
Proof.
  intros H.
  pose proof (H bot0 42%Z 0%nat (lit "plan") 9%Z 11%Z world_empty_profile
                eq_refl ltac:(constructor) ltac:(eexists; reflexivity)) as Hrun.
  vm_compute in Hrun. discriminate.
Qed.

(** The marker without a profile: nothing is persisted and the reply is
    the stripped text.  The marker after a block on which [json.loads]
    raises [ValueError]: the apology. *)
Lemma marker_without_profile_witness :
  quiet world1 (snd (main_chat_handler bot0 hello (Some answer_marker_only) 9%Z world1)) /\
  replies_with bot0 hello answer_marker_only 9%Z world1 (lit "Here is your plan") /\
  quiet world1 (snd (main_chat_handler bot0 hello (Some answer_long_int) 9%Z world1)) /\
  replies_with bot0 hello answer_long_int 9%Z world1 SORRY.
Proof.
  destruct (marker_without_profile bot0 hello answer_marker_only 9%Z world1)
    as [Hnone _]; [vm_compute; reflexivity ..|].
  destruct Hnone as [Hquiet Hreply]; [vm_compute; reflexivity|].
  destruct (marker_without_profile bot0 hello answer_long_int 9%Z world1)
    as [_ Hraised]; [vm_compute; reflexivity ..|].
  destruct Hraised as [Hquiet' Hreply']; [vm_compute; reflexivity|].
  split; [exact Hquiet|]. split; [exact Hreply|]. split; [exact Hquiet'|exact Hreply'].
Defined.

(** C6 as written fails: the reply is not the answer with only the marker
    removed, for the space before the marker goes too. *)
Lemma marker_only_removed_counterexample :
  ~ (forall (self : FouserBot) (u : update) (r : str) (now : timestamp) (w : world),
        model self = true -> supabase self = true ->
        contains END_OF_PLAN r = true ->
        fst (_extract_profile_json (python w) r) = Val None ->
        replies_with self u r now w (replace END_OF_PLAN [] r)).
Proof.
  intros H.
  pose proof (H bot0 hello answer_marker_only 9%Z world0
                eq_refl eq_refl eq_refl eq_refl) as Hrun.
  vm_compute in Hrun. discriminate.
Qed.

(** Two active plans of user 42, started at 5 and at 9: the one started
    at 9 is returned. *)
Lemma load_profile_latest_active_witness :
  (1 < count_active 42 (db world2))%nat /\
  exists profile r w',
    _load_profile bot0 42 world2 = (Val (Some (profile, plan_text r)), w') /\
    forall r', In r' (plan_history (db world2)) -> is_active 42 r' = true ->
               (start_date r' <= start_date r)%Z.
Proof.
  split; [vm_compute; lia|].
  destruct (load_profile_latest_active bot0 42 world2)
    as (profile & r & w' & Hrun & _ & _ & Hmax);
    [vm_compute; reflexivity|vm_compute; reflexivity|vm_compute; reflexivity
    |vm_compute; discriminate|vm_compute; lia|].
  exists profile, r, w'. split; [exact Hrun|exact Hmax].
Defined.

(** A plan with a profile of two fields is committed as parsed; with an
    empty profile nothing is persisted. *)
Lemma nonempty_profile_stored_as_is_witness :
  stored_as_is bot0 hello answer_plan 9%Z world1
    [(lit "name", JStr (lit "Sam")); (lit "age", JInt 30)] /\
  quiet world0 (snd (main_chat_handler bot0 hello (Some answer_empty_profile) 9%Z world0)).
Proof.
  destruct (nonempty_profile_stored_as_is bot0 hello answer_plan 9%Z world1
              [(lit "name", JStr (lit "Sam")); (lit "age", JInt 30)])
    as [Hstored _]; [vm_compute; reflexivity ..|].
  destruct (nonempty_profile_stored_as_is bot0 hello answer_empty_profile 9%Z world0 [])
    as [_ Hempty]; [vm_compute; reflexivity ..|].
  split; [apply Hstored; [discriminate|repeat constructor]|apply Hempty; reflexivity].
Defined.

(** C8 as written fails: the empty object is a JSON object, the block
    parses to it, and nothing is stored. *)
Lemma empty_profile_counterexample :
  ~ (forall (self : FouserBot) (u : update) (r : str) (now : timestamp) (w : world)
            (d : pydict),
        model self = true -> supabase self = true ->
        healthy w ->
        contains END_OF_PLAN r = true ->
        fst (_extract_profile_json (python w) r) = Val (Some d) ->
        stored_as_is self u r now w d).
Proof.
  intros H.
  destruct (H bot0 hello answer_empty_profile 9%Z world0 [])
    as (Hplans & _); [reflexivity|reflexivity|constructor|vm_compute; reflexivity ..|].
  vm_compute in Hplans. discriminate.
Qed.

(** A commit of a profile that has a [user_id] of its own: the object
    keeps it, the row of the [users] table has the caller's id, and the
    plan record has the profile as it was given. *)
Lemma commit_rows_and_argument_witness :
  heap world1_once !! 0%nat
  = Some [(lit "name", JStr (lit "Sam")); (lit "user_id", JInt 5)] /\
  users (db world1_once)
  = [[(lit "name", JStr (lit "Sam")); (lit "user_id", JInt 42)]] /\
  plan_history (db world1_once)
  = [{| user_id := 42; plan_text := lit "old plan"; profile_json := [];
        start_date := 5%Z; end_date := Some 9%Z |};
     {| user_id := 7; plan_text := lit "their plan"; profile_json := [];
        start_date := 6%Z; end_date := None |};
     {| user_id := 42; plan_text := lit "new plan";
        profile_json := [(lit "name", JStr (lit "Sam")); (lit "user_id", JInt 5)];
        start_date := 9%Z; end_date := None |}].
Proof.
  destruct (commit_rows_and_argument bot0 42 0
              [(lit "name", JStr (lit "Sam")); (lit "user_id", JInt 5)]
              (lit "new plan") 9%Z world1)
    as (Hheap & _ & _ & Hstore); [vm_compute; reflexivity ..|].
  destruct (Hstore eq_refl) as (_ & _ & Hall).
  destruct Hall as (_ & Husers & Hplans); [repeat constructor|].
  split; [exact Hheap|]. split; [exact Husers|exact Hplans].
Defined.

(** ** Further facts: [save_new_plan_and_profile] *)

(** Whatever the bot, the heap and the faults, the tables after a call are
    those before it, or those after one, two or three steps of a commit. *)
Lemma save_tables_cases (self : FouserBot) (uid : Z) (profile : nat) (plan : str)
    (now : timestamp) (w : world) :
  let w' := snd (save_new_plan_and_profile self uid profile plan now w) in
  db w' = db w \/
  exists d,
    db w' = upserted uid d (db w) \/
    db w' = plan_close uid now (upserted uid d (db w)) \/
    db w' = committed uid d plan now (db w).
Proof.
  intros w'. subst w'.
  destruct (supabase self) eqn:Hs.
  - destruct (heap w !! profile) as [d|] eqn:Hh.
    + destruct (dict_truthy d) eqn:Ht.
      * destruct (save_outcomes self uid profile d plan now w Hs Hh Ht)
          as (w1 & -> & [H | [H | [H | H]]]); simpl.
        -- left. tauto.
        -- right. exists d. left. tauto.
        -- right. exists d. right; left. tauto.
        -- right. exists d. right; right. tauto.
      * left. unfold save_new_plan_and_profile. rewrite Hs.
        unfold bind, deref, log. simpl. rewrite Hh, Ht. reflexivity.
    + left. unfold save_new_plan_and_profile. rewrite Hs.
      unfold bind, deref. simpl. rewrite Hh. reflexivity.
  - left. unfold save_new_plan_and_profile. rewrite Hs. reflexivity.
Qed.

Lemma close_row_fields (uid : Z) (now : timestamp) (r : plan_row) :
  user_id (close_row uid now r) = user_id r /\
  plan_text (close_row uid now r) = plan_text r /\
  profile_json (close_row uid now r) = profile_json r /\
  start_date (close_row uid now r) = start_date r /\
  (end_date (close_row uid now r) = end_date r \/
   (is_active uid r = true /\ end_date (close_row uid now r) = Some now)).
Proof.
  unfold close_row. destruct (is_active uid r) eqn:E; simpl; auto 10.
Qed.

Lemma is_active_close_other (u uid : Z) (now : timestamp) (r : plan_row) :
  u <> uid -> is_active u (close_row uid now r) = is_active u r.
Proof.
  intros Hne. unfold close_row. destruct (is_active uid r) eqn:E; [|reflexivity].
  unfold is_active in *. simpl. apply andb_true_iff in E as [E _].
  apply Z.eqb_eq in E. rewrite E.
  destruct (uid =? u)%Z eqn:E'; [|reflexivity].
  apply Z.eqb_eq in E'. congruence.
Qed.

Lemma count_close_other (u uid : Z) (now : timestamp) (rows : list plan_row) :
  u <> uid ->
  length (List.filter (is_active u) (map (close_row uid now) rows))
  = length (List.filter (is_active u) rows).
Proof.
  intros Hne. induction rows as [|r rows IH]; [reflexivity|].
  simpl. rewrite is_active_close_other by exact Hne.
  destruct (is_active u r); simpl; now rewrite IH.
Qed.

Lemma upsert_rows_other (uid : Z) (row : pydict) (rows : list pydict) (i : nat)
    (x : pydict) :
  rows !! i = Some x -> has_user_id uid x = false ->
  upsert_rows (JInt uid) row rows !! i = Some x.
Proof.
  revert i. induction rows as [|y rows IH]; intros i Hi Hx; [discriminate|].
  cbn [upsert_rows]. destruct i as [|i].
  - injection Hi as ->. unfold has_user_id in Hx.
    destruct (dict_get (lit "user_id") x) as [[]|]; try reflexivity.
    now rewrite Hx.
  - simpl in Hi.
    destruct (dict_get (lit "user_id") y) as [[]|]; try (simpl; now apply IH).
    destruct (z =? uid)%Z; simpl; [exact Hi|now apply IH].
Qed.

(** X1: plan records are only ever added or closed.  Whatever the bot, the
    profile and the faults of the store, after a call of
    [save_new_plan_and_profile] every record that was there is still
    there, in its place, with its user, text, snapshot and start time;
    its end time is what it was, unless the record was an active plan of
    the user of the call, which may now end at the timestamp of the
    call. *)
Theorem save_keeps_history (self : FouserBot) (uid : Z) (profile : nat) (plan : str)
    (now : timestamp) (w : world) (i : nat) (r : plan_row) :
  plan_history (db w) !! i = Some r ->
  exists r',
    plan_history (db (snd (save_new_plan_and_profile self uid profile plan now w))) !! i
    = Some r' /\
    user_id r' = user_id r /\ plan_text r' = plan_text r /\
    profile_json r' = profile_json r /\ start_date r' = start_date r /\
    (end_date r' = end_date r \/
     (is_active uid r = true /\ end_date r' = Some now)).
Proof.
  intros Hi.
  destruct (save_tables_cases self uid profile plan now w) as [E | (d & [E | [E | E]])];
    rewrite E; simpl.
  - exists r. auto 10.
  - exists r. auto 10.
  - exists (close_row uid now r). split; [|apply close_row_fields].
    now rewrite list_lookup_fmap, Hi.
  - exists (close_row uid now r). split; [|apply close_row_fields].
    apply lookup_app_l_Some. now rewrite list_lookup_fmap, Hi.
Qed.

(** X2: a commit for one user leaves the others alone.  Whatever the
    faults of the store, after a call of [save_new_plan_and_profile] for
    [uid] every plan record of another user and every profile row that is
    not the row of [uid] is where it was and what it was, and the
    conversation log is what it was. *)
Theorem save_leaves_other_users (self : FouserBot) (uid : Z) (profile : nat)
    (plan : str) (now : timestamp) (w : world) :
  let w' := snd (save_new_plan_and_profile self uid profile plan now w) in
  (forall i r, plan_history (db w) !! i = Some r -> user_id r <> uid ->
               plan_history (db w') !! i = Some r) /\
  (forall i x, users (db w) !! i = Some x -> has_user_id uid x = false ->
               users (db w') !! i = Some x) /\
  conversation_history (db w') = conversation_history (db w).
Proof.
  intros w'. subst w'.
  assert (Hclose : forall r, user_id r <> uid -> close_row uid now r = r).
  { intros r Hne. apply close_row_other. unfold is_active.
    destruct (user_id r =? uid)%Z eqn:E; [|reflexivity].
    apply Z.eqb_eq in E. contradiction. }
  destruct (save_tables_cases self uid profile plan now w) as [E | (d & [E | [E | E]])];
    rewrite E; simpl; (split; [|split; [|reflexivity]]); auto using upsert_rows_other.
  - intros i r Hi Hne. rewrite list_lookup_fmap, Hi. simpl. now rewrite Hclose.
  - intros i r Hi Hne. apply lookup_app_l_Some.
    rewrite list_lookup_fmap, Hi. simpl. now rewrite Hclose.
Qed.

(** X3: at most one active plan per user, kept.  If no user has more than
    one plan with a null end time before a call of
    [save_new_plan_and_profile], none has after it, whatever the bot, the
    profile and the faults of the store, a store that raises between the
    close and the insert included. *)
Theorem save_keeps_at_most_one_active (self : FouserBot) (uid : Z) (profile : nat)
    (plan : str) (now : timestamp) (w : world) :
  at_most_one_active (db w) ->
  at_most_one_active (db (snd (save_new_plan_and_profile self uid profile plan now w))).
Proof.
  intros Hinv u. specialize (Hinv u). unfold count_active in *.
  destruct (save_tables_cases self uid profile plan now w) as [E | (d & [E | [E | E]])];
    rewrite E; simpl; try exact Hinv.
  - destruct (Z.eq_dec u uid) as [-> | Hne].
    + rewrite filter_active_closed. simpl. lia.
    + now rewrite count_close_other.
  - rewrite List.filter_app, length_app.
    destruct (Z.eq_dec u uid) as [-> | Hne].
    + rewrite filter_active_closed. simpl. unfold is_active. simpl.
      rewrite Z.eqb_refl. simpl. lia.
    + rewrite count_close_other by exact Hne. simpl. unfold is_active at 2. simpl.
      destruct (uid =? u)%Z eqn:E'; [apply Z.eqb_eq in E'; congruence|].
      simpl. lia.
Qed.

(** X4: the commit is not atomic.  When the upsert raises, neither the
    close nor the insert is requested and the tables are what they were.
    When the upsert and the close are served and the insert raises, the
    user is left without any active plan. *)
Theorem save_stops_at_first_failure (self : FouserBot) (uid : Z) (profile : nat)
    (d : pydict) (plan : str) (now : timestamp) (w : world) :
  supabase self = true ->
  heap w !! profile = Some d ->
  dict_truthy d = true ->
  let w' := snd (save_new_plan_and_profile self uid profile plan now w) in
  (hd false (faults w) = true ->
   db w' = db w /\
   requests w' = requests w ++ [UsersUpsert (dict_set (lit "user_id") (JInt uid) d)] /\
   last (logs w') = Some (SaveFailed uid)) /\
  (hd false (faults w) = false -> hd false (tail (faults w)) = false ->
   hd false (tail (tail (faults w))) = true ->
   count_active uid (db w') = 0%nat /\
   last (logs w') = Some (SaveFailed uid)).
Proof.
  intros Hs Hh Ht w'. subst w'.
  assert (Hlast : forall l, last (l ++ [SaveStart uid; SaveFailed uid])
                            = Some (SaveFailed uid)).
  { intros l. change [SaveStart uid; SaveFailed uid]
      with ([SaveStart uid] ++ [SaveFailed uid]).
    rewrite app_assoc. apply last_snoc. }
  destruct (save_outcomes self uid profile d plan now w Hs Hh Ht)
    as (w1 & -> & [H | [H | [H | H]]]); simpl; split; intros; try (exfalso; intuition congruence).
  - destruct H as (_ & Hdb & Hrq & Hlog). rewrite Hlog. auto.
  - destruct H as (_ & _ & _ & Hdb & _ & Hlog). rewrite Hlog. split; [|apply Hlast].
    unfold count_active. rewrite Hdb. simpl. now rewrite filter_active_closed.
Qed.

(** The plan of user 7 in [world1] after a commit for user 42. *)
Lemma save_keeps_history_witness :
  exists r',
    plan_history (db (snd (save_new_plan_and_profile bot0 42 0 (lit "new plan") 9%Z world1)))
      !! 1%nat = Some r' /\
    user_id r' = 7%Z /\ plan_text r' = lit "their plan".
Proof.
  destruct (save_keeps_history bot0 42 0 (lit "new plan") 9%Z world1 1%nat
              {| user_id := 7; plan_text := lit "their plan"; profile_json := [];
                 start_date := 6%Z; end_date := None |})
    as (r' & Hr & Hu & Ht & _); [vm_compute; reflexivity|].
  exists r'. split; [exact Hr|]. split; [exact Hu|exact Ht].
Defined.

(** The plan of user 7 in [world1] is untouched by a commit for user 42. *)
Lemma save_leaves_other_users_witness :
  plan_history (db (snd (save_new_plan_and_profile bot0 42 0 (lit "new plan") 9%Z world1)))
    !! 1%nat
  = Some {| user_id := 7; plan_text := lit "their plan"; profile_json := [];
            start_date := 6%Z; end_date := None |}.
Proof.
  destruct (save_leaves_other_users bot0 42 0 (lit "new plan") 9%Z world1) as [Hplans _].
  apply Hplans; [vm_compute; reflexivity|vm_compute; discriminate].
Defined.

(** [world1] has one active plan per user, and so has the world after a
    commit on it. *)
Lemma save_keeps_at_most_one_active_witness :
  at_most_one_active (db world1) /\
  at_most_one_active
    (db (snd (save_new_plan_and_profile bot0 42 0 (lit "new plan") 9%Z world1))).
Proof.
  assert (H : at_most_one_active (db world1)).
  { intros u. unfold count_active, is_active.
    cbn [world1 db plan_history List.filter user_id end_date].
    destruct (Z.eqb_spec 42 u); destruct (Z.eqb_spec 7 u); simpl; lia. }
  split; [exact H|].
  apply (save_keeps_at_most_one_active bot0 42 0 (lit "new plan") 9%Z world1 H).
Defined.

(** A store that raises on the upsert: the tables of [world1] stay. *)
Lemma save_stops_at_first_failure_witness :
  db (snd (save_new_plan_and_profile bot0 42 0 (lit "new plan") 9%Z world1_down))
  = db world1_down.
Proof.
  destruct (save_stops_at_first_failure bot0 42 0
              [(lit "name", JStr (lit "Sam")); (lit "user_id", JInt 5)]
              (lit "new plan") 9%Z world1_down)
    as [Hfirst _]; [vm_compute; reflexivity ..|].
  destruct Hfirst as [Hdb _]; [vm_compute; reflexivity|exact Hdb].
Defined.

(** ** Further facts: [_load_profile] *)

(** The four ways a lookup can go with a client: the first request
    raises, no row is stored, the second request raises, or both are
    served. *)
Lemma load_outcomes (self : FouserBot) (uid : Z) (w : world) :
  supabase self = true ->
  exists o w',
    _load_profile self uid w = (Val o, w') /\
    db w' = db w /\ heap w' = heap w /\ user_data w' = user_data w /\
    outbox w' = outbox w /\
    ((hd false (faults w) = true /\ o = None /\
      requests w' = requests w ++ [UsersSelect uid] /\
      logs w' = logs w ++ [LoadError uid] /\
      faults w' = tail (faults w))
     \/ (hd false (faults w) = false /\ users_select uid (db w) = [] /\ o = None /\
         requests w' = requests w ++ [UsersSelect uid] /\
         logs w' = logs w ++ [LoadNoProfile uid] /\
         faults w' = tail (faults w))
     \/ (hd false (faults w) = false /\ users_select uid (db w) <> [] /\
         hd false (tail (faults w)) = true /\ o = None /\
         requests w' = requests w ++ [UsersSelect uid; PlanSelectActive uid] /\
         logs w' = logs w ++ [LoadError uid] /\
         faults w' = tail (tail (faults w)))
     \/ (hd false (faults w) = false /\ hd false (tail (faults w)) = false /\
         (exists p rest, users_select uid (db w) = p :: rest /\
                         o = Some (p, last_plan_of uid (db w))) /\
         requests w' = requests w ++ [UsersSelect uid; PlanSelectActive uid] /\
         logs w' = logs w /\
         faults w' = tail (tail (faults w)))).
Proof.
  intros Hs. destruct w as [hp tb fl rq lg ud ob].
  unfold _load_profile. rewrite Hs. simpl.
  unfold try_except, bind, execute, ret, log. simpl.
  destruct (hd false fl) eqn:F1; simpl.
  { do 2 eexists. split; [reflexivity|]. simpl. repeat (split; [reflexivity|]).
    left. auto. }
  destruct (users_select uid tb) as [|p rest] eqn:Hsel; simpl.
  { do 2 eexists. split; [reflexivity|]. simpl. repeat (split; [reflexivity|]).
    right; left. auto 10. }
  destruct (hd false (tail fl)) eqn:F2; simpl.
  { do 2 eexists. split; [reflexivity|]. simpl. repeat (split; [reflexivity|]).
    right; right; left. rewrite <- app_assoc. repeat split; auto. }
  do 2 eexists. split; [reflexivity|]. simpl. repeat (split; [reflexivity|]).
  right; right; right. rewrite <- app_assoc. repeat split; auto.
  exists p, rest. split; [reflexivity|]. unfold last_plan_of. reflexivity.
Qed.

(** X5: [_load_profile] only reads and never raises.  Whatever the bot,
    the user and the faults of the store, a call returns, leaves the
    three tables, the objects, the sessions and what was sent as they
    were, and executes at most two requests, each one a select. *)
Theorem load_profile_read_only (self : FouserBot) (uid : Z) (w : world) :
  exists o w',
    _load_profile self uid w = (Val o, w') /\
    same_tables w w' /\ heap w' = heap w /\ same_sessions w w' /\
    outbox w' = outbox w /\
    exists added,
      requests w' = requests w ++ added /\ forallb reads added = true /\
      (length added <= 2)%nat.
Proof.
  destruct (supabase self) eqn:Hs.
  - destruct (load_outcomes self uid w Hs)
      as (o & w' & Hrun & Hdb & Hheap & Hud & Hout & Hcase).
    exists o, w'. repeat (split; [assumption|]).
    destruct Hcase as [H | [H | [H | H]]].
    + exists [UsersSelect uid]. simpl. intuition.
    + exists [UsersSelect uid]. simpl. intuition.
    + exists [UsersSelect uid; PlanSelectActive uid]. simpl. intuition.
    + exists [UsersSelect uid; PlanSelectActive uid]. simpl. intuition.
  - exists None. eexists. unfold _load_profile. rewrite Hs. simpl.
    unfold bind, log, ret. simpl. split; [reflexivity|]. simpl.
    repeat (split; [reflexivity|]). exists []. rewrite app_nil_r. simpl. auto.
Qed.

(** X6: a store that fails hides the stored user.  With a client, when
    either of the two selects raises, [_load_profile] returns [None], as
    it does for a user who has no row, although the row is there; the
    failure is logged once. *)
Theorem load_profile_failure_looks_new (self : FouserBot) (uid : Z) (w : world) :
  supabase self = true ->
  users_select uid (db w) <> [] ->
  hd false (faults w) = true \/ hd false (tail (faults w)) = true ->
  exists w',
    _load_profile self uid w = (Val None, w') /\
    logs w' = logs w ++ [LoadError uid].
Proof.
  intros Hs Hrow Hfault.
  destruct (load_outcomes self uid w Hs)
    as (o & w' & Hrun & _ & _ & _ & _ & Hcase).
  exists w'.
  destruct Hcase as [H | [H | [H | H]]].
  - destruct H as (_ & -> & _ & Hlog & _). auto.
  - destruct H as (_ & Hnone & _). contradiction.
  - destruct H as (_ & _ & _ & -> & _ & Hlog & _). auto.
  - destruct H as (F1 & F2 & _). destruct Hfault; congruence.
Qed.

(** X7: a stored user without an active plan.  With a client and a store
    that serves the two selects, [_load_profile] returns the first stored
    row of the user; the plan text with it is the fixed text
    "No previous plan found." when no plan record of the user has a null
    end time. *)
Theorem load_profile_no_active_plan (self : FouserBot) (uid : Z) (w : world)
    (p : pydict) (rest : list pydict) :
  supabase self = true ->
  hd false (faults w) = false ->
  hd false (tail (faults w)) = false ->
  users_select uid (db w) = p :: rest ->
  count_active uid (db w) = 0%nat ->
  fst (_load_profile self uid w) = Val (Some (p, lit "No previous plan found.")).
Proof.
  intros Hs F1 F2 Hsel Hnone.
  destruct (load_outcomes self uid w Hs)
    as (o & w' & Hrun & _ & _ & _ & _ & Hcase).
  rewrite Hrun. simpl.
  destruct Hcase as [H | [H | [H | H]]].
  - destruct H as (F & _). congruence.
  - destruct H as (_ & E & _). congruence.
  - destruct H as (_ & _ & F & _). congruence.
  - destruct H as (_ & _ & (p' & rest' & Hsel' & ->) & _).
    rewrite Hsel in Hsel'. injection Hsel' as <- <-.
    unfold last_plan_of, plan_select_active. unfold count_active in Hnone.
    apply length_zero_iff_nil in Hnone. rewrite Hnone. reflexivity.
Qed.

(** The row of user 42 is stored in [world2]; the store raises on the
    first select, and the lookup returns [None]. *)
Lemma load_profile_failure_looks_new_witness :
  users_select 42 (db world2) <> [] /\
  fst (_load_profile bot0 42 (set_faults [true] world2)) = Val None.
Proof.
  split; [vm_compute; discriminate|].
  destruct (load_profile_failure_looks_new bot0 42 (set_faults [true] world2))
    as (w' & Hrun & _);
    [reflexivity|vm_compute; discriminate|left; reflexivity|].
  rewrite Hrun. reflexivity.
Defined.

(** [world2] after the plans of user 42 were closed: the row of the user
    comes back with the fixed text. *)
Lemma load_profile_no_active_plan_witness :
  fst (_load_profile bot0 42 (set_db (plan_close 42 10%Z (db world2)) world2))
  = Val (Some ([(lit "user_id", JInt 42); (lit "name", JStr (lit "Sam"))],
               lit "No previous plan found.")).
Proof.
  apply (load_profile_no_active_plan bot0 42
           (set_db (plan_close 42 10%Z (db world2)) world2) _ []);
    vm_compute; reflexivity.
Defined.

(** ** Further facts: a commit, then a lookup *)

Lemma all_false_hd (l : list bool) :
  Forall (fun b => b = false) l -> hd false l = false.
Proof. destruct l; simpl; auto. now inversion 1. Qed.

Lemma all_false_tail (l : list bool) :
  Forall (fun b => b = false) l -> Forall (fun b => b = false) (tail l).
Proof. destruct l; simpl; auto. now inversion 1. Qed.

Lemma dict_get_In (k : str) (v : json) (d : pydict) :
  dict_get k d = Some v -> k ∈ map fst d.
Proof.
  induction d as [|[k' v'] d IH]; simpl; [discriminate|].
  destruct (str_eqb k' k) eqn:E.
  - apply str_eqb_eq in E. subst. intros _. apply elem_of_cons. now left.
  - intros H. apply elem_of_cons. right. now apply IH.
Qed.

Lemma merge_row_get_out (k : str) (new old : pydict) :
  k ∉ map fst new -> dict_get k (merge_row old new) = dict_get k old.
Proof.
  unfold merge_row. revert old.
  induction new as [|[k1 v1] new IH]; intros old Hout; simpl; [reflexivity|].
  simpl in Hout. apply not_elem_of_cons in Hout as [Hne Hout].
  rewrite IH by exact Hout.
  apply dict_get_set_ne. congruence.
Qed.

(** A row merged into another shows its own columns. *)
Lemma merge_row_get (k : str) (v : json) (new old : pydict) :
  keys_unique new -> dict_get k new = Some v ->
  dict_get k (merge_row old new) = Some v.
Proof.
  unfold keys_unique. revert old.
  induction new as [|[k1 v1] new IH]; intros old Hu Hget; [discriminate|].
  simpl in Hu. apply NoDup_cons in Hu as [Hout Hu].
  simpl in Hget. change (merge_row old ((k1, v1) :: new))
    with (merge_row (dict_set k1 v1 old) new).
  destruct (str_eqb k1 k) eqn:E.
  - apply str_eqb_eq in E. subst k1. injection Hget as ->.
    rewrite merge_row_get_out by exact Hout. apply dict_get_set_eq.
  - now apply IH.
Qed.

Lemma dict_set_keys (k : str) (v : json) (d : pydict) :
  map fst (dict_set k v d) = map fst d \/
  ((k ∉ map fst d) /\ map fst (dict_set k v d) = map fst d ++ [k]).
Proof.
  induction d as [|[k' v'] d IH]; simpl.
  - right. split; [apply not_elem_of_nil|reflexivity].
  - destruct (str_eqb k' k) eqn:E; simpl; [now left|].
    destruct IH as [-> | [Hout ->]]; [now left|].
    right. split; [|reflexivity].
    apply not_elem_of_cons. split; [|exact Hout].
    intros ->. now rewrite str_eqb_refl in E.
Qed.

Lemma keys_unique_set (k : str) (v : json) (d : pydict) :
  keys_unique d -> keys_unique (dict_set k v d).
Proof.
  unfold keys_unique. intros Hu.
  destruct (dict_set_keys k v d) as [-> | [Hout ->]]; [exact Hu|].
  apply NoDup_app. split; [exact Hu|]. split; [|apply NoDup_singleton].
  intros x Hx Hk. apply elem_of_cons in Hk as [-> | Hk]; [contradiction|].
  now apply elem_of_nil in Hk.
Qed.

(** After an upsert under [uid] the first row the select finds for [uid]
    is the row given, alone or merged into the row that was there. *)
Lemma select_after_upsert (uid : Z) (new : pydict) (rows : list pydict) :
  keys_unique new ->
  dict_get (lit "user_id") new = Some (JInt uid) ->
  exists row rest,
    List.filter (has_user_id uid) (upsert_rows (JInt uid) new rows) = row :: rest /\
    forall k v, dict_get k new = Some v -> dict_get k row = Some v.
Proof.
  intros Hu Hid. induction rows as [|x rows IH]; cbn [upsert_rows].
  - exists new, []. simpl. unfold has_user_id. rewrite Hid, Z.eqb_refl. auto.
  - destruct (dict_get (lit "user_id") x) as [j|] eqn:Hx.
    + destruct j; try (simpl; unfold has_user_id at 1; rewrite Hx; exact IH).
      destruct (z =? uid)%Z eqn:E.
      * exists (merge_row x new). eexists. split.
        -- simpl. unfold has_user_id at 1.
           rewrite (merge_row_get _ _ _ x Hu Hid), Z.eqb_refl. reflexivity.
        -- intros k v Hget. now apply merge_row_get.
      * simpl. unfold has_user_id at 1. rewrite Hx, E. exact IH.
    + simpl. unfold has_user_id at 1. rewrite Hx. exact IH.
Qed.

(** X8: what a commit stored is what the next lookup returns.  With a
    client, a store that serves every request and a profile that is not
    empty (and holds each key once, as a [dict] does), a call of
    [save_new_plan_and_profile] followed by [_load_profile] for the same
    user returns the plan text of the commit and a profile row that
    carries the user's id and every other field of the committed profile
    with its value. *)
Theorem commit_then_load (self : FouserBot) (uid : Z) (profile : nat) (d : pydict)
    (plan : str) (now : timestamp) (w : world) :
  supabase self = true ->
  heap w !! profile = Some d ->
  dict_truthy d = true ->
  keys_unique d ->
  healthy w ->
  exists row w2,
    _load_profile self uid (snd (save_new_plan_and_profile self uid profile plan now w))
    = (Val (Some (row, plan)), w2) /\
    dict_get (lit "user_id") row = Some (JInt uid) /\
    forall k v, k <> lit "user_id" -> dict_get k d = Some v -> dict_get k row = Some v.
Proof.
  intros Hs Hh Ht Hu Hw.
  destruct (save_run self uid profile d plan now w Hs Hh Ht)
    as (w1 & n & Hrun & _ & _ & _ & _ & Hcase).
  rewrite Hrun. simpl.
  destruct Hcase as [(_ & _ & Hdb & Hfl) | [_ Hbad]]; [|contradiction].
  assert (Hw1 : Forall (fun b => b = false) (faults w1)).
  { rewrite Hfl. now do 3 apply all_false_tail. }
  destruct (select_after_upsert uid (dict_set (lit "user_id") (JInt uid) d)
              (users (db w)))
    as (row & rest & Hsel & Hrow);
    [now apply keys_unique_set|apply dict_get_set_eq|].
  destruct (load_outcomes self uid w1 Hs)
    as (o & w2 & Hload & _ & _ & _ & _ & Hout).
  assert (F1 : hd false (faults w1) = false) by now apply all_false_hd.
  assert (F2 : hd false (tail (faults w1)) = false)
    by now apply all_false_hd, all_false_tail.
  assert (Hsel1 : users_select uid (db w1) = row :: rest).
  { unfold users_select. rewrite Hdb. exact Hsel. }
  exists row, w2.
  destruct Hout as [H | [H | [H | H]]].
  - destruct H as (F & _). congruence.
  - destruct H as (_ & E & _). congruence.
  - destruct H as (_ & _ & F & _). congruence.
  - destruct H as (_ & _ & (p & rest' & Hsel' & ->) & _).
    rewrite Hsel1 in Hsel'. injection Hsel' as <- <-.
    split; [|split].
    + rewrite Hload. do 3 f_equal.
      unfold last_plan_of, plan_select_active. rewrite Hdb, committed_active.
      reflexivity.
    + apply Hrow, dict_get_set_eq.
    + intros k v Hk Hget. apply Hrow.
      rewrite dict_get_set_ne by congruence. exact Hget.
Qed.

(** A commit on [world1], then the lookup of user 42. *)
Lemma commit_then_load_witness :
  exists row w2,
    _load_profile bot0 42
      (snd (save_new_plan_and_profile bot0 42 0 (lit "new plan") 9%Z world1))
    = (Val (Some (row, lit "new plan")), w2) /\
    dict_get (lit "user_id") row = Some (JInt 42) /\
    dict_get (lit "name") row = Some (JStr (lit "Sam")).
Proof.
  destruct (commit_then_load bot0 42 0
              [(lit "name", JStr (lit "Sam")); (lit "user_id", JInt 5)]
              (lit "new plan") 9%Z world1)
    as (row & w2 & Hrun & Hid & Hrow);
    [reflexivity|reflexivity|reflexivity
    |unfold keys_unique; refine (bool_decide_unpack _ _); vm_compute; exact I
    |repeat constructor|].
  exists row, w2. split; [exact Hrun|]. split; [exact Hid|].
  apply Hrow; [vm_compute; discriminate|reflexivity].
Defined.

(** ** Further facts: the steps of [main_chat_handler] *)

(** With a client, [_load_profile] returns what [load_result] says. *)
Lemma load_profile_result (self : FouserBot) (uid : Z) (w : world) :
  supabase self = true ->
  fst (_load_profile self uid w) = Val (load_result uid (faults w) (db w)).
Proof.
  intros Hs.
  destruct (load_outcomes self uid w Hs) as (o & w' & Hrun & _ & _ & _ & _ & Hcase).
  rewrite Hrun. simpl. f_equal. unfold load_result.
  destruct Hcase as [H | [H | [H | H]]].
  - destruct H as (-> & -> & _). reflexivity.
  - destruct H as (-> & -> & -> & _). reflexivity.
  - destruct H as (-> & Hrow & -> & -> & _).
    destruct (users_select uid (db w)); [congruence|reflexivity].
  - destruct H as (-> & -> & (p & rest & -> & ->) & _). reflexivity.
Qed.

Lemma load_result_ext (uid : Z) (fl : list bool) (tb tb' : tables) :
  users tb' = users tb -> plan_history tb' = plan_history tb ->
  load_result uid fl tb' = load_result uid fl tb.
Proof.
  intros Hu Hp. unfold load_result, users_select, last_plan_of, plan_select_active.
  now rewrite Hu, Hp.
Qed.

(** With a client, [_log_conversation] executes one insert and returns;
    the turn is stored unless the store raises. *)
Lemma log_conversation_outcomes (self : FouserBot) (uid : Z) (s m : str) (w : world) :
  supabase self = true ->
  exists w',
    _log_conversation self uid s m w = (Val tt, w') /\
    untouched w w' /\
    requests w' = requests w
                  ++ [TurnInsert {| turn_user := uid; sender := s; message_text := m |}] /\
    faults w' = tail (faults w) /\
    conversation_history (db w')
    = conversation_history (db w)
      ++ (if hd false (faults w) then []
          else [{| turn_user := uid; sender := s; message_text := m |}]).
Proof.
  intros Hs. unfold _log_conversation. rewrite Hs. simpl.
  unfold try_except, execute, log. destruct (hd false (faults w)) eqn:F; simpl.
  - eexists. split; [reflexivity|]. simpl. rewrite app_nil_r.
    repeat split; reflexivity.
  - eexists. split; [reflexivity|]. simpl. repeat split; reflexivity.
Qed.

Lemma delivered_ext (w w' : world) (t : str) :
  telegram_refuses w' = telegram_refuses w -> delivered w' t = delivered w t.
Proof. intros H. unfold delivered. now rewrite H. Qed.

Lemma handler_reply_ext (w w' : world) (r : str) :
  python w' = python w -> telegram_refuses w' = telegram_refuses w ->
  handler_reply w' r = handler_reply w r.
Proof. intros H1 H2. unfold handler_reply, delivered. now rewrite H1, H2. Qed.



(** [process_reply] inside the [try] of the handler ends, whatever the
    store does, with the one text [handler_reply] gives delivered. *)
Lemma process_reply_outcomes (self : FouserBot) (u : update) (r : str)
    (now : timestamp) (w : world) :
  supabase self = true ->
  exists w',
    try_except (process_reply self u r now) (apologise u) w = (Val tt, w') /\
    outbox w' = outbox w ++ [Reply (chat_id u) (handler_reply w r)] /\
    user_data w' = user_data w /\
    conversation_history (db w') = conversation_history (db w) /\
    exists added, requests w' = requests w ++ added /\
                  forallb persists added = true.
Proof.
  intros Hs. unfold handler_reply.
  destruct (contains END_OF_PLAN r) eqn:Hc.
  2:{ rewrite process_reply_plain by exact Hc.
      destruct (reply_or_apologise u r w) as (w' & -> & Ho & _ & Hdb & Hrq & Hud & _).
      exists w'. split; [reflexivity|]. split; [exact Ho|]. split; [exact Hud|].
      split; [now rewrite Hdb|]. exists []. now rewrite app_nil_r. }
  destruct (fst (_extract_profile_json (python w) r)) as [[[|kv d]|]|] eqn:Hp.
  - destruct (process_reply_no_profile self u r now w Hc (or_intror Hp))
      as (w1 & -> & Ho1 & _ & Hdb1 & Hrq1 & Hud1 & _ & Htg1 & _).
    destruct (reply_or_apologise u (strip (replace END_OF_PLAN [] r)) w1)
      as (w' & -> & Ho & _ & Hdb & Hrq & Hud & _).
    exists w'. split; [reflexivity|].
    split; [now rewrite Ho, Ho1, (delivered_ext w w1)|].
    split; [congruence|]. split; [now rewrite Hdb, Hdb1|].
    exists []. rewrite app_nil_r. split; [congruence|reflexivity].
  - unfold process_reply. rewrite Hc.
    rewrite (try_bind_val _ _ _ w (set_logs (logs w ++ [ChatEndOfPlan]) w) tt)
      by reflexivity.
    rewrite (try_bind_val _ _ _ _ (set_logs (logs w ++ [ChatEndOfPlan]) w) (python w))
      by reflexivity.
    destruct (_extract_profile_json (python w) r) as [parsed parse_logs]. simpl in Hp.
    subst parsed.
    destruct (_extract_plan_text r) as [plan plan_logs]. simpl fst.
    rewrite (try_bind_val _ _ _ _
               (set_logs ((logs w ++ [ChatEndOfPlan]) ++ parse_logs) w) tt)
      by reflexivity.
    set (w1 := set_logs ((logs w ++ [ChatEndOfPlan]) ++ parse_logs) w).
    rewrite (try_bind_val _ _ _ w1 (set_heap (heap w1 ++ [kv :: d]) w1)
               (length (heap w1))) by reflexivity.
    set (w2 := set_heap (heap w1 ++ [kv :: d]) w1).
    rewrite (try_bind_val _ _ _ w2 (set_logs (logs w2 ++ plan_logs) w2) tt)
      by reflexivity.
    set (w3 := set_logs (logs w2 ++ plan_logs) w2).
    pose proof (onward_save self (from_user u) (length (heap w1)) plan now w3)
      as (_ & Htg & _).
    pose proof (save_tables_cases self (from_user u) (length (heap w1)) plan now w3)
      as Htb.
    destruct (save_run self (from_user u) (length (heap w1)) (kv :: d) plan now w3)
      as (w4 & n & Hrun & _ & Hud4 & Ho4 & Hrq4 & _);
      [exact Hs|simpl; now apply list_lookup_middle|reflexivity|].
    cbv zeta in Htb. rewrite Hrun in Htg, Htb. simpl in Htg, Htb.
    rewrite (try_bind_val _ _ _ _ _ _ Hrun).
    match goal with
    | |- context [try_except (reply_text u ?t) _ _] =>
        destruct (reply_or_apologise u t w4) as (w' & -> & Ho & _ & Hdb & Hrq & Hud & _)
    end.
    exists w'. split; [reflexivity|].
    split; [rewrite Ho, Ho4; unfold delivered; now rewrite Htg|].
    split; [now rewrite Hud, Hud4|]. split.
    + rewrite Hdb.
      destruct Htb as [E | (d' & [E | [E | E]])]; rewrite E; reflexivity.
    + eexists. split; [rewrite Hrq; exact Hrq4|].
      destruct n as [|[|[|n]]]; reflexivity.
  - destruct (process_reply_no_profile self u r now w Hc (or_introl Hp))
      as (w1 & -> & Ho1 & _ & Hdb1 & Hrq1 & Hud1 & _ & Htg1 & _).
    destruct (reply_or_apologise u (strip (replace END_OF_PLAN [] r)) w1)
      as (w' & -> & Ho & _ & Hdb & Hrq & Hud & _).
    exists w'. split; [reflexivity|].
    split; [now rewrite Ho, Ho1, (delivered_ext w w1)|].
    split; [congruence|]. split; [now rewrite Hdb, Hdb1|].
    exists []. rewrite app_nil_r. split; [congruence|reflexivity].
  - destruct (process_reply_raised self u r now w Hc Hp)
      as (w' & -> & Ho & _ & Hdb & Hrq & Hud & _).
    exists w'. split; [reflexivity|]. split; [exact Ho|]. split; [exact Hud|].
    split; [now rewrite Hdb|]. exists []. now rewrite app_nil_r.
Qed.

(** In a session that exists the message goes to the model as it is. *)
Lemma obtain_reply_continuing (self : FouserBot) (u : update) (resp : option str)
    (w : world) (s : chat_session) :
  user_data w !! from_user u = Some s ->
  obtain_reply self u resp w = send_message (from_user u) (Forward (text u)) resp w.
Proof.
  intros H. unfold obtain_reply, bind, get_chat_session. now rewrite H.
Qed.

(** Without a session one is started, the profile is looked up, and the
    first prompt goes to the model. *)
Lemma obtain_reply_new (self : FouserBot) (u : update) (resp : option str) (w : world) :
  supabase self = true ->
  user_data w !! from_user u = None ->
  exists w2,
    obtain_reply self u resp w
    = send_message (from_user u)
        (first_prompt (load_result (from_user u) (faults w) (db w)) (text u)) resp w2 /\
    heap w2 = heap w /\ outbox w2 = outbox w /\ db w2 = db w /\
    user_data w2 = <[from_user u := []]> (user_data w) /\
    (exists added, requests w2 = requests w ++ added /\ forallb reads added = true) /\
    (healthy w -> healthy w2) /\
    faults w2 = drop (selects_of_load (from_user u) (faults w) (db w)) (faults w).
Proof.
  intros Hs Hnone. unfold obtain_reply.
  unfold bind at 1. unfold get_chat_session at 1. rewrite Hnone.
  unfold bind at 1. unfold log at 1.
  unfold bind at 1. unfold put_chat_session at 1.
  set (wi := set_user_data _ _).
  pose proof (load_profile_result self (from_user u) wi Hs) as Hres.
  destruct (load_outcomes self (from_user u) wi Hs)
    as (o & w2 & Hrun & Hdb & Hheap & Hud & Hout & Hcase).
  rewrite Hrun in Hres. simpl in Hres. injection Hres as ->.
  unfold bind at 1. rewrite Hrun.
  assert (Hrq : exists added, requests w2 = requests w ++ added /\
                              forallb reads added = true).
  { destruct Hcase as [H | [H | [H | H]]].
    - exists [UsersSelect (from_user u)]. split; [apply H|reflexivity].
    - exists [UsersSelect (from_user u)]. split; [apply H|reflexivity].
    - exists [UsersSelect (from_user u); PlanSelectActive (from_user u)].
      split; [apply H|reflexivity].
    - exists [UsersSelect (from_user u); PlanSelectActive (from_user u)].
      split; [apply H|reflexivity]. }
  assert (Hhealthy : healthy w -> healthy w2).
  { unfold healthy. intros Hw.
    assert (Hw' : Forall (fun b => b = false) (faults wi)) by exact Hw.
    destruct Hcase as [H | [H | [H | H]]].
    - destruct H as (_ & _ & _ & _ & ->). now apply all_false_tail.
    - destruct H as (_ & _ & _ & _ & _ & ->). now apply all_false_tail.
    - destruct H as (_ & _ & _ & _ & _ & _ & ->). now do 2 apply all_false_tail.
    - destruct H as (_ & _ & _ & _ & _ & ->). now do 2 apply all_false_tail. }
  assert (Hfl : faults w2
                = drop (selects_of_load (from_user u) (faults wi) (db wi)) (faults wi)).
  { unfold selects_of_load.
    destruct Hcase as [H | [H | [H | H]]].
    - destruct H as (F & _ & _ & _ & ->). rewrite F. now destruct (faults wi).
    - destruct H as (F & Hsel & _ & _ & _ & ->). rewrite F, Hsel.
      now destruct (faults wi).
    - destruct H as (F & Hsel & _ & _ & _ & _ & ->). rewrite F.
      destruct (users_select (from_user u) (db wi)); [contradiction|].
      now destruct (faults wi) as [|? [|? ?]].
    - destruct H as (F & _ & (p & rest & Hsel & _) & _ & _ & ->). rewrite F, Hsel.
      now destruct (faults wi) as [|? [|? ?]]. }
  change (faults wi) with (faults w) in *. change (db wi) with (db w) in *.
  destruct (load_result (from_user u) (faults w) (db w)) as [[profile last_plan]|];
    simpl first_prompt.
  - exists (set_logs (logs w2 ++ [ChatReturning]) w2). split; [reflexivity|]. simpl.
    repeat split; auto.
  - exists (set_logs (logs w2 ++ [ChatNew]) w2). split; [reflexivity|]. simpl.
    repeat split; auto.
Qed.

(** The handler up to the answer of the model, with both clients: the
    message is logged and the typing action sent. *)
Lemma handler_start (self : FouserBot) (u : update) (resp : option str)
    (now : timestamp) (w : world) :
  model self = true -> supabase self = true ->
  exists wb,
    main_chat_handler self u resp now w
    = try_except
        (let* ai_message := obtain_reply self u resp in
         _log_conversation self (from_user u) (lit "ai") ai_message;;;
         process_reply self u ai_message now)
        (apologise u) wb /\
    onward w wb /\
    heap wb = heap w /\ outbox wb = outbox w ++ [Typing (chat_id u)] /\
    user_data wb = user_data w /\
    users (db wb) = users (db w) /\ plan_history (db wb) = plan_history (db w) /\
    requests wb = requests w ++ [TurnInsert (user_turn u)] /\
    faults wb = tail (faults w) /\
    conversation_history (db wb)
    = conversation_history (db w)
      ++ (if hd false (faults w) then [] else [user_turn u]).
Proof.
  intros Hm Hs. unfold main_chat_handler. rewrite Hm, Hs. simpl.
  unfold bind at 1. unfold log at 1.
  set (wa := set_logs _ w).
  destruct (log_conversation_outcomes self (from_user u) (lit "user") (text u) wa Hs)
    as (wb & Hrun & (Hheap & Hout & Hud & Hus & Hph) & Hrq & Hfl & Hch).
  pose proof (onward_log_conversation self (from_user u) (lit "user") (text u) wa) as Sb.
  rewrite Hrun in Sb. simpl in Sb.
  rewrite (bind_val _ _ _ _ _ Hrun).
  rewrite (try_bind_val _ _ _ wb (set_outbox (outbox wb ++ [Typing (chat_id u)]) wb) tt)
    by reflexivity.
  eexists. split; [reflexivity|]. split.
  - eapply onward_trans;
      [exact (onward_log (ChatMessage (from_user u) (text u)) w)|].
    eapply onward_trans; [exact Sb|]. now apply onward_same.
  - simpl. rewrite Hout. repeat split; assumption.
Qed.

(** The session of the sender after the handler got the answer [r]. *)
Lemma obtain_reply_answer (self : FouserBot) (u : update) (r : str) (w : world) :
  supabase self = true ->
  exists wd,
    obtain_reply self u (Some r) w = (Val r, wd) /\
    heap wd = heap w /\ outbox wd = outbox w /\ db wd = db w /\
    ((healthy w -> healthy wd) /\
     faults wd
     = drop (match user_data w !! from_user u with
             | Some _ => 0%nat
             | None => selects_of_load (from_user u) (faults w) (db w)
             end) (faults w)) /\
    (exists added, requests wd = requests w ++ added /\ forallb reads added = true /\
                   (is_Some (user_data w !! from_user u) ->
                    added = [] /\ faults wd = faults w)) /\
    user_data wd
    = <[from_user u :=
          match user_data w !! from_user u with
          | Some s => s ++ [(Forward (text u), r)]
          | None => [(first_prompt (load_result (from_user u) (faults w) (db w)) (text u),
                      r)]
          end]> (user_data w).
Proof.
  intros Hs. destruct (user_data w !! from_user u) as [s|] eqn:Hsess.
  - rewrite (obtain_reply_continuing self u (Some r) w s Hsess).
    unfold send_message. unfold chat_session in *. rewrite Hsess. eexists. split; [reflexivity|]. simpl.
    do 3 (split; [auto|]). split; [split; [auto|reflexivity]|]. split; [|reflexivity].
    exists []. rewrite app_nil_r. auto.
  - destruct (obtain_reply_new self u (Some r) w Hs Hsess)
      as (w2 & -> & Hheap & Hout & Hdb & Hud & (added & Hrq & Hreads) & Hhealthy & Hfl).
    unfold send_message. eexists. split; [reflexivity|]. simpl.
    do 3 (split; [auto|]). split; [split; [auto|exact Hfl]|]. split.
    + exists added. split; [exact Hrq|]. split; [exact Hreads|].
      intros [x Hx]. discriminate.
    + rewrite Hud, lookup_insert_eq, insert_insert_eq. reflexivity.
Qed.

(** The handler with both clients and an answer [r] of the model, step
    by step: the world [wb] when the model is asked, [wd] when it has
    answered, [we] when the answer is logged, [w'] at the end. *)
Lemma handler_answer (self : FouserBot) (u : update) (r : str) (now : timestamp)
    (w : world) :
  model self = true -> supabase self = true ->
  exists wb wd we w',
    main_chat_handler self u (Some r) now w = (Val tt, w') /\
    (heap wb = heap w /\ outbox wb = outbox w ++ [Typing (chat_id u)] /\
     user_data wb = user_data w /\
     users (db wb) = users (db w) /\ plan_history (db wb) = plan_history (db w) /\
     requests wb = requests w ++ [TurnInsert (user_turn u)] /\
     faults wb = tail (faults w) /\
     conversation_history (db wb)
     = conversation_history (db w)
       ++ (if hd false (faults w) then [] else [user_turn u])) /\
    (heap wd = heap wb /\ outbox wd = outbox wb /\ db wd = db wb /\
     ((healthy wb -> healthy wd) /\
      faults wd
      = drop (match user_data w !! from_user u with
              | Some _ => 0%nat
              | None => selects_of_load (from_user u) (tail (faults w)) (db w)
              end) (tail (faults w))) /\
     (exists added, requests wd = requests wb ++ added /\ forallb reads added = true /\
                    (is_Some (user_data w !! from_user u) ->
                     added = [] /\ faults wd = faults wb)) /\
     user_data wd
     = <[from_user u :=
           match user_data w !! from_user u with
           | Some s => s ++ [(Forward (text u), r)]
           | None =>
               [(first_prompt (load_result (from_user u) (tail (faults w)) (db w))
                   (text u), r)]
           end]> (user_data w)) /\
    (untouched wd we /\
     requests we = requests wd ++ [TurnInsert (ai_turn u r)] /\
     faults we = tail (faults wd) /\
     conversation_history (db we)
     = conversation_history (db wd)
       ++ (if hd false (faults wd) then [] else [ai_turn u r])) /\
    (outbox w' = outbox we ++ [Reply (chat_id u) (handler_reply w r)] /\
     user_data w' = user_data we /\
     conversation_history (db w') = conversation_history (db we) /\
     exists added, requests w' = requests we ++ added /\
                   forallb persists added = true).
Proof.
  intros Hm Hs.
  destruct (handler_start self u (Some r) now w Hm Hs)
    as (wb & -> & Hon & Hb).
  destruct (obtain_reply_answer self u r wb Hs)
    as (wd & Hrund & Hheap & Hout & Hdb & (Hhealthy & Hfld) & Hrq & Hud).
  destruct (log_conversation_outcomes self (from_user u) (lit "ai") r wd Hs)
    as (we & Hrune & He).
  destruct (process_reply_outcomes self u r now we Hs) as (w' & Hrun & Hp).
  pose proof (onward_obtain_reply self u (Some r) wb) as Sd.
  pose proof (onward_log_conversation self (from_user u) (lit "ai") r wd) as Se.
  rewrite Hrund in Sd. rewrite Hrune in Se. simpl in Sd, Se.
  destruct (onward_trans _ _ _ Hon (onward_trans _ _ _ Sd Se)) as (Hpy & Htg & _).
  rewrite (handler_reply_ext w we r Hpy Htg) in Hp.
  exists wb, wd, we, w'.
  split.
  { rewrite (try_bind_val _ _ _ _ _ _ Hrund), (try_bind_val _ _ _ _ _ _ Hrune).
    exact Hrun. }
  split; [exact Hb|]. split; [|split; [exact He|exact Hp]].
  destruct Hb as (_ & _ & Hudb & Husb & Hphb & _ & Hflb & _).
  unfold chat_session in *. rewrite Hudb, Hflb in Hud. rewrite Hudb in Hrq.
  rewrite Hudb, Hflb in Hfld.
  do 3 (split; [assumption|]). split; [split; [assumption|]|].
  { rewrite Hfld. unfold selects_of_load, users_select. now rewrite Husb. }
  split; [exact Hrq|].
  rewrite Hud, (load_result_ext _ _ (db w) (db wb)) by assumption. reflexivity.
Qed.

(** The handler with both clients when the model does not answer. *)
Lemma handler_outage (self : FouserBot) (u : update) (now : timestamp) (w : world) :
  model self = true -> supabase self = true ->
  exists w',
    main_chat_handler self u None now w = (Val tt, w') /\
    heap w' = heap w /\
    outbox w' = outbox w ++ [Typing (chat_id u); Reply (chat_id u) SORRY] /\
    users (db w') = users (db w) /\ plan_history (db w') = plan_history (db w) /\
    conversation_history (db w')
    = conversation_history (db w)
      ++ (if hd false (faults w) then [] else [user_turn u]) /\
    (exists added, requests w' = requests w ++ TurnInsert (user_turn u) :: added /\
                   forallb reads added = true) /\
    user_data w'
    = match user_data w !! from_user u with
      | Some _ => user_data w
      | None => <[from_user u := []]> (user_data w)
      end /\
    last (logs w') = Some ChatError.
Proof.
  intros Hm Hs.
  destruct (handler_start self u None now w Hm Hs)
    as (wb & -> & _ & Hheap & Hout & Hud & Hus & Hph & Hrq & Hfl & Hch).
  unfold try_except, bind at 1.
  destruct (user_data wb !! from_user u) as [s|] eqn:Hsess.
  - rewrite (obtain_reply_continuing self u None wb s Hsess).
    unfold send_message. rewrite apologise_run.
    eexists. split; [reflexivity|]. simpl. rewrite Hud in Hsess. rewrite Hsess.
    split; [exact Hheap|]. split; [now rewrite Hout, <- app_assoc|].
    split; [exact Hus|]. split; [exact Hph|]. split; [exact Hch|].
    split; [exists []; split; [exact Hrq|reflexivity]|].
    split; [exact Hud|]. apply last_snoc.
  - destruct (obtain_reply_new self u None wb Hs Hsess)
      as (w2 & -> & Hheap2 & Hout2 & Hdb2 & Hud2 & (added & Hrq2 & Hreads) & _).
    unfold send_message. rewrite apologise_run.
    eexists. split; [reflexivity|]. simpl. rewrite Hud in Hsess. rewrite Hsess.
    split; [congruence|]. split; [now rewrite Hout2, Hout, <- app_assoc|].
    rewrite Hdb2.
    split; [exact Hus|]. split; [exact Hph|]. split; [exact Hch|].
    split; [exists added; split; [|exact Hreads];
            now rewrite Hrq2, Hrq, <- app_assoc|].
    split; [now rewrite Hud2, Hud|]. apply last_snoc.
Qed.

(** ** Further facts: [main_chat_handler] *)

Lemma reads_not_persists (added : list request) :
  forallb reads added = true -> forallb (fun rq => negb (persists rq)) added = true.
Proof.
  induction added as [|rq added IH]; simpl; [reflexivity|].
  intros H. apply andb_true_iff in H as [H1 H2]. rewrite (IH H2).
  destruct rq; simpl in *; congruence.
Qed.

Lemma persists_not_reads (added : list request) :
  forallb persists added = true -> forallb (fun rq => negb (reads rq)) added = true.
Proof.
  induction added as [|rq added IH]; simpl; [reflexivity|].
  intros H. apply andb_true_iff in H as [H1 H2]. rewrite (IH H2).
  destruct rq; simpl in *; congruence.
Qed.


(** X10: what reaches the user for an answer of the model.  With both
    clients, what the handler sends after the typing action for an answer
    [r] is [handler_reply w r], in every world [w]: for an answer with the
    marker and a profile that is not empty, the plan with the disclaimer,
    the same text whether the commit of the plan was served or failed at
    any of its requests; for an answer with the marker and no such
    profile, the answer without [[END_OF_PLAN]], stripped; for an answer
    without the marker, the answer; and the apology in place of a text
    that Telegram refuses and when [json.loads] raises what the bot does
    not catch. *)
Theorem handler_reply_text (self : FouserBot) (u : update) (r : str)
    (now : timestamp) (w : world) :
  model self = true -> supabase self = true ->
  replies_with self u r now w (handler_reply w r).
Proof.
  intros Hm Hs. unfold replies_with.
  destruct (handler_answer self u r now w Hm Hs)
    as (wb & wd & we & w' & Hrun & Hb & Hd & He & Hp).
  rewrite Hrun. simpl.
  destruct Hb as (_ & Hob & _). destruct Hd as (_ & Hod & _).
  destruct He as ((_ & Hoe & _) & _). destruct Hp as (Hop & _).
  now rewrite Hop, Hoe, Hod, Hob, <- app_assoc.
Qed.

(** X11: when the model does not answer.  With both clients, a call of the
    model that raises makes the handler log the error and send the fixed
    apology after the typing action; nothing is persisted; and the session
    of the sender stays what it was, or, when there was none, stays the
    new session that was started, with no prompt in it. *)
Theorem handler_model_outage (self : FouserBot) (u : update) (now : timestamp)
    (w : world) :
  model self = true -> supabase self = true ->
  let w' := snd (main_chat_handler self u None now w) in
  outbox w' = outbox w ++ [Typing (chat_id u); Reply (chat_id u) SORRY] /\
  quiet w w' /\
  user_data w' !! from_user u = Some (default [] (user_data w !! from_user u)) /\
  last (logs w') = Some ChatError.
Proof.
  intros Hm Hs w'. subst w'.
  destruct (handler_outage self u now w Hm Hs)
    as (w' & -> & _ & Hout & Hus & Hph & _ & (added & Hrq & Hreads) & Hud & Hlog).
  simpl. split; [exact Hout|]. split; [|split; [|exact Hlog]].
  - split; [exact Hus|]. split; [exact Hph|].
    exists (TurnInsert (user_turn u) :: added). split; [exact Hrq|].
    simpl. now apply reads_not_persists.
  - rewrite Hud. unfold chat_session in *.
    match goal with
    | |- context [match ?x with _ => _ end] => destruct x as [s|] eqn:E; simpl
    end.
    + exact E.
    + apply lookup_insert_eq.
Qed.

Lemma all_false_drop_hd (k : nat) (l : list bool) :
  Forall (fun b => b = false) l -> hd false (drop k l) = false.
Proof.
  revert l. induction k as [|k IH]; intros l H.
  - destruct H; [reflexivity|assumption].
  - destruct H; [reflexivity|]. simpl. now apply IH.
Qed.

(** X12: what the conversation log gains.  With both clients and an answer
    [r] of the model, the handler adds to [conversation_history] the turn
    of the user, unless the first request to the store raises, and then
    the turn of the model, unless its insert raises, and nothing else,
    whatever it does with the answer.  The insert of the model's turn is
    the second request in a running session; in a new session it comes
    after the selects of [_load_profile], one when the first select
    raises or finds no row and two otherwise.  On a store that serves
    every request both turns are there. *)
Theorem handler_logs_turns (self : FouserBot) (u : update) (r : str)
    (now : timestamp) (w : world) :
  model self = true -> supabase self = true ->
  let w' := snd (main_chat_handler self u (Some r) now w) in
  let selects :=
    match user_data w !! from_user u with
    | Some _ => 0%nat
    | None => selects_of_load (from_user u) (tail (faults w)) (db w)
    end in
  conversation_history (db w')
  = conversation_history (db w)
    ++ (if hd false (faults w) then [] else [user_turn u])
    ++ (if hd false (drop (S selects) (faults w)) then [] else [ai_turn u r]) /\
  (healthy w ->
   conversation_history (db w')
   = conversation_history (db w) ++ [user_turn u; ai_turn u r]).
Proof.
  intros Hm Hs w' selects. subst w'.
  destruct (handler_answer self u r now w Hm Hs)
    as (wb & wd & we & w' & Hrun & Hb & Hd & He & Hp).
  rewrite Hrun. simpl.
  destruct Hb as (_ & _ & _ & _ & _ & _ & Hfb & Hcb).
  destruct Hd as (_ & _ & Hdb & (_ & Hfd) & _).
  destruct He as (_ & _ & _ & Hce). destruct Hp as (_ & _ & Hcp & _).
  assert (Hall : conversation_history (db w')
                 = conversation_history (db w)
                   ++ (if hd false (faults w) then [] else [user_turn u])
                   ++ (if hd false (drop (S selects) (faults w)) then []
                       else [ai_turn u r])).
  { rewrite Hcp, Hce, Hdb, Hcb, Hfd, <- app_assoc. subst selects.
    unfold chat_session in *.
    replace (drop (S (match user_data w !! from_user u with
                      | Some _ => 0%nat
                      | None => selects_of_load (from_user u) (tail (faults w)) (db w)
                      end)) (faults w))
      with (drop (match user_data w !! from_user u with
                  | Some _ => 0%nat
                  | None => selects_of_load (from_user u) (tail (faults w)) (db w)
                  end) (tail (faults w)));
      [reflexivity|].
    destruct (faults w); [simpl; now rewrite drop_nil|reflexivity]. }
  split; [exact Hall|].
  intros Hw. rewrite Hall, (healthy_hd w Hw), (all_false_drop_hd _ _ Hw). reflexivity.
Qed.

(** X13: a message in a running session.  With both clients and a session
    of the sender in [user_data], the handler sends the model the message
    as it is, adds that exchange to the session, and does not read the
    store: no select is executed. *)
Theorem handler_continuing_session (self : FouserBot) (u : update) (r : str)
    (now : timestamp) (w : world) (s : chat_session) :
  model self = true -> supabase self = true ->
  user_data w !! from_user u = Some s ->
  let w' := snd (main_chat_handler self u (Some r) now w) in
  user_data w' = <[from_user u := s ++ [(Forward (text u), r)]]> (user_data w) /\
  exists added, requests w' = requests w ++ added /\
                forallb (fun rq => negb (reads rq)) added = true.
Proof.
  intros Hm Hs Hsess w'. subst w'.
  destruct (handler_answer self u r now w Hm Hs)
    as (wb & wd & we & w' & Hrun & Hb & Hd & He & Hp).
  rewrite Hrun. simpl.
  destruct Hb as (_ & _ & _ & _ & _ & Hrb & _).
  destruct Hd as (_ & _ & _ & _ & (added & Hrd & _ & Hnone) & Hud).
  destruct He as ((_ & _ & Hue & _) & Hre & _).
  destruct Hp as (_ & Hup & _ & (added' & Hrp & Hpers)).
  unfold chat_session in *.
  destruct Hnone as [-> _]; [rewrite Hsess; eexists; reflexivity|].
  rewrite Hsess in Hud. split; [now rewrite Hup, Hue, Hud|].
  exists ([TurnInsert (user_turn u)] ++ [TurnInsert (ai_turn u r)] ++ added').
  split.
  - rewrite Hrp, Hre, Hrd, Hrb, app_nil_r, <- !app_assoc. reflexivity.
  - simpl. now apply persists_not_reads.
Qed.

(** X14: the first message of a session.  With both clients and no session
    of the sender, the handler starts one whose only exchange is the
    first prompt and the answer: the note for a returning user, with the
    stored profile, the last plan and the name, when the lookup that
    follows the insert of the user's turn returns a profile, and the note
    for a new user otherwise. *)
Theorem handler_first_message (self : FouserBot) (u : update) (r : str)
    (now : timestamp) (w : world) :
  model self = true -> supabase self = true ->
  user_data w !! from_user u = None ->
  user_data (snd (main_chat_handler self u (Some r) now w))
  = <[from_user u :=
        [(first_prompt (load_result (from_user u) (tail (faults w)) (db w)) (text u),
          r)]]> (user_data w).
Proof.
  intros Hm Hs Hsess.
  destruct (handler_answer self u r now w Hm Hs)
    as (wb & wd & we & w' & Hrun & Hb & Hd & He & Hp).
  rewrite Hrun. simpl.
  destruct Hd as (_ & _ & _ & _ & _ & Hud).
  destruct He as ((_ & _ & Hue & _) & _).
  destruct Hp as (_ & Hup & _).
  unfold chat_session in *. rewrite Hsess in Hud. now rewrite Hup, Hue, Hud.
Qed.

(** X15: after a reset the next message opens a session again.  With both
    clients, when a user resets the chat and then writes, the session
    that results holds one exchange, the first prompt built from the
    stored profile and the answer, whatever the session held before the
    reset: the reset forgets the chat and keeps the profile. *)
Theorem reset_then_message (self : FouserBot) (u u2 : update) (r : str)
    (now : timestamp) (w : world) :
  model self = true -> supabase self = true ->
  from_user u2 = from_user u ->
  user_data (snd (main_chat_handler self u2 (Some r) now (snd (reset_chat u w))))
    !! from_user u
  = Some [(first_prompt (load_result (from_user u) (tail (faults w)) (db w)) (text u2),
           r)].
Proof.
  intros Hm Hs Hsame.
  destruct (handler_answer self u2 r now (snd (reset_chat u w)) Hm Hs)
    as (wb & wd & we & w' & Hrun & Hb & Hd & He & Hp).
  rewrite Hrun. simpl.
  destruct Hd as (_ & _ & _ & _ & _ & Hud).
  destruct He as ((_ & _ & Hue & _) & _).
  destruct Hp as (_ & Hup & _).
  simpl in Hud. unfold chat_session in *.
  rewrite Hsame, lookup_delete_eq in Hud.
  rewrite Hup, Hue, Hud. apply lookup_insert_eq.
Qed.

(** X16: the sessions of the others.  Whatever the bot, the store and the
    model do, [main_chat_handler] leaves the session of every user other
    than the sender as it was. *)
Theorem handler_other_sessions (self : FouserBot) (u : update) (resp : option str)
    (now : timestamp) (w : world) (other : Z) :
  other <> from_user u ->
  user_data (snd (main_chat_handler self u resp now w)) !! other
  = user_data w !! other.
Proof.
  intros Hne.
  destruct (model self) eqn:Hm; [destruct (supabase self) eqn:Hs|].
  - destruct resp as [r|].
    + destruct (handler_answer self u r now w Hm Hs)
        as (wb & wd & we & w' & Hrun & Hb & Hd & He & Hp).
      rewrite Hrun. simpl.
      destruct Hd as (_ & _ & _ & _ & _ & Hud).
      destruct He as ((_ & _ & Hue & _) & _).
      destruct Hp as (_ & Hup & _).
      rewrite Hup, Hue, Hud. apply lookup_insert_ne. congruence.
    + destruct (handler_outage self u now w Hm Hs)
        as (w' & -> & _ & _ & _ & _ & _ & _ & Hud & _).
      simpl. rewrite Hud.
      match goal with
      | |- context [match ?x with _ => _ end] => destruct x; [reflexivity|]
      end.
      apply lookup_insert_ne. congruence.
  - unfold main_chat_handler. rewrite Hm, Hs. reflexivity.
  - unfold main_chat_handler. rewrite Hm. reflexivity.
Qed.

(** The plan answer on [world1_down], whose store raises on the first
    request: the reply is the one of a store that serves.  An answer of
    4097 letters: the apology. *)
Lemma handler_reply_text_witness :
  replies_with bot0 hello answer_plan 9%Z world1_down
    (handler_reply world1_down answer_plan) /\
  replies_with bot0 hello answer_plan 9%Z world1 (handler_reply world1 answer_plan) /\
  handler_reply world1_down answer_plan = handler_reply world1 answer_plan /\
  replies_with bot0 hello answer_too_long 9%Z world1 SORRY.
Proof.
  split; [apply handler_reply_text; reflexivity|].
  split; [apply handler_reply_text; reflexivity|].
  split; [vm_compute; reflexivity|].
  replace SORRY with (handler_reply world1 answer_too_long)
    by (vm_compute; reflexivity).
  apply handler_reply_text; reflexivity.
Defined.

(** No answer to the first message of user 42 on [world2]: the apology,
    and an empty session. *)
Lemma handler_model_outage_witness :
  outbox (snd (main_chat_handler bot0 hello None 9%Z world2))
  = outbox world2 ++ [Typing 42; Reply 42 SORRY] /\
  user_data (snd (main_chat_handler bot0 hello None 9%Z world2)) !! 42%Z
  = Some (default [] (user_data world2 !! 42%Z)).
Proof.
  destruct (handler_model_outage bot0 hello 9%Z world2) as (Hout & _ & Hud & _);
    [reflexivity|reflexivity|].
  split; [exact Hout|exact Hud].
Defined.

(** The plan answer on [world1_down], whose store raises on the first
    request: only the turn of the model is stored.  On [world2], a store
    that serves, both turns are. *)
Lemma handler_logs_turns_witness :
  conversation_history (db (snd (main_chat_handler bot0 hello (Some answer_plan) 9%Z
                                   world1_down)))
  = [ai_turn hello answer_plan] /\
  conversation_history (db (snd (main_chat_handler bot0 hello (Some answer_plan) 9%Z
                                   world2)))
  = conversation_history (db world2) ++ [user_turn hello; ai_turn hello answer_plan].
Proof.
  split.
  - destruct (handler_logs_turns bot0 hello answer_plan 9%Z world1_down)
      as [Hch _]; [reflexivity|reflexivity|].
    exact Hch.
  - destruct (handler_logs_turns bot0 hello answer_plan 9%Z world2)
      as [_ Hboth]; [reflexivity|reflexivity|].
    apply Hboth. constructor.
Defined.

(** A second message of user 42, in [world2_talking]. *)
Lemma handler_continuing_session_witness :
  user_data (snd (main_chat_handler bot0 hello (Some (lit "ok")) 9%Z world2_talking))
  = <[42%Z := [(NewUser (lit "hi"), lit "hello")] ++ [(Forward (text hello), lit "ok")]]>
      (user_data world2_talking).
Proof.
  destruct (handler_continuing_session bot0 hello (lit "ok") 9%Z world2_talking
              [(NewUser (lit "hi"), lit "hello")])
    as [Hud _]; [reflexivity|reflexivity|vm_compute; reflexivity|].
  exact Hud.
Defined.

(** The first message of user 42 on [world2], where a row of the user is
    stored. *)
Lemma handler_first_message_witness :
  user_data (snd (main_chat_handler bot0 hello (Some (lit "ok")) 9%Z world2))
  = <[42%Z := [(first_prompt (load_result 42 (tail (faults world2)) (db world2))
                  (text hello), lit "ok")]]> (user_data world2).
Proof.
  apply (handler_first_message bot0 hello (lit "ok") 9%Z world2);
    [reflexivity|reflexivity|vm_compute; reflexivity].
Defined.

(** User 42 resets the chat of [world2_talking] and writes again. *)
Lemma reset_then_message_witness :
  user_data (snd (main_chat_handler bot0 hello (Some (lit "ok")) 9%Z
                    (snd (reset_chat hello world2_talking)))) !! 42%Z
  = Some [(first_prompt (load_result 42 (tail (faults world2_talking))
                           (db world2_talking)) (text hello), lit "ok")].
Proof.
  apply (reset_then_message bot0 hello hello (lit "ok") 9%Z world2_talking);
    reflexivity.
Defined.

(** The session of user 7 in [world1] after a plan for user 42. *)
Lemma handler_other_sessions_witness :
  user_data (snd (main_chat_handler bot0 hello (Some answer_plan) 9%Z world1)) !! 7%Z
  = user_data world1 !! 7%Z.
Proof.
  apply (handler_other_sessions bot0 hello (Some answer_plan) 9%Z world1 7%Z).
  vm_compute. discriminate.
Defined.

(** ** Further facts: [_extract_plan_text] *)

Lemma rstrip_idem (t : str) : rstrip (rstrip t) = rstrip t.
Proof.
  induction t as [|c t IH]; [reflexivity|].
  cbn [rstrip]. destruct (rstrip t) as [|x r] eqn:E.
  - destruct (isspace c) eqn:Hc; [reflexivity|].
    cbn [rstrip]. now rewrite Hc.
  - cbn [rstrip]. cbn [rstrip] in IH. rewrite IH. reflexivity.
Qed.

Lemma lstrip_head (t : str) : lstrip t = [] \/ starts_with_text (lstrip t) = true.
Proof.
  induction t as [|c t IH]; [now left|].
  cbn [lstrip]. destruct (isspace c) eqn:Hc; [exact IH|].
  right. simpl. now rewrite Hc.
Qed.

Lemma rstrip_head (t : str) :
  starts_with_text t = true -> starts_with_text (rstrip t) = true.
Proof.
  destruct t as [|c t]; [discriminate|]. simpl. intros Hc.
  destruct (rstrip t); simpl.
  - apply negb_true_iff in Hc. rewrite Hc. simpl. now rewrite Hc.
  - exact Hc.
Qed.

(** [strip] does nothing to a text it has returned. *)
Lemma strip_idem (t : str) : strip (strip t) = strip t.
Proof.
  unfold strip. destruct (lstrip_head t) as [-> | H]; [reflexivity|].
  rewrite (lstrip_text (rstrip (lstrip t))) by now apply rstrip_head.
  apply rstrip_idem.
Qed.

Lemma startswith_i_app (p a b : str) :
  startswith_i p a = true -> startswith_i p (a ++ b) = true.
Proof.
  revert a. induction p as [|x p IH]; intros a H; [reflexivity|].
  destruct a as [|y a]; [discriminate|]. simpl in *.
  apply andb_true_iff in H as [H1 H2]. now rewrite H1, IH.
Qed.

(** [find_i] finds the first place, and [None] means no place at all. *)
Lemma find_i_first (p t : str) (i : nat) :
  find_i p t = Some i ->
  startswith_i p (drop i t) = true /\
  forall j, (j < i)%nat -> startswith_i p (drop j t) = false.
Proof.
  revert i. induction t as [|c t IH]; intros i H.
  - destruct p; simpl in H; [|discriminate].
    injection H as <-. split; [reflexivity|]. intros j Hj. lia.
  - cbn [find_i] in H. destruct (startswith_i p (c :: t)) eqn:E.
    + injection H as <-. split; [exact E|]. intros j Hj. lia.
    + destruct (find_i p t) as [k|] eqn:Ek; [|discriminate].
      injection H as <-. destruct (IH k eq_refl) as [Hk Hbefore].
      split; [exact Hk|]. intros [|j] Hj; [exact E|]. apply Hbefore. lia.
Qed.

Lemma find_i_nowhere (t : str) :
  (forall j, startswith_i CONSULT (drop j t) = false) -> find_i CONSULT t = None.
Proof.
  intros H. rewrite <- (app_nil_r t).
  rewrite find_i_skip; [reflexivity|].
  intros j _. rewrite app_nil_r. apply H.
Qed.

Lemma no_phrase_prefix (a b : str) :
  find_i CONSULT (a ++ b) = None -> find_i CONSULT a = None.
Proof.
  intros H. apply find_i_nowhere. intros j.
  destruct (startswith_i CONSULT (drop j a)) eqn:E; [|reflexivity].
  pose proof (find_i_none _ _ j H) as Hj.
  pose proof (startswith_i_length _ _ E) as Hlen.
  rewrite length_drop in Hlen. change (length CONSULT) with 16%nat in Hlen.
  rewrite drop_app_le in Hj by lia.
  now rewrite (startswith_i_app _ _ b E) in Hj.
Qed.

Lemma no_phrase_suffix (t : str) (k : nat) :
  find_i CONSULT t = None -> find_i CONSULT (drop k t) = None.
Proof.
  intros H. apply find_i_nowhere. intros j.
  rewrite drop_drop. apply find_i_none. exact H.
Qed.

Lemma lstrip_drop (t : str) : exists k, lstrip t = drop k t.
Proof.
  induction t as [|c t [k IH]]; [now exists 0%nat|].
  cbn [lstrip]. destruct (isspace c); [exists (S k); exact IH|now exists 0%nat].
Qed.

Lemma rstrip_prefix (t : str) : exists s, t = rstrip t ++ s.
Proof.
  induction t as [|c t [s IH]]; [now exists []|].
  cbn [rstrip]. destruct (rstrip t) as [|x r] eqn:E.
  - destruct (isspace c).
    + exists (c :: t). reflexivity.
    + exists t. reflexivity.
  - exists s. simpl. f_equal. exact IH.
Qed.

Lemma no_phrase_strip (t : str) :
  find_i CONSULT t = None -> find_i CONSULT (strip t) = None.
Proof.
  intros H. unfold strip.
  destruct (lstrip_drop t) as [k ->].
  destruct (rstrip_prefix (drop k t)) as [s Hs].
  apply (no_phrase_prefix _ s). rewrite <- Hs. now apply no_phrase_suffix.
Qed.

Lemma search_disclaimer_none (t : str) :
  Re.search disclaimer_re t = None <-> find_i CONSULT t = None.
Proof.
  unfold Re.search. rewrite search_disclaimer.
  destruct (find_i CONSULT t); simpl; split; congruence.
Qed.

(** What is left when the match of the disclaimer pattern is cut out holds
    the phrase nowhere. *)
Lemma cut_disclaimer (t : str) (m : nat * Re.rmatch) :
  Re.search disclaimer_re t = Some m ->
  find_i CONSULT (replace (Re.group0 t m) [] t) = None.
Proof.
  unfold Re.search. rewrite search_disclaimer.
  destruct (find_i CONSULT t) as [i|] eqn:Hfind; [|discriminate].
  simpl. intros H. injection H as <-.
  unfold Re.group0. cbn [fst snd Re.m_end]. rewrite slice_to_end.
  destruct (find_i_first _ _ _ Hfind) as [Hat Hbefore].
  pose proof (startswith_i_length _ _ Hat) as Hlen.
  change (length CONSULT) with 16%nat in Hlen.
  pose proof Hlen as Hlen'. rewrite length_drop in Hlen'.
  destruct (drop i t) as [|o g] eqn:Hg; [simpl in Hlen; lia|].
  assert (Ht : t = take i t ++ o :: g) by now rewrite <- Hg, take_drop.
  assert (Hi : length (take i t) = i) by (rewrite length_take; lia).
  unfold replace.
  rewrite Ht at 1.
  rewrite replace_from_keep; [|discriminate|].
  - rewrite <- (app_nil_r (o :: g)) at 2. rewrite replace_from_hit. simpl.
    rewrite app_nil_r. apply find_i_nowhere. intros j.
    destruct (startswith_i CONSULT (drop j (take i t))) eqn:E; [|reflexivity].
    pose proof (startswith_i_length _ _ E) as Hl.
    rewrite length_drop, Hi in Hl. change (length CONSULT) with 16%nat in Hl.
    assert (Hj : (j < i)%nat) by lia.
    specialize (Hbefore j Hj). rewrite Ht in Hbefore.
    rewrite drop_app_le in Hbefore by lia.
    now rewrite (startswith_i_app _ _ (o :: g) E) in Hbefore.
  - intros j Hj. rewrite Hi in Hj. rewrite <- Ht.
    destruct (startswith (o :: g) (drop j t)) eqn:E; [|reflexivity].
    apply startswith_split in E.
    specialize (Hbefore j Hj). rewrite E in Hbefore.
    now rewrite (startswith_i_app _ _ _ Hat) in Hbefore.
Qed.

(** X17: the plan text is never empty and carries no space around it.
    Whatever the answer of the model, the text [_extract_plan_text]
    returns is not empty, and [strip] leaves it as it is. *)
Theorem extract_plan_text_stripped (text : str) :
  fst (_extract_plan_text text) <> [] /\
  strip (fst (_extract_plan_text text)) = fst (_extract_plan_text text).
Proof.
  unfold _extract_plan_text.
  set (p0 := strip (replace END_OF_PLAN [] text)).
  set (p1 := match Re.search profile_re p0 with
             | Some m => strip (replace (Re.group0 p0 m) [] p0)
             | None => p0
             end).
  set (p2 := match Re.search disclaimer_re p1 with
             | Some m => strip (replace (Re.group0 p1 m) [] p1)
             | None => p1
             end).
  assert (H0 : strip p0 = p0) by apply strip_idem.
  assert (H1 : strip p1 = p1).
  { subst p1. destruct (Re.search profile_re p0); [apply strip_idem|exact H0]. }
  assert (H2 : strip p2 = p2).
  { subst p2. destruct (Re.search disclaimer_re p1); [apply strip_idem|exact H1]. }
  destruct p2 as [|c p2'] eqn:E; simpl fst.
  - split; [discriminate|]. vm_compute. reflexivity.
  - rewrite H2. split; [discriminate|exact H2].
Qed.

(** X18: the plan text never holds the disclaimer.  Whatever the answer of
    the model, the pattern [consult a doctor.*], letter case ignored,
    matches nowhere in the text [_extract_plan_text] returns. *)
Theorem extract_plan_text_no_disclaimer (text : str) :
  Re.search disclaimer_re (fst (_extract_plan_text text)) = None.
Proof.
  unfold _extract_plan_text.
  set (p0 := strip (replace END_OF_PLAN [] text)).
  set (p1 := match Re.search profile_re p0 with
             | Some m => strip (replace (Re.group0 p0 m) [] p0)
             | None => p0
             end).
  set (p2 := match Re.search disclaimer_re p1 with
             | Some m => strip (replace (Re.group0 p1 m) [] p1)
             | None => p1
             end).
  assert (H2 : find_i CONSULT p2 = None).
  { subst p2. destruct (Re.search disclaimer_re p1) as [m|] eqn:E.
    - apply no_phrase_strip. now apply cut_disclaimer.
    - now apply search_disclaimer_none. }
  destruct p2 as [|c p2'] eqn:E; simpl fst.
  - vm_compute. reflexivity.
  - apply search_disclaimer_none. now apply no_phrase_strip.
Qed.

(** X19: an answer of white space only.  When the answer of the model is
    empty or holds nothing but white space, [_extract_plan_text] returns
    the fixed text "No plan was generated." and logs one warning. *)
Theorem extract_plan_text_blank (text : str) :
  forallb isspace text = true ->
  _extract_plan_text text = (lit "No plan was generated.", [PlanTextEmpty]).
Proof.
  intros Hblank.
  assert (Hl : lacks 91 text = true).
  { unfold lacks. induction text as [|c t IH]; [reflexivity|].
    simpl in *. apply andb_true_iff in Hblank as [Hc Ht]. rewrite (IH Ht).
    destruct (c =? 91) eqn:E; [|reflexivity].
    apply N.eqb_eq in E. subst c. discriminate. }
  assert (Hs : strip text = []).
  { unfold strip. induction text as [|c t IH]; [reflexivity|].
    simpl in *. apply andb_true_iff in Hblank as [Hc Ht].
    apply andb_true_iff in Hl as [_ Hl]. rewrite Hc. now apply IH. }
  unfold _extract_plan_text.
  assert (Hr : replace END_OF_PLAN [] text = text).
  { change END_OF_PLAN with (91 :: lit "END_OF_PLAN]"). unfold replace.
    rewrite <- (app_nil_r text) at 1. rewrite replace_from_lacks by exact Hl.
    simpl. apply app_nil_r. }
  rewrite Hr, Hs. reflexivity.
Qed.

(** Two spaces and a line feed. *)
Lemma extract_plan_text_blank_witness :
  _extract_plan_text (lit "  " ++ lit_nl) = (lit "No plan was generated.", [PlanTextEmpty]).
Proof.
  apply extract_plan_text_blank. vm_compute. reflexivity.
Defined.

(** ** Further facts: [_extract_profile_json] *)

(** Where the profile pattern matches, the text reads: the marker, white
    space, and a span from an opening brace to the first closing brace
    after it, which is the captured group. *)
Lemma search_profile_inv (text : str) (m : nat * Re.rmatch) :
  Re.search profile_re text = Some m ->
  exists pre ws body rest,
    text = pre ++ USER_DATA_JSON ++ ws ++ (123 :: body ++ [125]) ++ rest /\
    forallb isspace ws = true /\ lacks 125 body = true /\
    Re.group1 text m = 123 :: body ++ [125].
Proof.
  destruct m as [i m]. intros H. unfold Re.search in H.
  apply search_from_found in H as (k & Hi & H). cbn [plus] in Hi. subst i.
  rewrite profile_re_split, match_literal in H.
  destruct (startswith USER_DATA_JSON (drop k text)) eqn:Hmark; [|discriminate].
  apply startswith_split in Hmark.
  unfold profile_re_tail in H.
  apply match_greedy_inv in H as (j & Hws & H).
  set (T1 := drop (length USER_DATA_JSON) (drop k text)) in *.
  set (p := (k + length USER_DATA_JSON + j)%nat) in *.
  destruct (drop j T1) as [|c t] eqn:E; [discriminate|].
  change (Re.match_here (Re.GroupOpen :: Re.One (Re.Lit 123) :: ?r) (c :: t) p)
    with (match (if 123 =? c then Re.match_here r t (S p) else None) with
          | Some m => Some {| Re.m_end := Re.m_end m; Re.g1_start := p;
                              Re.g1_end := Re.g1_end m |}
          | None => None
          end) in H.
  destruct (123 =? c) eqn:Ec; [|discriminate].
  apply N.eqb_eq in Ec. subst c.
  destruct (Re.match_here [Re.Lazy Re.Dot; Re.One (Re.Lit 125); Re.GroupClose] t (S p))
    as [m'|] eqn:E'; [|discriminate].
  injection H as <-.
  apply match_lazy_brace_inv in E' as (body & rest & -> & Hbody & Hend).
  exists (take k text), (take j T1), body, rest.
  assert (Htext : text = take k text ++ USER_DATA_JSON ++ take j T1
                         ++ (123 :: body ++ [125]) ++ rest).
  { rewrite <- (take_drop k text) at 1. f_equal. rewrite Hmark at 1. f_equal.
    fold T1. rewrite <- (take_drop j T1) at 1. f_equal. rewrite E.
    simpl. now rewrite <- app_assoc. }
  split; [exact Htext|]. split; [exact Hws|]. split; [exact Hbody|].
  unfold Re.group1, slice. cbn [snd Re.g1_start Re.g1_end]. rewrite Hend.
  assert (Hdrop : drop p text = 123 :: body ++ 125 :: rest).
  { subst p. rewrite <- !drop_drop. fold T1. exact E. }
  rewrite Hdrop.
  replace (S (S p + length body) - p)%nat with (S (length body + 1)) by lia.
  simpl. f_equal. rewrite take_app_ge by lia.
  replace (length body + 1 - length body)%nat with 1%nat by lia. reflexivity.
Qed.

(** X20: a profile that is returned was in the text.  When
    [_extract_profile_json] returns a profile, the text holds the marker
    [[USER_DATA_JSON]], then white space, if any, then a span from an
    opening brace to the first closing brace after it, and the profile is
    what [json.loads] makes of that span. *)
Theorem extract_profile_sound (py : interpreter) (text : str) (d : pydict) :
  fst (_extract_profile_json py text) = Val (Some d) ->
  exists pre ws body rest,
    text = pre ++ USER_DATA_JSON ++ ws ++ (123 :: body ++ [125]) ++ rest /\
    forallb isspace ws = true /\ lacks 125 body = true /\
    loads py (123 :: body ++ [125]) = Loaded (JObj d).
Proof.
  unfold _extract_profile_json.
  destruct (Re.search profile_re text) as [m|] eqn:Hm; [|discriminate].
  destruct (search_profile_inv text m Hm) as (pre & ws & body & rest & Ht & Hws & Hb & Hg).
  rewrite Hg. intros H.
  exists pre, ws, body, rest. repeat (split; [assumption|]).
  destruct (loads py (123 :: body ++ [125])) as [[]| |]; simpl in H; try discriminate.
  now injection H as ->.
Qed.

(** The profile of [answer_plan] and the span it was read from. *)
Lemma extract_profile_sound_witness :
  exists pre ws body rest,
    answer_plan = pre ++ USER_DATA_JSON ++ ws ++ (123 :: body ++ [125]) ++ rest /\
    loads cpython (123 :: body ++ [125])
    = Loaded (JObj [(lit "name", JStr (lit "Sam")); (lit "age", JInt 30)]).
Proof.
  destruct (extract_profile_sound cpython answer_plan
              [(lit "name", JStr (lit "Sam")); (lit "age", JInt 30)])
    as (pre & ws & body & rest & Ht & _ & _ & Hl); [vm_compute; reflexivity|].
  exists pre, ws, body, rest. split; [exact Ht|exact Hl].
Defined.

(** ** Further facts: from a plan to the next greeting *)

Lemma scan_pairs_unique (py : interpreter) (depth n : nat) (acc : pydict) (s : str)
    (d : pydict) (r : str) :
  keys_unique acc -> scan_pairs py depth n acc s = Scanned (JObj d) r -> keys_unique d.
Proof.
  revert acc s. induction n as [|n IH]; intros acc s Hacc H; [discriminate|].
  simpl in H.
  repeat match type of H with
         | match ?x with _ => _ end = _ => destruct x eqn:?; try discriminate
         | (if ?x then _ else _) = _ => destruct x eqn:?; try discriminate
         | (let '(_, _) := ?x in _) = _ => destruct x eqn:?
         end.
  - injection H as <- _. now apply keys_unique_set.
  - eapply IH; [|exact H]. now apply keys_unique_set.
Qed.

(** A [dict] that [json.loads] reads from a text that starts with a brace
    holds each key once. *)
Lemma loads_brace_unique (py : interpreter) (s : str) (d : pydict) :
  loads py (123 :: s) = Loaded (JObj d) -> keys_unique d.
Proof.
  rewrite loads_brace. intros H.
  destruct (recursion_room py <=? 0)%nat; [discriminate|].
  destruct (skip_ws s) as [|c1 r1]; [discriminate|].
  destruct (c1 =? 125).
  - destruct (skip_ws r1); [|discriminate]. injection H as <-. constructor.
  - destruct (scan_pairs py 1 (2 * length (123 :: s)) [] (c1 :: r1))
      as [v' r'| |] eqn:E; try discriminate.
    destruct (skip_ws r'); [|discriminate]. injection H as ->.
    eapply scan_pairs_unique; [|exact E]. constructor.
Qed.

Lemma extract_profile_keys_unique (py : interpreter) (text : str) (d : pydict) :
  fst (_extract_profile_json py text) = Val (Some d) -> keys_unique d.
Proof.
  unfold _extract_profile_json.
  destruct (Re.search profile_re text) as [m|] eqn:Hm; [|discriminate].
  destruct (group1_starts_with_brace text m Hm) as [s Hs]. rewrite Hs.
  destruct (loads py (123 :: s)) as [[]| |] eqn:E; simpl; try discriminate.
  intros H. injection H as <-. now apply (loads_brace_unique py s).
Qed.

(** On committed tables a store that serves returns the committed plan
    and a row with the committed fields. *)
Lemma load_result_committed (uid : Z) (d : pydict) (plan : str) (now : timestamp)
    (tb : tables) (fl : list bool) :
  keys_unique d ->
  Forall (fun b => b = false) fl ->
  exists row,
    load_result uid fl (committed uid d plan now tb) = Some (row, plan) /\
    dict_get (lit "user_id") row = Some (JInt uid) /\
    forall k v, k <> lit "user_id" -> dict_get k d = Some v -> dict_get k row = Some v.
Proof.
  intros Hu Hfl.
  destruct (select_after_upsert uid (dict_set (lit "user_id") (JInt uid) d) (users tb))
    as (row & rest & Hsel & Hrow);
    [now apply keys_unique_set|apply dict_get_set_eq|].
  exists row. split; [|split].
  - unfold load_result. rewrite (all_false_hd fl Hfl).
    rewrite (all_false_hd _ (all_false_tail fl Hfl)).
    unfold users_select. cbn [users committed]. rewrite Hsel.
    unfold last_plan_of, plan_select_active. rewrite committed_active. reflexivity.
  - apply Hrow, dict_get_set_eq.
  - intros k v Hk Hget. apply Hrow. rewrite dict_get_set_ne by congruence. exact Hget.
Qed.

(** X21: from a plan to the next greeting.  With both clients and a store
    that serves every request, after the handler was given an answer with
    the marker and a profile that is not empty, the first message of the
    same user in a new session (after a reset or a restart), on the same
    tables, sends the model the returning-user note with the plan text
    that was extracted from that answer and a profile row that holds every
    field of the profile of that answer. *)
Theorem plan_then_greeting (self : FouserBot) (u u2 : update) (r r2 : str)
    (now now2 : timestamp) (w w2 : world) (d : pydict) :
  model self = true -> supabase self = true ->
  healthy w ->
  contains END_OF_PLAN r = true ->
  fst (_extract_profile_json (python w) r) = Val (Some d) ->
  d <> [] ->
  db w2 = db (snd (main_chat_handler self u (Some r) now w)) ->
  healthy w2 ->
  user_data w2 !! from_user u = None ->
  from_user u2 = from_user u ->
  exists row,
    user_data (snd (main_chat_handler self u2 (Some r2) now2 w2)) !! from_user u
    = Some [(ReturningUser row (fst (_extract_plan_text r))
               (default (JStr (lit "friend")) (dict_get (lit "name") row)) (text u2),
             r2)] /\
    dict_get (lit "user_id") row = Some (JInt (from_user u)) /\
    forall k v, k <> lit "user_id" -> dict_get k d = Some v -> dict_get k row = Some v.
Proof.
  intros Hm Hs Hw Hc Hp Hd Hdb Hw2 Hsess Hsame.
  destruct (handler_run self u r now w Hm Hs)
    as (w1 & _ & _ & (Hus & Hph & _) & Hf1 & (Hpy & _) & Hrun).
  pose proof Hp as Hp1. rewrite <- Hpy in Hp1.
  destruct (process_reply_commit self u r now w1 d Hs Hc Hp1) as (w' & E & Hdb' & _).
  { destruct d; [congruence|reflexivity]. }
  { now apply Hf1. }
  rewrite Hrun, E in Hdb. simpl in Hdb.
  destruct (load_result_committed (from_user u) d (fst (_extract_plan_text r)) now
              (db w) (tail (faults w2)))
    as (row & Hload & Hid & Hrow).
  { now apply (extract_profile_keys_unique (python w) r). }
  { now apply healthy_tail. }
  exists row. split; [|split; [exact Hid|exact Hrow]].
  destruct (handler_answer self u2 r2 now2 w2 Hm Hs)
    as (wb & wd & we & w2' & Hrun2 & _ & Hd2 & He2 & Hp2).
  rewrite Hrun2. simpl.
  destruct Hd2 as (_ & _ & _ & _ & _ & Hud).
  destruct He2 as ((_ & _ & Hue & _) & _).
  destruct Hp2 as (_ & Hup & _).
  rewrite Hup, Hue, Hud, Hsame. unfold chat_session in *. rewrite Hsess.
  rewrite lookup_insert_eq. do 3 f_equal.
  rewrite (load_result_ext _ _ (committed (from_user u) d (fst (_extract_plan_text r))
                                  now (db w)) (db w2)).
  - rewrite Hload. reflexivity.
  - rewrite Hdb, Hdb'. simpl. now rewrite Hus.
  - rewrite Hdb, Hdb'. simpl. now rewrite Hph.
Qed.

(** The plan answer on [world2], then a first message on the tables that
    result. *)
Lemma plan_then_greeting_witness :
  exists row,
    user_data
      (snd (main_chat_handler bot0 hello (Some (lit "ok")) 11%Z
              (set_db (db (snd (main_chat_handler bot0 hello (Some answer_plan) 9%Z
                                  world2))) world2))) !! 42%Z
    = Some [(ReturningUser row (fst (_extract_plan_text answer_plan))
               (default (JStr (lit "friend")) (dict_get (lit "name") row)) (text hello),
             lit "ok")] /\
    dict_get (lit "age") row = Some (JInt 30).
Proof.
  destruct (plan_then_greeting bot0 hello hello answer_plan (lit "ok") 9%Z 11%Z world2
              (set_db (db (snd (main_chat_handler bot0 hello (Some answer_plan) 9%Z
                                  world2))) world2)
              [(lit "name", JStr (lit "Sam")); (lit "age", JInt 30)])
    as (row & Hud & _ & Hrow);
    [reflexivity|reflexivity|constructor|vm_compute; reflexivity|vm_compute; reflexivity
    |discriminate|vm_compute; reflexivity|vm_compute; constructor
    |vm_compute; reflexivity|reflexivity|].
  exists row. split; [exact Hud|].
  apply Hrow; [vm_compute; discriminate|reflexivity].
Defined.

(** ** Further facts: the empty profile, and start-up *)

(** X22: an empty profile counts as none.  With both clients, when the
    answer of the model has the marker and its profile block parses to the
    empty object, the handler does what it does for a block that does not
    parse: nothing is persisted, and the reply is the answer from which
    only [[END_OF_PLAN]] was removed, stripped, or the apology when
    Telegram refuses that text. *)
Theorem empty_profile_like_none (self : FouserBot) (u : update) (r : str)
    (now : timestamp) (w : world) :
  model self = true -> supabase self = true ->
  contains END_OF_PLAN r = true ->
  fst (_extract_profile_json (python w) r) = Val (Some []) ->
  quiet w (snd (main_chat_handler self u (Some r) now w)) /\
  replies_with self u r now w (delivered w (strip (replace END_OF_PLAN [] r))).
Proof.
  intros Hm Hs Hc Hp. unfold replies_with.
  destruct (handler_run self u r now w Hm Hs)
    as (w1 & _ & Ho & Hq & _ & (Hpy & Htg & _) & ->).
  rewrite <- Hpy in Hp.
  destruct (process_reply_no_profile self u r now w1 Hc (or_intror Hp))
    as (w2 & -> & Ho2 & _ & Hdb & Hrq & _ & _ & Htg2 & _).
  destruct (reply_or_apologise u (strip (replace END_OF_PLAN [] r)) w2)
    as (w3 & -> & Ho3 & _ & Hdb3 & Hrq3 & _).
  simpl. split.
  - eapply quiet_trans; [exact Hq|]. apply quiet_same; congruence.
  - rewrite Ho3, Ho2, Ho, <- app_assoc. unfold delivered.
    now rewrite Htg2, Htg.
Qed.

(** The answer with an empty profile block, on the empty store: the block
    is still in the reply. *)
Lemma empty_profile_like_none_witness :
  quiet world0 (snd (main_chat_handler bot0 hello (Some answer_empty_profile) 9%Z world0)) /\
  replies_with bot0 hello answer_empty_profile 9%Z world0
    (USER_DATA_JSON ++ lit " {}" ++ lit_nl ++ lit "1. Walk").
Proof.
  destruct (empty_profile_like_none bot0 hello answer_empty_profile 9%Z world0)
    as [Hquiet Hreply];
    [reflexivity|reflexivity|vm_compute; reflexivity|vm_compute; reflexivity|].
  split; [exact Hquiet|exact Hreply].
Defined.

(** X23: when polling starts.  The main block gets to [run_polling] exactly
    when the four variables are set to texts that are not empty and both
    the Supabase client and the Gemini model are built without an error;
    and the bot it builds never meets the check of [__init__] for missing
    Supabase variables. *)
Theorem main_polls_iff (e : environ) (create_client_ok genai_ok : bool) :
  (fst (main e create_client_ok genai_ok) = true <->
   unset (TELEGRAM_TOKEN e) = false /\ unset (GEMINI_API_KEY e) = false /\
   unset (SUPABASE_URL e) = false /\ unset (SUPABASE_SERVICE_KEY e) = false /\
   create_client_ok = true /\ genai_ok = true) /\
  ~ In SupabaseNotSet (snd (main e create_client_ok genai_ok)).
Proof.
  unfold main, __init__, run.
  destruct (unset (TELEGRAM_TOKEN e)), (unset (GEMINI_API_KEY e)),
    (unset (SUPABASE_URL e)), (unset (SUPABASE_SERVICE_KEY e)),
    create_client_ok, genai_ok; simpl;
    (split; [split; [intros H; try discriminate; repeat split
                    |intros (? & ? & ? & ? & ? & ?); congruence]
            |intros H; repeat (destruct H as [H | H]; try discriminate); exact H]).
Qed.

(** The four variables set and both clients built: polling starts. *)
Lemma main_polls_iff_witness : fst (main all_set true true) = true.
Proof.
  destruct (main_polls_iff all_set true true) as [[_ Hpolls] _].
  apply Hpolls. repeat split; reflexivity.
Defined.
